(** * The chat client's response assembler (client/app.js)

    A shallow embedding of the browser client: the citation renderer
    [addInlineCitations], the source panel [displaySourcesWithReferences],
    the two send paths [sendRegularMessage] and [sendStreamingMessage],
    [startNewChat] and [clearChat], over an explicit model of the page
    (conversation pane, source panel, message history, console).

    Text.  A JavaScript string is modelled by a [string] holding the text
    in the byte form in which the transport delivers it (UTF-8).  The
    string operations of the client (the test of an ASCII prefix, [slice]
    past it, [split] on an ASCII character, concatenation) give the same
    result on that form; an escape [\uXXXX] of JSON is decoded to the
    bytes of its code unit, and an escaped pair of surrogates to the four
    bytes of its character.  A chunk is the text [decoder.decode] returns.

    Values.  What [JSON.parse] returns is kept as a JSON value, and the
    code is followed on every value, well typed or not: truthiness,
    conversion to a string, property access and the type errors they
    raise are modelled.

    External code.  [marked.parse], the conversion of a number to text,
    the wording of native errors and the reading of markup by the browser
    (whether it holds an element of class [welcome-message], and what is
    left of it without the first one) are not part of the repository;
    they are the fields of the class [Engine].  [JSON.parse] is modelled
    in full.  The page elements the client looks up at load time exist.
    Syntax highlighting and scrolling do not change the markup assigned
    to a message and are left out. *)

From Stdlib Require Import Ascii String.
From stdpp Require Import base list strings pretty gmap.

Local Open Scope string_scope.

(** ** JavaScript strings *)

Module Js.

(** The double quote, written by code since it cannot stand in a literal. *)
Definition dquote : ascii := "034"%char.
Definition dq : string := String dquote "".
Definition backslash : ascii := "\"%char.
Definition newline : ascii := "010"%char.
Definition nl : string := String newline "".

(** [s.startsWith(p)] *)
Definition startsWith (s p : string) : bool := String.prefix p s.

(** [s.slice(n)] for [n] within the string, else the empty string. *)
Fixpoint slice (n : nat) (s : string) : string :=
  match n, s with
  | 0, _ => s
  | S n', String _ s' => slice n' s'
  | S _, "" => ""
  end.

(** [s.split(sep)] for a one-character separator: never empty. *)
Fixpoint split (sep : ascii) (s : string) : list string :=
  match s with
  | "" => [""]
  | String c s' =>
      if Ascii.eqb c sep then "" :: split sep s'
      else match split sep s' with
           | l :: ls => String c l :: ls
           | [] => [String c ""]
           end
  end.

(** [parts.join(sep)] *)
Fixpoint join (sep : string) (parts : list string) : string :=
  match parts with
  | [] => ""
  | [p] => p
  | p :: ps => p ++ sep ++ join sep ps
  end.

(** [parts.pop()] on the array a [split] returned: its last element. *)
Definition pop (parts : list string) : string := List.last parts "".

(** A string is truthy when it is not empty. *)
Definition nonempty (s : string) : bool :=
  match s with "" => false | String _ _ => true end.

End Js.

(** ** JSON values and [JSON.parse] *)

(** A number keeps the literal it was read from: its value as a double
    is needed only to print it, which is the engine's business. *)
#[local] Unset Elimination Schemes.
Inductive json : Type :=
| JNull
| JBool (b : bool)
| JNum (literal : string)
| JStr (s : string)
| JArr (items : list json)
| JObj (members : list (string * json)).
#[local] Set Elimination Schemes.

Module Parser.

Inductive parsed (A : Type) : Type :=
| Parsed (a : A) (rest : string)
| Malformed
| OutOfFuel.
Arguments Parsed {A} a rest.
Arguments Malformed {A}.
Arguments OutOfFuel {A}.

Definition is_ws (c : ascii) : bool :=
  Ascii.eqb c " " || Ascii.eqb c "009" || Ascii.eqb c "010" || Ascii.eqb c "013".

Definition is_digit (c : ascii) : bool :=
  ((48 <=? nat_of_ascii c) && (nat_of_ascii c <=? 57))%nat.

Fixpoint skip_ws (s : string) : string :=
  match s with
  | String c s' => if is_ws c then skip_ws s' else s
  | "" => ""
  end.

Definition hex_value (c : ascii) : option nat :=
  let n := nat_of_ascii c in
  if ((48 <=? n) && (n <=? 57))%nat then Some (n - 48)
  else if ((65 <=? n) && (n <=? 70))%nat then Some (n - 55)
  else if ((97 <=? n) && (n <=? 102))%nat then Some (n - 87)
  else None.

Definition hex4 (a b c d : ascii) : option nat :=
  match hex_value a, hex_value b, hex_value c, hex_value d with
  | Some x, Some y, Some z, Some w => Some (((x * 16 + y) * 16 + z) * 16 + w)
  | _, _, _, _ => None
  end.

(** The bytes of one escaped code unit [\uXXXX] that stands alone. *)
Definition encode_unit (n : nat) : string :=
  if (n <? 128)%nat then String (ascii_of_nat n) ""
  else if (n <? 2048)%nat then
    String (ascii_of_nat (192 + n / 64))
      (String (ascii_of_nat (128 + n mod 64)) "")
  else
    String (ascii_of_nat (224 + n / 4096))
      (String (ascii_of_nat (128 + (n / 64) mod 64))
         (String (ascii_of_nat (128 + n mod 64)) "")).

(** A character outside the basic plane is escaped as two code units,
    a high and a low surrogate: together they are one character of four
    bytes. *)
Definition is_high (n : nat) : bool := ((216 * 256 <=? n) && (n <? 220 * 256))%nat.
Definition is_low (n : nat) : bool := ((220 * 256 <=? n) && (n <? 224 * 256))%nat.

Definition encode_pair (high low : nat) : string :=
  let point := 256 * 256 + (high - 216 * 256) * 1024 + (low - 220 * 256) in
  String (ascii_of_nat (240 + point / (64 * 4096)))
    (String (ascii_of_nat (128 + (point / 4096) mod 64))
       (String (ascii_of_nat (128 + (point / 64) mod 64))
          (String (ascii_of_nat (128 + point mod 64)) ""))).

(** The code unit of an escape [\uXXXX] at the head of [s]. *)
Definition escaped_unit (s : string) : option nat :=
  match s with
  | String b (String u (String h1 (String h2 (String h3 (String h4 _))))) =>
      if Ascii.eqb b Js.backslash && Ascii.eqb u "u" then hex4 h1 h2 h3 h4
      else None
  | _ => None
  end.

Definition escape_char (e : ascii) : option ascii :=
  if Ascii.eqb e Js.dquote then Some Js.dquote
  else if Ascii.eqb e Js.backslash then Some Js.backslash
  else if Ascii.eqb e "/" then Some "/"%char
  else if Ascii.eqb e "b" then Some "008"%char
  else if Ascii.eqb e "f" then Some "012"%char
  else if Ascii.eqb e "n" then Some "010"%char
  else if Ascii.eqb e "r" then Some "013"%char
  else if Ascii.eqb e "t" then Some "009"%char
  else None.

Definition push (pre : string) (r : option (string * string)) :
    option (string * string) :=
  match r with
  | Some (t, k) => Some (pre ++ t, k)
  | None => None
  end.

(** The characters of a string literal after its opening quote, up to
    and including the closing quote. *)
Fixpoint parse_chars (s : string) : option (string * string) :=
  match s with
  | "" => None
  | String c r =>
      if Ascii.eqb c Js.dquote then Some ("", r)
      else if Ascii.eqb c Js.backslash then
        match r with
        | "" => None
        | String e r' =>
            if Ascii.eqb e "u" then
              match r' with
              | String h1 (String h2 (String h3 (String h4 r''))) =>
                  match hex4 h1 h2 h3 h4 with
                  | Some n =>
                      match r'' with
                      | String _ (String _ (String _ (String _ (String _
                          (String _ r3))))) =>
                          match escaped_unit r'' with
                          | Some m =>
                              if is_high n && is_low m then
                                push (encode_pair n m) (parse_chars r3)
                              else push (encode_unit n) (parse_chars r'')
                          | None => push (encode_unit n) (parse_chars r'')
                          end
                      | _ => push (encode_unit n) (parse_chars r'')
                      end
                  | None => None
                  end
              | _ => None
              end
            else
              match escape_char e with
              | Some ch => push (String ch "") (parse_chars r')
              | None => None
              end
        end
      else if (nat_of_ascii c <? 32)%nat then None
      else push (String c "") (parse_chars r)
  end.

Fixpoint span_digits (s : string) : string * string :=
  match s with
  | String c s' =>
      if is_digit c then let '(ds, r) := span_digits s' in (String c ds, r)
      else ("", s)
  | "" => ("", "")
  end.

(** At least one digit. *)
Definition digits1 (s : string) : option (string * string) :=
  match span_digits s with
  | ("", _) => None
  | (ds, r) => Some (ds, r)
  end.

Definition lex_exponent (s : string) : option (string * string) :=
  match s with
  | String c r =>
      if Ascii.eqb c "e" || Ascii.eqb c "E" then
        let '(sign, r1) :=
          match r with
          | String g r' =>
              if Ascii.eqb g "+" || Ascii.eqb g "-" then (String g "", r')
              else ("", r)
          | "" => ("", r)
          end in
        match digits1 r1 with
        | Some (ds, k) => Some (String c sign ++ ds, k)
        | None => None
        end
      else Some ("", s)
  | "" => Some ("", s)
  end.

Definition lex_fraction (s : string) : option (string * string) :=
  match s with
  | String c r =>
      if Ascii.eqb c "." then
        match digits1 r with
        | Some (ds, k) => Some (String c ds, k)
        | None => None
        end
      else Some ("", s)
  | "" => Some ("", s)
  end.

(** A JSON number: an optional minus sign; a zero, or a digit from 1 to 9
    and more digits; an optional fraction (a point and digits); an
    optional exponent (e or E, an optional sign, digits). *)
Definition lex_number (s : string) : option (string * string) :=
  let '(sign, s1) :=
    match s with
    | String c r => if Ascii.eqb c "-" then ("-", r) else ("", s)
    | "" => ("", s)
    end in
  let int_part :=
    match s1 with
    | String c r => if Ascii.eqb c "0" then Some ("0", r) else digits1 s1
    | "" => None
    end in
  match int_part with
  | Some (i, r1) =>
      match lex_fraction r1 with
      | Some (f, r2) =>
          match lex_exponent r2 with
          | Some (e, r3) => Some (sign ++ i ++ f ++ e, r3)
          | None => None
          end
      | None => None
      end
  | None => None
  end.

Definition parse_scalar (s : string) : parsed json :=
  if Js.startsWith s "true" then Parsed (JBool true) (Js.slice 4 s)
  else if Js.startsWith s "false" then Parsed (JBool false) (Js.slice 5 s)
  else if Js.startsWith s "null" then Parsed JNull (Js.slice 4 s)
  else match lex_number s with
       | Some (n, r) => Parsed (JNum n) r
       | None => Malformed
       end.

(** Recursive descent; every call spends one unit of fuel. *)
Fixpoint parse_value (fuel : nat) (s : string) : parsed json :=
  match fuel with
  | 0 => OutOfFuel
  | S f =>
      match skip_ws s with
      | "" => Malformed
      | String c r =>
          if Ascii.eqb c "[" then
            match skip_ws r with
            | String d r' =>
                if Ascii.eqb d "]" then Parsed (JArr []) r'
                else parse_elements f r []
            | "" => Malformed
            end
          else if Ascii.eqb c "{" then
            match skip_ws r with
            | String d r' =>
                if Ascii.eqb d "}" then Parsed (JObj []) r'
                else parse_members f r []
            | "" => Malformed
            end
          else if Ascii.eqb c Js.dquote then
            match parse_chars r with
            | Some (t, k) => Parsed (JStr t) k
            | None => Malformed
            end
          else parse_scalar (String c r)
      end
  end
with parse_elements (fuel : nat) (s : string) (acc : list json) : parsed json :=
  match fuel with
  | 0 => OutOfFuel
  | S f =>
      match parse_value f s with
      | Parsed v r =>
          match skip_ws r with
          | String d r' =>
              if Ascii.eqb d "," then parse_elements f r' (v :: acc)
              else if Ascii.eqb d "]" then Parsed (JArr (rev (v :: acc))) r'
              else Malformed
          | "" => Malformed
          end
      | Malformed => Malformed
      | OutOfFuel => OutOfFuel
      end
  end
with parse_members (fuel : nat) (s : string) (acc : list (string * json)) :
    parsed json :=
  match fuel with
  | 0 => OutOfFuel
  | S f =>
      match skip_ws s with
      | String q r =>
          if Ascii.eqb q Js.dquote then
            match parse_chars r with
            | Some (k, r1) =>
                match skip_ws r1 with
                | String d r2 =>
                    if Ascii.eqb d ":" then
                      match parse_value f r2 with
                      | Parsed v r3 =>
                          match skip_ws r3 with
                          | String e r4 =>
                              if Ascii.eqb e "," then
                                parse_members f r4 ((k, v) :: acc)
                              else if Ascii.eqb e "}" then
                                Parsed (JObj (rev ((k, v) :: acc))) r4
                              else Malformed
                          | "" => Malformed
                          end
                      | Malformed => Malformed
                      | OutOfFuel => OutOfFuel
                      end
                    else Malformed
                | "" => Malformed
                end
            | None => Malformed
            end
          else Malformed
      | "" => Malformed
      end
  end.

(** Enough for any text: a call is made only after a character was read
    or right before one is. *)
Definition fuel_for (s : string) : nat := 2 * String.length s + 2.

(** The whole text is one value between optional white space. *)
Definition parse_text (s : string) : option json :=
  match parse_value (fuel_for s) s with
  | Parsed v r => match skip_ws r with "" => Some v | String _ _ => None end
  | Malformed => None
  | OutOfFuel => None
  end.

End Parser.

(** ** Values, exceptions and the engine *)

(** A JavaScript value that came out of JSON: [None] is [undefined]. *)
Definition value : Type := option json.

(** Errors raised by the engine or a library, whose wording is theirs and
    depends on what failed. *)
Inductive native_error : Type :=
| SyntaxError (text : string)      (* JSON.parse on a malformed text *)
| TypeError (operation : string)   (* a property of null, a call of a non-function *)
| MarkedError (input : value)      (* marked.parse on what is not a string *)
| NetworkError.                    (* fetch or reader.read() rejected *)

(** A thrown value: [new Error(message)] or a native error. *)
Inductive js_error : Type :=
| Error (message : string)
| Native (e : native_error).

Inductive result (A : Type) : Type :=
| Ok (a : A)
| Throw (e : js_error).
Arguments Ok {A} a.
Arguments Throw {A} e.

Definition bind {A B : Type} (r : result A) (k : A -> result B) : result B :=
  match r with
  | Ok a => k a
  | Throw e => Throw e
  end.

Notation "'let*' x ':=' r 'in' k" := (bind r (fun x => k))
  (at level 10, x name, r at level 100, k at level 200).

(** Left to right; the first throw wins. *)
Fixpoint sequence {A : Type} (rs : list (result A)) : result (list A) :=
  match rs with
  | [] => Ok []
  | r :: rs' => let* a := r in let* l := sequence rs' in Ok (a :: l)
  end.

Definition JSON_parse (text : string) : result json :=
  match Parser.parse_text text with
  | Some v => Ok v
  | None => Throw (Native (SyntaxError text))
  end.

Class Engine : Type := {
  (** [marked.parse] on a string *)
  marked_parse : string -> string;
  (** the text of the number a JSON numeric literal denotes *)
  Number_toString : string -> string;
  (** [error.message] of a native error *)
  native_message : native_error -> string;
  (** [div.innerHTML = markup; div.querySelector('.welcome-message')]
      and its removal: the markup of what is left of the content when the
      first element of class [welcome-message] that the markup gives is
      taken out; nothing when it gives none *)
  welcome_removed : string -> option string;
}.

(** An object's own property, the last of duplicate keys. *)
Fixpoint member (k : string) (ms : list (string * json)) : value :=
  match ms with
  | [] => None
  | (k', v) :: ms' =>
      match member k ms' with
      | Some w => Some w
      | None => if String.eqb k k' then Some v else None
      end
  end.

(** [v.k] for the keys the client reads, none of which is a property of a
    prototype: only a parsed object has them. *)
Definition get (v : value) (k : string) : result value :=
  match v with
  | None | Some JNull => Throw (Native (TypeError ("read " ++ k)))
  | Some (JObj ms) => Ok (member k ms)
  | Some _ => Ok None
  end.

Section Engine.
Context `{Engine}.

Definition error_message (e : js_error) : string :=
  match e with
  | Error m => m
  | Native n => native_message n
  end.

Definition number_is_zero (literal : string) : bool :=
  String.eqb (Number_toString literal) "0".

Definition truthy (v : value) : bool :=
  match v with
  | None | Some JNull => false
  | Some (JBool b) => b
  | Some (JNum n) => negb (number_is_zero n)
  | Some (JStr s) => Js.nonempty s
  | Some (JArr _) | Some (JObj _) => true
  end.

(** Conversion to a string, as [+=] on a string and a template literal
    do it.  An array joins its elements with commas, [null] giving the
    empty string; an object is ["[object Object]"] unless a key of its
    own hides [toString]. *)
Fixpoint json_to_string (j : json) : result string :=
  match j with
  | JNull => Ok "null"
  | JBool true => Ok "true"
  | JBool false => Ok "false"
  | JNum n => Ok (Number_toString n)
  | JStr s => Ok s
  | JArr items =>
      let element (x : json) : result string :=
        match x with JNull => Ok "" | _ => json_to_string x end in
      (fix elements (l : list json) : result string :=
         match l with
         | [] => Ok ""
         | [x] => element x
         | x :: xs =>
             let* a := element x in
             let* b := elements xs in
             Ok (a ++ "," ++ b)
         end) items
  | JObj ms =>
      match member "toString" ms with
      | Some _ => Throw (Native (TypeError "convert object to primitive"))
      | None => Ok "[object Object]"
      end
  end.

Definition ToString (v : value) : result string :=
  match v with
  | None => Ok "undefined"
  | Some j => json_to_string j
  end.

(** [a || b] *)
Definition or_else (a b : value) : value := if truthy a then a else b.

(** [sources.length === 0] *)
Definition length_is_zero (v : value) : bool :=
  match v with
  | Some (JArr []) => true
  | Some (JStr "") => true
  | Some (JObj ms) =>
      match member "length" ms with
      | Some (JNum n) => number_is_zero n
      | _ => false
      end
  | _ => false
  end.

(** [!sources || sources.length === 0] *)
Definition no_sources (sources : value) : bool :=
  negb (truthy sources) || length_is_zero sources.

(** [v.startsWith('http')]: only a string has the method. *)
Definition startsWith_http (v : value) : result bool :=
  match v with
  | Some (JStr s) => Ok (Js.startsWith s "http")
  | _ => Throw (Native (TypeError "call startsWith"))
  end.

(** [source.url || (source.source && source.source.startsWith('http'))],
    as a condition. *)
Definition has_reference (source : value) : result bool :=
  let* url := get source "url" in
  if truthy url then Ok true
  else
    let* src := get source "source" in
    if truthy src then startsWith_http src else Ok false.

(** [v?.split('/').pop()] *)
Definition last_segment (v : value) : result value :=
  match v with
  | None | Some JNull => Ok None
  | Some (JStr s) => Ok (Some (JStr (Js.pop (Js.split "/" s))))
  | Some _ => Throw (Native (TypeError "call split"))
  end.

Definition citation_link (url title number : string) : string :=
  "<a href=" ++ Js.dq ++ url ++ Js.dq ++ " target=" ++ Js.dq ++ "_blank" ++ Js.dq
  ++ " rel=" ++ Js.dq ++ "noopener noreferrer" ++ Js.dq
  ++ " class=" ++ Js.dq ++ "citation-link" ++ Js.dq
  ++ " title=" ++ Js.dq ++ title ++ Js.dq ++ ">[" ++ number ++ "]</a>".

Definition citation_span (number : string) : string :=
  "<span class=" ++ Js.dq ++ "citation-number" ++ Js.dq ++ ">[" ++ number ++ "]</span>".

(** The callback of [sources.map] in [addInlineCitations]. *)
Definition citation (index : nat) (source : json) : result string :=
  let citationNumber := pretty (index + 1) in
  let* linked := has_reference (Some source) in
  if linked then
    let* u := get (Some source) "url" in
    let* src := get (Some source) "source" in
    let url := or_else u src in
    let* t := get (Some source) "title" in
    let* title :=
      (if truthy t then Ok t
       else let* seg := last_segment src in
            Ok (or_else seg (Some (JStr "Source")))) in
    let* url_text := ToString url in
    let* title_text := ToString title in
    Ok (citation_link url_text title_text citationNumber)
  else Ok (citation_span citationNumber).

Definition addInlineCitations (content : string) (sources : value) :
    result string :=
  if no_sources sources then Ok content
  else
    match sources with
    | Some (JArr items) =>
        let* cites := sequence (imap citation items) in
        let citationsHtml := Js.join " " cites in
        if Js.nonempty citationsHtml then Ok (content ++ " " ++ citationsHtml)
        else Ok content
    | _ => Throw (Native (TypeError "call map"))
    end.

End Engine.

(** ** The page *)

(** What a message's content element holds: markup assigned to
    [innerHTML], or text assigned to [textContent]. *)
Inductive content : Type :=
| InnerHTML (markup : string)
| TextContent (text : string).

(** A message element built by [addMessage]: the type in its class
    ([user] or [assistant]) and its content element. *)
Record message_div : Type := {
  message_type : string;
  message_content : content;
}.

(** A child of [messagesContainer]. *)
Inductive pane_child : Type :=
| WelcomeMessage
| MessageDiv (id : nat).

(** An entry of the source list. *)
Record source_item : Type := {
  item_name : string;
  item_link : option string;
  item_author : option string;
}.

(** [console.error('Failed to parse SSE data:', e)] *)
Inductive log_entry : Type :=
| FailedToParse (e : js_error).

Record page : Type := {
  (** the globals [sessionId] and [messages] (role, content) *)
  sessionId : string;
  messages : list (string * value);
  (** every message element created so far, attached or not; the
      position is the element's identity *)
  elements : list message_div;
  (** the children of [messagesContainer], in order *)
  messagesContainer : list pane_child;
  (** [sourcesSection.style.display] and the children of [sourcesList] *)
  sourcesSection_display : string;
  sourcesList : list source_item;
  console : list log_entry;
}.

Definition with_history (h : list (string * value)) (p : page) : page :=
  {| sessionId := sessionId p; messages := h; elements := elements p;
     messagesContainer := messagesContainer p;
     sourcesSection_display := sourcesSection_display p;
     sourcesList := sourcesList p; console := console p |}.

Definition with_pane (els : list message_div) (c : list pane_child) (p : page) :
    page :=
  {| sessionId := sessionId p; messages := messages p; elements := els;
     messagesContainer := c;
     sourcesSection_display := sourcesSection_display p;
     sourcesList := sourcesList p; console := console p |}.

Definition with_sources (d : string) (l : list source_item) (p : page) : page :=
  {| sessionId := sessionId p; messages := messages p; elements := elements p;
     messagesContainer := messagesContainer p;
     sourcesSection_display := d; sourcesList := l; console := console p |}.

Definition console_error (e : js_error) (p : page) : page :=
  {| sessionId := sessionId p; messages := messages p; elements := elements p;
     messagesContainer := messagesContainer p;
     sourcesSection_display := sourcesSection_display p;
     sourcesList := sourcesList p; console := console p ++ [FailedToParse e] |}.

(** [messages.push({ role, content })] *)
Definition push_message (role : string) (c : value) (p : page) : page :=
  with_history (messages p ++ [(role, c)]) p.

(** The content of a message with the first element of class
    [welcome-message] of its markup taken out, when there is one: text
    assigned to [textContent] makes no element. *)
Definition nested_welcome `{Engine} (els : list message_div) (id : nat) :
    option message_div :=
  match els !! id with
  | Some {| message_type := type; message_content := InnerHTML markup |} =>
      match welcome_removed markup with
      | Some rest =>
          Some {| message_type := type; message_content := InnerHTML rest |}
      | None => None
      end
  | _ => None
  end.

(** [messagesContainer.querySelector('.welcome-message')] and
    [welcomeMsg.remove()]: the first element of that class in document
    order goes.  It is the welcome message when no message before it in
    the pane holds such an element in its markup; else it is that
    element, which leaves the content of its message. *)
Fixpoint remove_welcome `{Engine} (els : list message_div) (c : list pane_child) :
    list message_div * list pane_child :=
  match c with
  | [] => (els, [])
  | WelcomeMessage :: c' => (els, c')
  | MessageDiv id :: c' =>
      match nested_welcome els id with
      | Some m => (<[id := m]> els, c)
      | None =>
          (fst (remove_welcome els c'), MessageDiv id :: snd (remove_welcome els c'))
      end
  end.

Definition is_message (id : nat) (c : pane_child) : bool :=
  match c with
  | MessageDiv i => Nat.eqb i id
  | WelcomeMessage => false
  end.

(** [addMessage(content, type, isHTML)]: returns the content element. *)
Definition addMessage `{Engine} (body : content) (type : string) (p : page) :
    page * nat :=
  let id := length (elements p) in
  let left := remove_welcome (elements p) (messagesContainer p) in
  (with_pane (fst left ++ [{| message_type := type; message_content := body |}])
     (snd left ++ [MessageDiv id]) p,
   id).

(** [div.parentElement.remove()]: the message leaves the pane; the
    element and its parent stay reachable from the variable. *)
Definition remove_message (id : nat) (p : page) : page :=
  with_pane (elements p)
    (filter (fun c => is_message id c = false) (messagesContainer p)) p.

(** [div.innerHTML = markup] *)
Definition set_innerHTML (id : nat) (markup : string) (p : page) : page :=
  with_pane
    (alter (fun m => {| message_type := message_type m;
                        message_content := InnerHTML markup |}) id (elements p))
    (messagesContainer p) p.

Definition loadingHTML : string :=
  Js.nl ++ "        <div class=" ++ Js.dq ++ "loading-dots" ++ Js.dq ++ ">" ++ Js.nl
  ++ "            <span></span>" ++ Js.nl
  ++ "            <span></span>" ++ Js.nl
  ++ "            <span></span>" ++ Js.nl
  ++ "        </div>" ++ Js.nl ++ "    ".

Definition createLoadingMessage `{Engine} (p : page) : page * nat :=
  addMessage (InnerHTML loadingHTML) "assistant" p.

(** [startNewChat]; the fresh session id is the environment's. *)
Definition startNewChat (fresh : string) (p : page) : page :=
  {| sessionId := fresh; messages := []; elements := elements p;
     messagesContainer := [WelcomeMessage];
     sourcesSection_display := "none"; sourcesList := [];
     console := console p |}.

Definition clearChat (p : page) : page :=
  with_history [] (with_pane (elements p) [WelcomeMessage] p).

(** What the conversation pane shows: its children with their contents. *)
Definition shown (p : page) : list (option message_div) :=
  map (fun c => match c with
                | WelcomeMessage => None
                | MessageDiv id => elements p !! id
                end) (messagesContainer p).

(** What [fetch] gives: a rejection, or a response with its status and
    body. *)
Inductive fetched (B : Type) : Type :=
| Rejected (e : js_error)
| Responded (ok : bool) (body : B).
Arguments Rejected {B} e.
Arguments Responded {B} ok body.

(** How the reading of a response body ends. *)
Inductive stream_end : Type :=
| Done
| ReadFailed (e : js_error).

(** The variables of one call of [sendStreamingMessage]. *)
Record stream_locals : Type := {
  loadingDiv : nat;
  fullResponse : string;
  sources : value;
  responseDiv : option nat;
  hasCreatedResponseDiv : bool;
}.

Definition with_sources_value (s : value) (l : stream_locals) : stream_locals :=
  {| loadingDiv := loadingDiv l; fullResponse := fullResponse l; sources := s;
     responseDiv := responseDiv l;
     hasCreatedResponseDiv := hasCreatedResponseDiv l |}.

Definition with_fullResponse (t : string) (l : stream_locals) : stream_locals :=
  {| loadingDiv := loadingDiv l; fullResponse := t; sources := sources l;
     responseDiv := responseDiv l;
     hasCreatedResponseDiv := hasCreatedResponseDiv l |}.

(** What happens next in a page with a streaming cycle in flight: the
    pending [read] settles, or the user starts a new chat or clears the
    chat. *)
Inductive tick : Type :=
| ReadChunk (chunk : string)
| ReadEnd (fin : stream_end)
| NewChat (fresh : string)
| ClearChat.

Inductive cycle : Type :=
| InFlight (l : stream_locals)
| Settled.

Section Client.
Context `{Engine}.

(** ** The source panel *)

(** One iteration of [sources.forEach] in [displaySourcesWithReferences]. *)
Definition source_entry (index : nat) (source : json) : result source_item :=
  let* s := get (Some source) "source" in
  let* u := get (Some source) "url" in
  let* t := get (Some source) "title" in
  let* displayName :=
    (if truthy (or_else s u) then
       match or_else s u with
       | Some (JStr uri) =>
           let file := Js.pop (Js.split "/" uri) in
           Ok (if Js.nonempty file then file else uri)
       | _ => Throw (Native (TypeError "call split"))
       end
     else if truthy t then ToString t
     else Ok "Unknown source") in
  let name := pretty (index + 1) ++ ". " ++ displayName in
  let* linked := has_reference (Some source) in
  let* link :=
    (if linked then let* href := ToString (or_else u s) in Ok (Some href)
     else Ok None) in
  let* a := get (Some source) "author" in
  let* author :=
    (if truthy a then let* text := ToString a in Ok (Some ("Author: " ++ text))
     else Ok None) in
  Ok {| item_name := name; item_link := link; item_author := author |}.

(** Entries are appended one by one; a throw keeps those already there. *)
Fixpoint append_entries (entries : list (result source_item)) (p : page) :
    page * result unit :=
  match entries with
  | [] => (p, Ok tt)
  | Ok item :: rest =>
      append_entries rest
        (with_sources (sourcesSection_display p) (sourcesList p ++ [item]) p)
  | Throw e :: _ => (p, Throw e)
  end.

Definition displaySourcesWithReferences (sources : value) (p : page) :
    page * result unit :=
  if no_sources sources then (with_sources "none" (sourcesList p) p, Ok tt)
  else
    let p1 := with_sources "block" [] p in
    match sources with
    | Some (JArr items) => append_entries (imap source_entry items) p1
    | _ => (p1, Throw (Native (TypeError "call forEach")))
    end.

Definition displaySources := displaySourcesWithReferences.

(** ** Sending *)

(** The [catch] block of both send functions. *)
Definition show_error (loading : nat) (e : js_error) (p : page) : page :=
  fst (addMessage (TextContent ("Error: " ++ error_message e)) "assistant"
         (remove_message loading p)).

(** [marked.parse(v)]: marked refuses what is not a string. *)
Definition marked (v : value) : result string :=
  match v with
  | Some (JStr s) => Ok (marked_parse s)
  | _ => Throw (Native (MarkedError v))
  end.

(** [new Error(v)] *)
Definition new_Error (v : value) : js_error :=
  match v with
  | None => Error ""
  | Some _ =>
      match ToString v with
      | Ok m => Error m
      | Throw e => e
      end
  end.

(** The [try] block of [sendRegularMessage] after the loading message:
    the page it leaves and how it ends. *)
Definition regular_try (loadingMessage : nat) (f : fetched string) (p : page) :
    page * result unit :=
  match f with
  | Rejected e => (p, Throw e)
  | Responded false body =>
      match JSON_parse body with
      | Throw e => (p, Throw e)
      | Ok error =>
          match get (Some error) "detail" with
          | Throw e => (p, Throw e)
          | Ok detail =>
              (p, Throw (new_Error
                           (or_else detail (Some (JStr "Failed to get response")))))
          end
      end
  | Responded true body =>
      match JSON_parse body with
      | Throw e => (p, Throw e)
      | Ok data =>
          let p1 := remove_message loadingMessage p in
          match (let* answer := get (Some data) "answer" in
                 let* formattedContent := marked answer in
                 let* sources := get (Some data) "sources" in
                 let* contentWithCitations :=
                   addInlineCitations formattedContent sources in
                 Ok (answer, sources, contentWithCitations)) with
          | Throw e => (p1, Throw e)
          | Ok (answer, sources, contentWithCitations) =>
              let '(p2, _) :=
                addMessage (InnerHTML contentWithCitations) "assistant" p1 in
              match displaySources sources p2 with
              | (p3, Throw e) => (p3, Throw e)
              | (p3, Ok _) => (push_message "assistant" answer p3, Ok tt)
              end
          end
      end
  end.

Definition sendRegularMessage (f : fetched string) (p : page) : page :=
  let '(p0, loadingMessage) := createLoadingMessage p in
  match regular_try loadingMessage f p0 with
  | (p1, Ok _) => p1
  | (p1, Throw e) => show_error loadingMessage e p1
  end.

(** The loading message gives way to an empty assistant message, once. *)
Definition create_response_div (st : page * stream_locals) :
    page * stream_locals :=
  let '(p, l) := st in
  if hasCreatedResponseDiv l then st
  else
    let '(p1, div) :=
      addMessage (TextContent "") "assistant" (remove_message (loadingDiv l) p) in
    (p1, {| loadingDiv := loadingDiv l; fullResponse := fullResponse l;
            sources := sources l; responseDiv := Some div;
            hasCreatedResponseDiv := true |}).

(** The update of the response element, [if (responseDiv) { ... }]: the
    whole markup is derived again and assigned; a throw of the renderer
    reaches the line's [catch]. *)
Definition render_response (st : page * stream_locals) : page * stream_locals :=
  let '(p, l) := st in
  match responseDiv l with
  | None => st
  | Some div =>
      let formattedContent := marked_parse (fullResponse l) in
      match addInlineCitations formattedContent (sources l) with
      | Throw e => (console_error e p, l)
      | Ok contentWithCitations => (set_innerHTML div contentWithCitations p, l)
      end
  end.

Definition is_type (type : value) (name : string) : bool :=
  match type with
  | Some (JStr s) => String.eqb s name
  | _ => false
  end.

(** The body of the loop over the lines of a chunk: the inner [try] with
    its [catch], which logs and goes on. *)
Definition process_line (st : page * stream_locals) (line : string) :
    page * stream_locals :=
  let '(p, l) := st in
  if Js.startsWith line "data: " then
    match JSON_parse (Js.slice 6 line) with
    | Throw e => (console_error e p, l)
    | Ok data =>
        match get (Some data) "type" with
        | Throw e => (console_error e p, l)
        | Ok type =>
            if is_type type "metadata" then
              match get (Some data) "sources" with
              | Throw e => (console_error e p, l)
              | Ok s =>
                  create_response_div
                    (p, with_sources_value (or_else s (Some (JArr []))) l)
              end
            else if is_type type "content" then
              let '(p1, l1) := create_response_div (p, l) in
              match (let* text := get (Some data) "text" in ToString text) with
              | Throw e => (console_error e p1, l1)
              | Ok text =>
                  render_response
                    (p1, with_fullResponse (fullResponse l1 ++ text) l1)
              end
            else if is_type type "error" then
              match get (Some data) "message" with
              | Throw e => (console_error e p, l)
              | Ok message => (console_error (new_Error message) p, l)
              end
            else (p, l)
        end
    end
  else (p, l).

(** One turn of the [while] loop after a chunk was read. *)
Definition process_chunk (st : page * stream_locals) (chunk : string) :
    page * stream_locals :=
  foldl process_line st (Js.split Js.newline chunk).

(** The outer [catch]. *)
Definition stream_catch (st : page * stream_locals) (e : js_error) : page :=
  show_error (loadingDiv (snd st)) e (fst st).

(** After the loop: the source panel, then the history. *)
Definition stream_done (st : page * stream_locals) : page :=
  let '(p, l) := st in
  match displaySourcesWithReferences (sources l) p with
  | (p1, Throw e) => stream_catch (p1, l) e
  | (p1, Ok _) => push_message "assistant" (Some (JStr (fullResponse l))) p1
  end.

Definition stream_start (p : page) : page * stream_locals :=
  let '(p0, div) := createLoadingMessage p in
  (p0, {| loadingDiv := div; fullResponse := ""; sources := Some (JArr []);
          responseDiv := None; hasCreatedResponseDiv := false |}).

(** [sendStreamingMessage], nothing else running meanwhile. *)
Definition sendStreamingMessage (f : fetched (list string * stream_end))
    (p : page) : page :=
  let st := stream_start p in
  match f with
  | Rejected e => stream_catch st e
  | Responded false _ => stream_catch st (Error "Failed to get response")
  | Responded true (chunks, fin) =>
      let st1 := foldl process_chunk st chunks in
      match fin with
      | Done => stream_done st1
      | ReadFailed e => stream_catch st1 e
      end
  end.

(** ** A streaming cycle among other handlers

    The function gives control back at each [await]; a click handler can
    run there. *)

Definition tick_step (st : page * cycle) (t : tick) : page * cycle :=
  let '(p, c) := st in
  match t, c with
  | NewChat fresh, _ => (startNewChat fresh p, c)
  | ClearChat, _ => (clearChat p, c)
  | ReadChunk chunk, InFlight l =>
      let '(p1, l1) := process_chunk (p, l) chunk in (p1, InFlight l1)
  | ReadEnd Done, InFlight l => (stream_done (p, l), Settled)
  | ReadEnd (ReadFailed e), InFlight l => (stream_catch (p, l) e, Settled)
  | _, Settled => (p, Settled)
  end.

Definition run_ticks (st : page * cycle) (ts : list tick) : page * cycle :=
  foldl tick_step st ts.

(** A cycle on a successful response, from the first [read] on. *)
Definition stream_cycle (p : page) (ts : list tick) : page * cycle :=
  let '(p0, l) := stream_start p in run_ticks (p0, InFlight l) ts.

End Client.

(** ** The protocol's data and their JSON form *)

(** A source as the protocol types it: each field a string or absent. *)
Record Source : Type := {
  source : option string;
  url : option string;
  title : option string;
  author : option string;
}.

(** A field of a parsed object read as an optional string: absent or
    [null] is no string, a string is itself, anything else is ill-typed. *)
Definition optional_string (k : string) (ms : list (string * json)) :
    option (option string) :=
  match member k ms with
  | None | Some JNull => Some None
  | Some (JStr s) => Some (Some s)
  | Some _ => None
  end.

(** The source a JSON value stands for, if it is one; other keys of the
    object do not matter. *)
Definition source_view (j : json) : option Source :=
  match j with
  | JObj ms =>
      match optional_string "source" ms, optional_string "url" ms,
            optional_string "title" ms, optional_string "author" ms with
      | Some s, Some u, Some t, Some a =>
          Some {| source := s; url := u; title := t; author := a |}
      | _, _, _, _ => None
      end
  | _ => None
  end.

Fixpoint sources_of (items : list json) : option (list Source) :=
  match items with
  | [] => Some []
  | j :: items' =>
      match source_view j, sources_of items' with
      | Some s, Some ss => Some (s :: ss)
      | _, _ => None
      end
  end.

(** The source list a value stands for, if it is an array of sources. *)
Definition sources_view (v : value) : option (list Source) :=
  match v with
  | Some (JArr items) => sources_of items
  | _ => None
  end.

(** The events of the stream. *)
Inductive ResponseEvent : Type :=
| Metadata (ss : list Source)
| ContentDelta (text : string)
| ErrorEvent (message : string).

(** The event a line carries, if it is a well-typed frame: the marker,
    one JSON object, a known [type] and a payload of the right type. *)
Definition decode_line (line : string) : option ResponseEvent :=
  if Js.startsWith line "data: " then
    match JSON_parse (Js.slice 6 line) with
    | Ok (JObj ms) =>
        match member "type" ms with
        | Some (JStr type) =>
            if String.eqb type "metadata" then
              match member "sources" ms with
              | None | Some JNull => Some (Metadata [])
              | Some (JArr items) =>
                  match sources_of items with
                  | Some ss => Some (Metadata ss)
                  | None => None
                  end
              | Some _ => None
              end
            else if String.eqb type "content" then
              match member "text" ms with
              | Some (JStr t) => Some (ContentDelta t)
              | _ => None
              end
            else if String.eqb type "error" then
              match member "message" ms with
              | Some (JStr m) => Some (ErrorEvent m)
              | _ => None
              end
            else None
        | _ => None
        end
    | _ => None
    end
  else None.

(** A marker-prefixed line that [JSON.parse] refuses. *)
Definition malformed_line (line : string) : bool :=
  Js.startsWith line "data: " &&
  match JSON_parse (Js.slice 6 line) with
  | Ok _ => false
  | Throw _ => true
  end.

(** The text a line adds to the answer: that of a content event. *)
Definition content_text (line : string) : string :=
  match decode_line line with
  | Some (ContentDelta t) => t
  | _ => ""
  end.

Fixpoint no_newline (s : string) : bool :=
  match s with
  | "" => true
  | String c s' => negb (Ascii.eqb c Js.newline) && no_newline s'
  end.

(** A line of the protocol: a frame with a well-typed event, a
    marker-prefixed line that is not JSON, or a line without the marker
    (a blank line, a comment). *)
Definition protocol_line (line : string) : bool :=
  no_newline line &&
  (bool_decide (is_Some (decode_line line)) || malformed_line line
   || negb (Js.startsWith line "data: ")).

(** A protocol line that carries neither sources nor text: an error
    event, a line that is not JSON, a line without the marker. *)
Definition quiet_line (line : string) : bool :=
  protocol_line line &&
  match decode_line line with
  | Some (Metadata _) | Some (ContentDelta _) => false
  | Some (ErrorEvent _) | None => true
  end.

(** A chunk made of whole lines, each ended by a newline. *)
Fixpoint chunk_of (lines : list string) : string :=
  match lines with
  | [] => ""
  | line :: rest => line ++ Js.nl ++ chunk_of rest
  end.

(** The texts of the content events among the lines, in order. *)
Fixpoint answer_of (lines : list string) : string :=
  match lines with
  | [] => ""
  | line :: rest => content_text line ++ answer_of rest
  end.

(** The events the lines deliver, in arrival order, and the text of
    their content events put together. *)
Definition events_of (lines : list string) : list ResponseEvent :=
  omap decode_line lines.

Fixpoint texts (events : list ResponseEvent) : string :=
  match events with
  | [] => ""
  | ContentDelta t :: rest => t ++ texts rest
  | _ :: rest => texts rest
  end.

(** The response element of a cycle, once there is one, is an element of
    the page. *)
Definition consistent (st : page * stream_locals) : Prop :=
  match responseDiv (snd st) with
  | Some div =>
      div < length (elements (fst st)) /\ hasCreatedResponseDiv (snd st) = true
  | None => hasCreatedResponseDiv (snd st) = false
  end.

(** What a line can do to a cycle, whatever it holds: nothing; a log
    entry; new sources (and the response element); a text appended and
    rendered; or a log entry after the response element was made. *)
Inductive line_effect `{Engine} :
    page * stream_locals -> page * stream_locals -> Prop :=
| effect_none st : line_effect st st
| effect_log p l e : line_effect (p, l) (console_error e p, l)
| effect_metadata p l v :
    line_effect (p, l) (create_response_div (p, with_sources_value v l))
| effect_content p l t :
    line_effect (p, l)
      (render_response
         (fst (create_response_div (p, l)),
          with_fullResponse
            (fullResponse (snd (create_response_div (p, l))) ++ t)
            (snd (create_response_div (p, l)))))
| effect_content_failed p l e :
    line_effect (p, l)
      (console_error e (fst (create_response_div (p, l))),
       snd (create_response_div (p, l))).

(** What a chat shows besides the contents of its elements: the session,
    the history, the children of the pane and the source panel. *)
Definition chat_state (p : page) :
    string * list (string * value) * list pane_child * string * list source_item :=
  (sessionId p, messages p, messagesContainer p, sourcesSection_display p,
   sourcesList p).

(** The content of an element of the page. *)
Definition content_at (id : nat) (p : page) : option content :=
  message_content <$> elements p !! id.

(** ** The citation markers of a typed source list *)

(** An optional string that is there and not empty. *)
Definition filled (o : option string) : bool :=
  match o with
  | Some s => Js.nonempty s
  | None => false
  end.

Definition text_of (o : option string) : string := default "" o.

(** The source has a reference to link to, as the code decides it. *)
Definition linkable (s : Source) : bool :=
  filled (url s) || Js.startsWith (text_of (source s)) "http".

(** The same as the sentence of the specification words it: a [url]
    field present, or a locator starting with [http]. *)
Definition url_shaped_as_stated (s : Source) : bool :=
  bool_decide (is_Some (url s)) || Js.startsWith (text_of (source s)) "http".

Definition link_target (s : Source) : string :=
  if filled (url s) then text_of (url s) else text_of (source s).

Definition link_title (s : Source) : string :=
  if filled (title s) then text_of (title s)
  else
    match source s with
    | Some l =>
        let file := Js.pop (Js.split "/" l) in
        if Js.nonempty file then file else "Source"
    | None => "Source"
    end.

(** The marker of the source at position [index]. *)
Definition marker (index : nat) (s : Source) : string :=
  if linkable s then
    citation_link (link_target s) (link_title s) (pretty (index + 1))
  else citation_span (pretty (index + 1)).

Definition markers (ss : list Source) : list string := imap marker ss.

(** The trailing block: a space, then the markers separated by spaces. *)
Definition citation_block (ss : list Source) : string :=
  match ss with
  | [] => ""
  | _ => " " ++ Js.join " " (markers ss)
  end.

(** ** Frames as a server writes them *)

Module Wire.

Definition quoted (s : string) : string := Js.dq ++ s ++ Js.dq.

Definition pair (k v : string) : string := quoted k ++ ":" ++ v.

(** A character that stands for itself in a JSON string. *)
Definition plain_char (c : ascii) : bool :=
  negb (Ascii.eqb c Js.dquote) && negb (Ascii.eqb c Js.backslash)
  && negb (nat_of_ascii c <? 32)%nat.

(** A text that needs no escape. *)
Fixpoint plain (s : string) : bool :=
  match s with
  | "" => true
  | String c s' => plain_char c && plain s'
  end.

(** [data: {"type":type,key:text}] for texts without escapes. *)
Definition frame_line (type key text : string) : string :=
  "data: {" ++ pair "type" (quoted type) ++ "," ++ pair key (quoted text) ++ "}".

(** [data: {"type":"content","text":t}] *)
Definition content_line (t : string) : string := frame_line "content" "text" t.

(** [data: {"type":"error","message":m}] *)
Definition error_line (m : string) : string := frame_line "error" "message" m.

(** [data: {"type":"metadata","sources":array}] *)
Definition metadata_line (array : string) : string :=
  "data: {" ++ pair "type" (quoted "metadata") ++ "," ++ pair "sources" array ++ "}".

End Wire.

(** ** Sample data *)

Module Sample.
Import Wire.

(** [<div class="welcome-message"></div>] *)
Definition welcome_div : string :=
  "<div class=" ++ Js.dq ++ "welcome-message" ++ Js.dq ++ "></div>".

(** [hay] without the first place where [needle] is written in it. *)
Fixpoint without_first (needle hay : string) : option string :=
  if Js.startsWith hay needle then Some (Js.slice (String.length needle) hay)
  else
    match hay with
    | "" => None
    | String c rest => String c <$> without_first needle rest
    end.

(** An engine to evaluate examples with: [marked] stood in for by a
    paragraph wrapper that lets markup through, numbers printed as
    written, and an element of class [welcome-message] found in markup
    where [welcome_div] is written. *)
Definition engine : Engine :=
  {| marked_parse := fun s => "<p>" ++ s ++ "</p>";
     Number_toString := fun n => n;
     native_message := fun _ => "native error";
     welcome_removed := without_first welcome_div |}.

(** [[{"source":"doc1.pdf"}]] *)
Definition one_source : string := "[{" ++ pair "source" (quoted "doc1.pdf") ++ "}]".

(** The frame [content_line "Hello"] and its newline, cut in the middle
    of the key [text]. *)
Definition cut_head : string :=
  "data: {" ++ pair "type" (quoted "content") ++ "," ++ Js.dq ++ "te".
Definition cut_tail : string :=
  "xt" ++ Js.dq ++ ":" ++ quoted "Hello" ++ "}" ++ Js.nl.

(** [{"detail":""}] *)
Definition blank_detail : string := "{" ++ pair "detail" (quoted "") ++ "}".

(** [{"detail":"Not found"}] *)
Definition some_detail : string := "{" ++ pair "detail" (quoted "Not found") ++ "}".

(** [{"answer":"Hi","sources":[{"source":"doc1.pdf"}]}] *)
Definition answer_body : string :=
  "{" ++ pair "answer" (quoted "Hi") ++ "," ++ pair "sources" one_source ++ "}".

(** [data: {not json] *)
Definition not_json : string := "data: {not json".

(** A page with an empty conversation and a hidden source panel. *)
Definition empty_page : page :=
  {| sessionId := "session-a"; messages := []; elements := [];
     messagesContainer := [WelcomeMessage];
     sourcesSection_display := "none"; sourcesList := []; console := [] |}.

Definition doc : Source :=
  {| source := Some "doc1.pdf"; url := None; title := None; author := None |}.

Definition web : Source :=
  {| source := Some "https://example.org/a/guide.html"; url := None;
     title := None; author := None |}.

(** A [url] field that is present and empty. *)
Definition blank_url : Source :=
  {| source := Some "doc.pdf"; url := Some ""; title := None; author := None |}.

Definition json_of (s : Source) : json :=
  let field k o := match o with Some t => [(k, JStr t)] | None => [] end in
  JObj (field "source" (source s) ++ field "url" (url s)
        ++ field "title" (title s) ++ field "author" (author s)).

End Sample.

(** * The rest of the client

    [sendMessage] with the message box, [checkConnection], the
    preferences, and typed readings of the source panel and of the end of
    a cycle.  The value of the message box is text in the same byte form
    as elsewhere: [trim] removes the white space of JavaScript in that
    form, and the length the counter shows is counted in code units.
    [localStorage] is a finite map from keys to texts and a class list a
    finite set of names.  The three status elements are tested by
    [checkConnection] before each use, so each may be missing here.

    A send gives control back at each [await]: what the user does there
    (typing, a prompt chip, a new chat, clearing the chat) is part of the
    reply a send is run on. *)

(** ** The source panel on a typed list *)

(** The name an entry shows: the last segment of the locator (or of the
    URL when there is no locator), the whole of it when that segment is
    empty; else the title; else a fixed text. *)
Definition display_name (s : Source) : string :=
  if filled (source s) || filled (url s) then
    let uri := if filled (source s) then text_of (source s) else text_of (url s) in
    let file := Js.pop (Js.split "/" uri) in
    if Js.nonempty file then file else uri
  else if filled (title s) then text_of (title s)
  else "Unknown source".

(** The entry of the source at position [index]. *)
Definition panel_entry (index : nat) (s : Source) : source_item :=
  {| item_name := pretty (index + 1) ++ ". " ++ display_name s;
     item_link := if linkable s then Some (link_target s) else None;
     item_author :=
       if filled (author s) then Some ("Author: " ++ text_of (author s))
       else None |}.

(** The source list a cycle holds after some events: the one of the last
    metadata event, if any. *)
Definition final_sources (events : list ResponseEvent) (before : list Source) :
    list Source :=
  foldl (fun ss e => match e with Metadata ss' => ss' | _ => ss end) before events.

(** Some event made the response element: any but an error event. *)
Definition response_started (events : list ResponseEvent) : bool :=
  existsb (fun e => match e with ErrorEvent _ => false | _ => true end) events.

(** What reading a stream must leave alone until its end: the session,
    the history and the source panel. *)
Definition committed_state (p : page) :
    string * list (string * value) * string * list source_item :=
  (sessionId p, messages p, sourcesSection_display p, sourcesList p).

(** What a send adds to the history after the question: nothing, or one
    entry of the assistant, a string. *)
Definition reply_entries (tail : list (string * value)) : Prop :=
  tail = [] \/ exists answer : string, tail = [("assistant", Some (JStr answer))].

(** An element of the page that a later [addMessage] cannot alter: it
    holds no element of class [welcome-message], or it is not in the
    pane, where alone such an element is looked for. *)
Definition keeps `{Engine} (id : nat) (e : message_div) (p : page) : Prop :=
  elements p !! id = Some e
  /\ (MessageDiv id ∈ messagesContainer p -> nested_welcome (elements p) id = None).

(** The state of a cycle started on [p], nothing else running: no
    response element yet, or the one made right after the loading
    element, the elements before it being as its making left them. *)
Definition cycle_shape `{Engine} (p : page) (st : page * stream_locals) : Prop :=
  let st0 := stream_start p in
  let st1 := create_response_div st0 in
  (hasCreatedResponseDiv (snd st) = false
   /\ snd st = snd st0
   /\ elements (fst st) = elements (fst st0)
   /\ messagesContainer (fst st) = messagesContainer (fst st0))
  \/ (hasCreatedResponseDiv (snd st) = true
      /\ loadingDiv (snd st) = length (elements p)
      /\ responseDiv (snd st) = Some (S (length (elements p)))
      /\ messagesContainer (fst st) = messagesContainer (fst st1)
      /\ length (elements (fst st)) = length (elements p) + 2
      /\ take (S (length (elements p))) (elements (fst st))
         = take (S (length (elements p))) (elements (fst st1))).

(** The loading message as [createLoadingMessage] makes it. *)
Definition loading_message : message_div :=
  {| message_type := "assistant"; message_content := InnerHTML loadingHTML |}.

(** What holds of a cycle started on [p] whatever runs between its
    reads: the elements there were that no [addMessage] can alter are as
    they were, the loading element holds its markup, and the response
    element, once made, is the next one. *)
Definition cycle_elements `{Engine} (p : page) (st : page * cycle) : Prop :=
  let n := length (elements p) in
  (forall id e, id < n -> keeps id e p -> keeps id e (fst st))
  /\ elements (fst st) !! n = Some loading_message
  /\ match snd st with
     | InFlight l =>
         loadingDiv l = n
         /\ ((hasCreatedResponseDiv l = false /\ responseDiv l = None
              /\ length (elements (fst st)) = S n)
             \/ (hasCreatedResponseDiv l = true /\ responseDiv l = Some (S n)
                 /\ length (elements (fst st)) = n + 2))
     | Settled => S n <= length (elements (fst st)) <= n + 3
     end.

(** The error a streaming request ends with when the transport or the
    status fails it. *)
Definition stream_failure (f : fetched (list string * stream_end)) :
    option js_error :=
  match f with
  | Rejected e => Some e
  | Responded false _ => Some (Error "Failed to get response")
  | Responded true (_, ReadFailed e) => Some e
  | Responded true (_, Done) => None
  end.

(** A non-streaming request that cannot give an answer: rejected, not
    ok, or ok with a body that is not JSON. *)
Definition regular_failure (f : fetched string) : bool :=
  match f with
  | Rejected _ => true
  | Responded false _ => true
  | Responded true body =>
      match JSON_parse body with Ok _ => false | Throw _ => true end
  end.

(** ** The message box *)

Module Text.

Definition bytes (codes : list nat) : string :=
  string_of_list_ascii (ascii_of_nat <$> codes).

(** White space and line terminators of JavaScript, in the byte form of
    the text: tab, line feed, vertical tab, form feed, carriage return,
    space, U+00A0, U+1680, U+2000 to U+200A, U+2028, U+2029, U+202F,
    U+205F, U+3000, U+FEFF. *)
Definition whitespace : list string :=
  (bytes <$> [[9]; [10]; [11]; [12]; [13]; [32]; [194; 160]; [225; 154; 128]])
  ++ ((fun b => bytes [226; 128; b]) <$> seq 128 11)
  ++ (bytes <$> [[226; 128; 168]; [226; 128; 169]; [226; 128; 175];
                 [226; 129; 159]; [227; 128; 128]; [239; 187; 191]]).

Fixpoint reverse_onto (s acc : string) : string :=
  match s with
  | "" => acc
  | String c s' => reverse_onto s' (String c acc)
  end.

Definition reverse (s : string) : string := reverse_onto s "".

(** [s] without the first of [prefixes] it starts with. *)
Fixpoint strip_one (prefixes : list string) (s : string) : option string :=
  match prefixes with
  | [] => None
  | w :: rest =>
      if Js.startsWith s w then Some (Js.slice (String.length w) s)
      else strip_one rest s
  end.

(** Leading members of [prefixes] removed, for as long as there are. *)
Fixpoint strip (prefixes : list string) (fuel : nat) (s : string) : string :=
  match fuel with
  | 0 => s
  | S f =>
      match strip_one prefixes s with
      | Some s' => strip prefixes f s'
      | None => s
      end
  end.

Definition trimStart (s : string) : string :=
  strip whitespace (String.length s) s.

Definition trimEnd (s : string) : string :=
  reverse (strip (reverse <$> whitespace) (String.length s) (reverse s)).

(** [s.trim()] *)
Definition trim (s : string) : string := trimEnd (trimStart s).

(** The code units [s.length] counts: one for a character of one to
    three bytes, two for one of four bytes. *)
Fixpoint utf16_length (s : string) : nat :=
  match s with
  | "" => 0
  | String c s' =>
      let b := nat_of_ascii c in
      (if (b <? 128)%nat then 1
       else if (b <? 192)%nat then 0
       else if (b <? 240)%nat then 1
       else 2) + utf16_length s'
  end.

End Text.

(** The message box and what goes with it: the value of [messageInput],
    the text of [charCount], whether [sendBtn] is disabled, and the
    global [isProcessing].  The height of the box, which follows its
    layout, is left out. *)
Record composer : Type := {
  messageInput_value : string;
  charCount_textContent : string;
  sendBtn_disabled : bool;
  isProcessing : bool;
}.

(** The [input] listener of [messageInput], the user having made the
    value [text]. *)
Definition on_input (text : string) (c : composer) : composer :=
  {| messageInput_value := text;
     charCount_textContent := pretty (Text.utf16_length text);
     sendBtn_disabled := negb (Js.nonempty (Text.trim text));
     isProcessing := isProcessing c |}.

(** [sendMessage] up to its [try]: nothing when the message is blank or
    a send is in progress; else the user's message is shown and pushed
    and the box is emptied. *)
Definition send_begin `{Engine} (st : page * composer) :
    option (page * composer) :=
  let '(p, c) := st in
  let message := Text.trim (messageInput_value c) in
  if negb (Js.nonempty message) || isProcessing c then None
  else
    Some (push_message "user" (Some (JStr message))
            (fst (addMessage (TextContent message) "user" p)),
          {| messageInput_value := ""; charCount_textContent := "0";
             sendBtn_disabled := true; isProcessing := true |}).

(** The [finally] of [sendMessage]. *)
Definition send_finally (c : composer) : composer :=
  {| messageInput_value := messageInput_value c;
     charCount_textContent := charCount_textContent c;
     sendBtn_disabled := false; isProcessing := false |}.

(** *** What the user does at an [await] of a send

    Typing in the box (the [input] listener), a click on a prompt chip
    (the value the box takes is the chip's [data-prompt], or the text
    [undefined] when it has none), a click on the new chat button (the
    fresh session id is the environment's) or on the clear chat button.
    The toggles, the menu and the connection check touch neither the
    page nor the box.  A press of the send button or of Enter calls
    [sendMessage] again, which returns at its guard for as long as
    [isProcessing] is set. *)
Inductive user_action : Type :=
| Typed (text : string)
| ChipClicked (prompt : option string)
| NewChatClicked (fresh : string)
| ClearChatClicked.

Definition on_page (a : user_action) (p : page) : page :=
  match a with
  | NewChatClicked fresh => startNewChat fresh p
  | ClearChatClicked => clearChat p
  | Typed _ | ChipClicked _ => p
  end.

Definition on_box (a : user_action) (c : composer) : composer :=
  match a with
  | Typed text => on_input text c
  | ChipClicked prompt =>
      {| messageInput_value := default "undefined" prompt;
         charCount_textContent := charCount_textContent c;
         sendBtn_disabled := false;
         isProcessing := isProcessing c |}
  | NewChatClicked _ | ClearChatClicked => c
  end.

(** The page and the box the user's actions alone make. *)
Definition user_page (actions : list user_action) (p : page) : page :=
  foldl (fun q a => on_page a q) p actions.

Definition user_box (actions : list user_action) (c : composer) : composer :=
  foldl (fun d a => on_box a d) c actions.

(** The user leaves the box alone. *)
Definition leaves_box (a : user_action) : bool :=
  match a with
  | Typed _ | ChipClicked _ => false
  | NewChatClicked _ | ClearChatClicked => true
  end.

(** The user leaves the chat alone. *)
Definition leaves_chat (a : user_action) : bool :=
  match a with
  | Typed _ | ChipClicked _ => true
  | NewChatClicked _ | ClearChatClicked => false
  end.

(** What happens between the start of a streaming request and its end:
    a [read] gives a chunk, or the user does something. *)
Inductive stream_event : Type :=
| Read (chunk : string)
| Meanwhile (a : user_action).

Definition actions_of (events : list stream_event) : list user_action :=
  omap (fun ev => match ev with Meanwhile a => Some a | Read _ => None end) events.

Definition reads_of (events : list stream_event) : list string :=
  omap (fun ev => match ev with Read chunk => Some chunk | Meanwhile _ => None end)
    events.

Definition stream_event_step `{Engine} (st : page * stream_locals * composer)
    (ev : stream_event) : page * stream_locals * composer :=
  let '(p, l, c) := st in
  match ev with
  | Read chunk => (process_chunk (p, l) chunk, c)
  | Meanwhile a => (on_page a p, l, on_box a c)
  end.

(** [sendStreamingMessage] among the user's actions.  The request fails
    before any read when [fetch] is rejected or the status is not ok:
    both go to the same [catch] as a failed read, the latter with the
    error [Failed to get response]. *)
Definition sendStreamingMessage_among `{Engine} (events : list stream_event)
    (fin : stream_end) (st : page * composer) : page * composer :=
  let '(st1, c1) := foldl stream_event_step (stream_start (fst st), snd st) events in
  (match fin with
   | Done => stream_done st1
   | ReadFailed e => stream_catch st1 e
   end, c1).

(** [sendRegularMessage] among the user's actions, which run while the
    request and the reading of its body are awaited. *)
Definition sendRegularMessage_among `{Engine} (actions : list user_action)
    (f : fetched string) (st : page * composer) : page * composer :=
  let '(p0, loadingMessage) := createLoadingMessage (fst st) in
  (match regular_try loadingMessage f (user_page actions p0) with
   | (p1, Ok _) => p1
   | (p1, Throw e) => show_error loadingMessage e p1
   end, user_box actions (snd st)).

(** What [sendRegularMessage] makes of the page [q] it finds when the
    reply is there: the [try] from there on, and the [catch]. *)
Definition regular_finish `{Engine} (loading : nat) (f : fetched string)
    (q : page) : page :=
  match regular_try loading f q with
  | (p1, Ok _) => p1
  | (p1, Throw e) => show_error loading e p1
  end.

(** [sendMessage]; [mode] is the global [isStreaming] as the function
    reads it, before its first [await]. *)
Definition sendMessage `{Engine} (mode : bool)
    (regular : list user_action * fetched string)
    (stream : list stream_event * stream_end) (st : page * composer) :
    page * composer :=
  match send_begin st with
  | None => st
  | Some st1 =>
      let st2 :=
        if mode then sendStreamingMessage_among (fst stream) (snd stream) st1
        else sendRegularMessage_among (fst regular) (snd regular) st1 in
      (fst st2, send_finally (snd st2))
  end.

(** *** A stream cut at line ends, among the user's actions

    Each read gives whole lines; between the reads the user acts. *)
Definition paced (sched : list (list string + user_action)) : list stream_event :=
  (fun x => match x with
            | inl group => Read (chunk_of group)
            | inr a => Meanwhile a
            end) <$> sched.

Definition groups_of (sched : list (list string + user_action)) :
    list (list string) :=
  omap (fun x => match x with inl group => Some group | inr _ => None end) sched.

Definition lines_of (sched : list (list string + user_action)) : list string :=
  concat (groups_of sched).

(** Every line read is a line of the protocol. *)
Definition protocol_paced (sched : list (list string + user_action)) : Prop :=
  Forall (Forall (fun line => protocol_line line = true)) (groups_of sched).

(** The loading element of a cycle exists and, once the response element
    was made, is out of the pane. *)
Definition loading_out (st : page * stream_locals) : Prop :=
  loadingDiv (snd st) < length (elements (fst st))
  /\ (hasCreatedResponseDiv (snd st) = true ->
      MessageDiv (loadingDiv (snd st)) ∉ messagesContainer (fst st)).

(** ** The connection status *)

(** The three elements of the status display, each of which may be
    missing from the page: the class list of [connectionStatus], the
    texts of [statusText] and [statusDetails]; and the errors logged. *)
Record status_bar : Type := {
  connectionStatus : option (gset string);
  statusText : option string;
  statusDetails : option string;
  connection_errors : list js_error;
}.

(** The [catch] block of [checkConnection]. *)
Definition connection_failed `{Engine} (e : js_error) (s : status_bar) : status_bar :=
  {| connectionStatus :=
       (fun classes => (classes ∪ {["error"]}) ∖ {["connected"]})
         <$> connectionStatus s;
     statusText := (fun _ => "Connection failed") <$> statusText s;
     statusDetails := (fun _ => error_message e) <$> statusDetails s;
     connection_errors := connection_errors s ++ [e] |}.

(** The updates of an ok response before the details. *)
Definition connection_ok (s : status_bar) : status_bar :=
  {| connectionStatus :=
       (fun classes => (classes ∪ {["connected"]}) ∖ {["error"]})
         <$> connectionStatus s;
     statusText := (fun _ => "Connected") <$> statusText s;
     statusDetails := statusDetails s;
     connection_errors := connection_errors s |}.

Definition with_details (d : string) (s : status_bar) : status_bar :=
  {| connectionStatus := connectionStatus s; statusText := statusText s;
     statusDetails := Some d; connection_errors := connection_errors s |}.

(** [checkConnection] on what [fetch] of the health address gives. *)
Definition checkConnection `{Engine} (f : fetched string) (s : status_bar) :
    status_bar :=
  match f with
  | Rejected e => connection_failed e s
  | Responded ok body =>
      match JSON_parse body with
      | Throw e => connection_failed e s
      | Ok data =>
          if ok then
            let s1 := connection_ok s in
            match statusDetails s1 with
            | None => s1
            | Some _ =>
                match get (Some data) "client_type" with
                | Throw e => connection_failed e s1
                | Ok client_type =>
                    if truthy client_type then
                      with_details
                        ("Using " ++ if is_type client_type "agent"
                                     then "Bedrock Agent" else "Knowledge Base")
                        s1
                    else s1
                end
            end
          else s
      end
  end.

(** The two classes are not both set. *)
Definition exclusive (s : status_bar) : Prop :=
  match connectionStatus s with
  | Some classes => ~ ("connected" ∈ classes /\ "error" ∈ classes)
  | None => True
  end.

(** ** Preferences *)

(** The two toggles, the [data-theme] attribute of the document element
    and of the body, and the global [isStreaming]. *)
Record settings : Type := {
  darkModeToggle_checked : bool;
  streamModeToggle_checked : bool;
  theme_root : string;
  theme_body : string;
  isStreaming : bool;
}.

(** [localStorage.setItem(key, flag)]: a boolean is stored as its text. *)
Definition store_flag (key : string) (flag : bool) (storage : gmap string string) :
    gmap string string :=
  <[key := if flag then "true" else "false"]> storage.

Definition updateTheme (isDark : bool) (u : settings) : settings :=
  let theme := if isDark then "dark" else "light" in
  {| darkModeToggle_checked := darkModeToggle_checked u;
     streamModeToggle_checked := streamModeToggle_checked u;
     theme_root := theme; theme_body := theme; isStreaming := isStreaming u |}.

Definition loadPreferences (storage : gmap string string) (u : settings) : settings :=
  let darkMode := bool_decide (storage !! "darkMode" = Some "true") in
  let u1 :=
    updateTheme darkMode
      {| darkModeToggle_checked := darkMode;
         streamModeToggle_checked := streamModeToggle_checked u;
         theme_root := theme_root u; theme_body := theme_body u;
         isStreaming := isStreaming u |} in
  let streamMode := negb (bool_decide (storage !! "streamMode" = Some "false")) in
  {| darkModeToggle_checked := darkModeToggle_checked u1;
     streamModeToggle_checked := streamMode;
     theme_root := theme_root u1; theme_body := theme_body u1;
     isStreaming := streamMode |}.

(** The [change] listener of the dark mode toggle, the user having set
    it to [checked]. *)
Definition on_darkMode_change (checked : bool)
    (st : gmap string string * settings) : gmap string string * settings :=
  let '(storage, u) := st in
  (store_flag "darkMode" checked storage,
   updateTheme checked
     {| darkModeToggle_checked := checked;
        streamModeToggle_checked := streamModeToggle_checked u;
        theme_root := theme_root u; theme_body := theme_body u;
        isStreaming := isStreaming u |}).

(** The [change] listener of the stream mode toggle. *)
Definition on_streamMode_change (checked : bool)
    (st : gmap string string * settings) : gmap string string * settings :=
  let '(storage, u) := st in
  (store_flag "streamMode" checked storage,
   {| darkModeToggle_checked := darkModeToggle_checked u;
      streamModeToggle_checked := checked;
      theme_root := theme_root u; theme_body := theme_body u;
      isStreaming := checked |}).

(** * Properties *)

(** ** Strings *)

Lemma append_nil_r (s : string) : s ++ "" = s.
Proof.
  induction s as [|c s IH]; [reflexivity|].
  change (String c s ++ "") with (String c (s ++ "")). now rewrite IH.
Qed.

Lemma append_assoc (a b c : string) : (a ++ b) ++ c = a ++ b ++ c.
Proof.
  induction a as [|x a IH]; [reflexivity|].
  change ((String x a ++ b) ++ c) with (String x ((a ++ b) ++ c)).
  now rewrite IH.
Qed.

Lemma startsWith_nonempty s p :
  Js.nonempty p = true -> Js.startsWith s p = true -> Js.nonempty s = true.
Proof. destruct s, p; simpl; congruence. Qed.

Lemma join_nonempty sep x xs :
  Js.nonempty x = true -> Js.nonempty (Js.join sep (x :: xs)) = true.
Proof. destruct x; [discriminate|]. destruct xs; reflexivity. Qed.

Lemma split_no_newline s : no_newline s = true -> Js.split Js.newline s = [s].
Proof.
  induction s as [|c s IH]; [reflexivity|]. cbn [no_newline Js.split].
  destruct (Ascii.eqb c Js.newline); [discriminate|].
  intros E. now rewrite (IH E).
Qed.

Lemma split_line s rest :
  no_newline s = true ->
  Js.split Js.newline (s ++ Js.nl ++ rest) = s :: Js.split Js.newline rest.
Proof.
  induction s as [|c s IH]; [reflexivity|].
  cbn [no_newline]. change (String c s ++ Js.nl ++ rest)
    with (String c (s ++ Js.nl ++ rest)). cbn [Js.split].
  destruct (Ascii.eqb c Js.newline); [discriminate|].
  intros E. now rewrite (IH E).
Qed.

(** A chunk of whole lines splits into them and a last empty line. *)
Lemma split_chunk_of lines :
  Forall (fun l => no_newline l = true) lines ->
  Js.split Js.newline (chunk_of lines) = (lines ++ [""])%list.
Proof.
  induction 1 as [|l lines E _ IH]; [reflexivity|].
  cbn [chunk_of]. rewrite (split_line _ _ E), IH. reflexivity.
Qed.

(** ** Adding a message *)

Section Adding.
Context `{Engine}.

Lemma nested_welcome_some els id m :
  nested_welcome els id = Some m ->
  exists markup rest,
    els !! id = Some {| message_type := message_type m;
                        message_content := InnerHTML markup |}
    /\ welcome_removed markup = Some rest
    /\ message_content m = InnerHTML rest.
Proof.
  unfold nested_welcome.
  destruct (els !! id) as [[type [markup|text]]|]; try discriminate.
  destruct (welcome_removed markup) as [rest|] eqn:W; [|discriminate].
  intros E. injection E as <-. eauto.
Qed.

Lemma remove_welcome_length els c :
  length (fst (remove_welcome els c)) = length els.
Proof.
  induction c as [|[|id] c IH]; cbn [remove_welcome]; try reflexivity.
  destruct (nested_welcome els id); cbn [fst]; [apply length_insert | exact IH].
Qed.

Lemma remove_welcome_subset els c x :
  x ∈ snd (remove_welcome els c) -> x ∈ c.
Proof.
  induction c as [|[|id] c IH]; cbn [remove_welcome]; [trivial | |].
  - intros I. now right.
  - destruct (nested_welcome els id); cbn [snd]; [trivial|].
    intros [->|I]%elem_of_cons; [left|right; auto].
Qed.

Lemma addMessage_length body type p :
  length (elements (fst (addMessage body type p))) = S (length (elements p)).
Proof.
  unfold addMessage. cbn [fst with_pane elements].
  rewrite length_app, remove_welcome_length. cbn. lia.
Qed.

(** The element an added message makes is the last one. *)
Lemma addMessage_new body type p :
  elements (fst (addMessage body type p)) !! length (elements p)
  = Some {| message_type := type; message_content := body |}.
Proof.
  unfold addMessage. cbn [fst with_pane elements].
  apply list_lookup_middle. now rewrite remove_welcome_length.
Qed.

End Adding.

(** ** The parser never runs out of fuel *)

Module ParserFacts.
Import Parser.

Lemma skip_ws_length s : String.length (skip_ws s) <= String.length s.
Proof.
  induction s as [|c s IH]; [reflexivity|]. cbn [skip_ws].
  destruct (is_ws c); cbn [String.length]; lia.
Qed.

Lemma skip_ws_cons s c r :
  skip_ws s = String c r -> String.length r < String.length s.
Proof.
  intros E. pose proof (skip_ws_length s) as L. rewrite E in L.
  cbn [String.length] in L. lia.
Qed.

Lemma push_length pre o t k n :
  push pre o = Some (t, k) ->
  (forall t' k', o = Some (t', k') -> String.length k' < n) ->
  String.length k < n.
Proof.
  destruct o as [[t' k']|]; [|discriminate]. cbn. intros [= _ <-] F. eauto.
Qed.

Lemma parse_chars_bounded n s t k :
  String.length s <= n ->
  parse_chars s = Some (t, k) -> String.length k < String.length s.
Proof.
  revert s t k. induction n as [|n IH]; intros s t k B.
  { destruct s; [discriminate | cbn [String.length] in B; lia]. }
  destruct s as [|c r]; [discriminate|]. cbn [parse_chars String.length] in *.
  destruct (Ascii.eqb c Js.dquote); [intros [= _ <-]; lia|].
  destruct (Ascii.eqb c Js.backslash).
  - destruct r as [|e r']; [discriminate|].
    destruct (Ascii.eqb e "u").
    + destruct r' as [|h1 [|h2 [|h3 [|h4 r'']]]]; try discriminate.
      destruct (hex4 h1 h2 h3 h4) as [unit|]; [|discriminate].
      destruct r'' as [|b [|u [|g1 [|g2 [|g3 [|g4 r3]]]]]];
        [| | | | | |destruct (escaped_unit _) as [low|];
                    [destruct (is_high unit && is_low low)|]];
        intros P; (eapply push_length; [exact P|]); intros t' k' Q;
        cbn [String.length] in *; apply IH in Q; cbn [String.length] in *; lia.
    + destruct (escape_char e); [|discriminate].
      intros P. eapply push_length; [exact P|]. intros t' k' Q.
      cbn [String.length] in *. apply IH in Q; lia.
  - destruct (nat_of_ascii c <? 32)%nat; [discriminate|].
    intros P. eapply push_length; [exact P|]. intros t' k' Q.
    apply IH in Q; lia.
Qed.

Lemma parse_chars_length s t k :
  parse_chars s = Some (t, k) -> String.length k < String.length s.
Proof. now apply (parse_chars_bounded (String.length s)). Qed.

Lemma span_digits_length s : String.length (snd (span_digits s)) <= String.length s.
Proof.
  induction s as [|c s IH]; [reflexivity|]. cbn [span_digits].
  destruct (is_digit c); [|reflexivity].
  destruct (span_digits s). cbn [snd String.length] in *. lia.
Qed.

Lemma digits1_length s ds r :
  digits1 s = Some (ds, r) -> String.length r <= String.length s.
Proof.
  unfold digits1. pose proof (span_digits_length s) as L.
  destruct (span_digits s) as [[|d ds'] r']; [discriminate|].
  intros [= _ <-]. exact L.
Qed.

Lemma lex_fraction_length s f r :
  lex_fraction s = Some (f, r) -> String.length r <= String.length s.
Proof.
  unfold lex_fraction. destruct s as [|c s']; [now intros [= _ <-]|].
  destruct (Ascii.eqb c "."); [|now intros [= _ <-]].
  destruct (digits1 s') as [[ds k]|] eqn:D; [|discriminate].
  intros [= _ <-]. apply digits1_length in D. cbn [String.length]. lia.
Qed.

Lemma lex_exponent_length s e r :
  lex_exponent s = Some (e, r) -> String.length r <= String.length s.
Proof.
  unfold lex_exponent. destruct s as [|c s']; [now intros [= _ <-]|].
  destruct (Ascii.eqb c "e" || Ascii.eqb c "E"); [|now intros [= _ <-]].
  destruct s' as [|g s''].
  - destruct (digits1 "") as [[ds k]|] eqn:D; [|discriminate]. discriminate D.
  - destruct (Ascii.eqb g "+" || Ascii.eqb g "-").
    + destruct (digits1 s'') as [[ds k]|] eqn:D; [|discriminate].
      intros [= _ <-]. apply digits1_length in D. cbn [String.length]. lia.
    + destruct (digits1 (String g s'')) as [[ds k]|] eqn:D; [|discriminate].
      intros [= _ <-]. apply digits1_length in D. cbn [String.length] in *. lia.
Qed.

Lemma lex_number_length s n r :
  lex_number s = Some (n, r) -> String.length r <= String.length s.
Proof.
  unfold lex_number.
  set (signed := match s with
                 | String c r0 => if Ascii.eqb c "-" then ("-", r0) else ("", s)
                 | "" => ("", s)
                 end).
  assert (L1 : String.length (snd signed) <= String.length s).
  { subst signed. destruct s as [|c r0]; [reflexivity|].
    destruct (Ascii.eqb c "-"); cbn [snd String.length]; lia. }
  destruct signed as [sign s1]. cbn [snd] in L1.
  set (int_part := match s1 with
                   | String c r0 => if Ascii.eqb c "0" then Some ("0", r0)
                                    else digits1 s1
                   | "" => None
                   end).
  assert (L2 : forall i r1, int_part = Some (i, r1) ->
                            String.length r1 <= String.length s1).
  { subst int_part. intros i r1. destruct s1 as [|c r0]; [discriminate|].
    destruct (Ascii.eqb c "0").
    - intros [= _ <-]. cbn [String.length]. lia.
    - apply digits1_length. }
  destruct int_part as [[i r1]|]; [|discriminate].
  specialize (L2 _ _ eq_refl).
  destruct (lex_fraction r1) as [[f r2]|] eqn:F; [|discriminate].
  destruct (lex_exponent r2) as [[e r3]|] eqn:E; [|discriminate].
  intros [= _ <-]. apply lex_fraction_length in F. apply lex_exponent_length in E.
  lia.
Qed.

Lemma slice_length n s : String.length (Js.slice n s) <= String.length s.
Proof.
  revert s. induction n as [|n IH]; intros s; [reflexivity|].
  destruct s as [|c s]; [reflexivity|]. cbn [Js.slice String.length].
  specialize (IH s). lia.
Qed.

Lemma parse_scalar_result s :
  parse_scalar s <> OutOfFuel
  /\ forall v r, parse_scalar s = Parsed v r -> String.length r <= String.length s.
Proof.
  unfold parse_scalar.
  destruct (Js.startsWith s "true");
    [split; [discriminate | intros v r [= _ <-]; exact (slice_length 4 s)]|].
  destruct (Js.startsWith s "false");
    [split; [discriminate | intros v r [= _ <-]; exact (slice_length 5 s)]|].
  destruct (Js.startsWith s "null");
    [split; [discriminate | intros v r [= _ <-]; exact (slice_length 4 s)]|].
  destruct (lex_number s) as [[n r0]|] eqn:N; [|split; discriminate].
  split; [discriminate|]. intros v r [= _ <-]. now apply lex_number_length in N.
Qed.

(** With fuel for the text left, each of the three functions ends with a
    value or a refusal, and a value leaves no more text than there was. *)
Lemma fuel_suffices f :
  (forall s, 2 * String.length s + 1 <= f ->
     parse_value f s <> OutOfFuel
     /\ forall v r, parse_value f s = Parsed v r ->
                    String.length r <= String.length s)
  /\ (forall s acc, 2 * String.length s + 2 <= f ->
        parse_elements f s acc <> OutOfFuel
        /\ forall v r, parse_elements f s acc = Parsed v r ->
                       String.length r <= String.length s)
  /\ (forall s acc, 2 * String.length s + 2 <= f ->
        parse_members f s acc <> OutOfFuel
        /\ forall v r, parse_members f s acc = Parsed v r ->
                       String.length r <= String.length s).
Proof.
  induction f as [|f (IHv & IHe & IHm)]; [repeat split; intros; lia|].
  split; [|split].
  - intros s F. cbn [parse_value].
    destruct (skip_ws s) as [|c r] eqn:W; [split; discriminate|].
    apply skip_ws_cons in W.
    destruct (Ascii.eqb c "[").
    { destruct (skip_ws r) as [|d r'] eqn:W'; [split; discriminate|].
      apply skip_ws_cons in W'.
      destruct (Ascii.eqb d "]");
        [split; [discriminate | intros v k [= _ <-]; lia]|].
      destruct (IHe r [] ltac:(lia)) as [A B]. split; [exact A|].
      intros v k P. specialize (B _ _ P). lia. }
    destruct (Ascii.eqb c "{").
    { destruct (skip_ws r) as [|d r'] eqn:W'; [split; discriminate|].
      apply skip_ws_cons in W'.
      destruct (Ascii.eqb d "}");
        [split; [discriminate | intros v k [= _ <-]; lia]|].
      destruct (IHm r [] ltac:(lia)) as [A B]. split; [exact A|].
      intros v k P. specialize (B _ _ P). lia. }
    destruct (Ascii.eqb c Js.dquote).
    { destruct (parse_chars r) as [[t k]|] eqn:P; [|split; discriminate].
      apply parse_chars_length in P.
      split; [discriminate | intros v k' [= _ <-]; lia]. }
    destruct (parse_scalar_result (String c r)) as [A B]. split; [exact A|].
    intros v k P. specialize (B _ _ P). cbn [String.length] in B. lia.
  - intros s acc F. cbn [parse_elements].
    destruct (IHv s ltac:(lia)) as [A B].
    destruct (parse_value f s) as [v r| |]; [|split; discriminate|contradiction].
    specialize (B _ _ eq_refl).
    destruct (skip_ws r) as [|d r'] eqn:W; [split; discriminate|].
    apply skip_ws_cons in W.
    destruct (Ascii.eqb d ",").
    { destruct (IHe r' (v :: acc) ltac:(lia)) as [A' B']. split; [exact A'|].
      intros v' k P. specialize (B' _ _ P). lia. }
    destruct (Ascii.eqb d "]"); [|split; discriminate].
    split; [discriminate | intros v' k [= _ <-]; lia].
  - intros s acc F. cbn [parse_members].
    destruct (skip_ws s) as [|q r] eqn:W; [split; discriminate|].
    apply skip_ws_cons in W.
    destruct (Ascii.eqb q Js.dquote); [|split; discriminate].
    destruct (parse_chars r) as [[k r1]|] eqn:P; [|split; discriminate].
    apply parse_chars_length in P.
    destruct (skip_ws r1) as [|d r2] eqn:W1; [split; discriminate|].
    apply skip_ws_cons in W1.
    destruct (Ascii.eqb d ":"); [|split; discriminate].
    destruct (IHv r2 ltac:(lia)) as [A B].
    destruct (parse_value f r2) as [v r3| |]; [|split; discriminate|contradiction].
    specialize (B _ _ eq_refl).
    destruct (skip_ws r3) as [|e r4] eqn:W3; [split; discriminate|].
    apply skip_ws_cons in W3.
    destruct (Ascii.eqb e ",").
    { destruct (IHm r4 ((k, v) :: acc) ltac:(lia)) as [A' B']. split; [exact A'|].
      intros v' k' Q. specialize (B' _ _ Q). lia. }
    destruct (Ascii.eqb e "}"); [|split; discriminate].
    split; [discriminate | intros v' k' [= _ <-]; lia].
Qed.

(** [JSON.parse] always ends: a refusal is a malformed text, never a lack
    of fuel. *)
Lemma parse_text_ends s : parse_value (fuel_for s) s <> OutOfFuel.
Proof. apply (fuel_suffices (fuel_for s)). unfold fuel_for. lia. Qed.

End ParserFacts.

(** ** Frames without escapes are read back *)

Module WireFacts.
Import Parser Wire.

Lemma app_cons c s x : String c s ++ x = String c (s ++ x).
Proof. reflexivity. Qed.

Lemma app_nil x : "" ++ x = x.
Proof. reflexivity. Qed.

Lemma parse_chars_plain t rest :
  plain t = true -> parse_chars (t ++ String Js.dquote rest) = Some (t, rest).
Proof.
  induction t as [|c t IH]; [reflexivity|]. cbn [plain].
  unfold plain_char. intros [[[Q B]%andb_true_iff C]%andb_true_iff P]%andb_true_iff.
  apply negb_true_iff in Q, B, C.
  rewrite app_cons. cbn [parse_chars]. rewrite Q, B, C, (IH P). reflexivity.
Qed.

Ltac chars := cbn [skip_ws is_ws orb Ascii.eqb Bool.eqb Js.dquote].

Lemma parse_value_string f t rest :
  plain t = true ->
  parse_value (S f) (String Js.dquote (t ++ String Js.dquote rest))
  = Parsed (JStr t) rest.
Proof.
  intros P. cbn [parse_value]. chars. fold Js.dquote.
  now rewrite (parse_chars_plain _ _ P).
Qed.

Lemma parse_member_more f k v rest acc :
  plain k = true -> plain v = true ->
  parse_members (S (S f))
    (String Js.dquote (k ++ String Js.dquote (String ":"
       (String Js.dquote (v ++ String Js.dquote (String "," rest)))))) acc
  = parse_members (S f) rest ((k, JStr v) :: acc).
Proof.
  intros K V. cbn [parse_members]. chars.
  rewrite (parse_chars_plain _ _ K). chars.
  fold Js.dquote. rewrite (parse_value_string _ _ _ V). chars. reflexivity.
Qed.

Lemma parse_member_last f k v rest acc :
  plain k = true -> plain v = true ->
  parse_members (S (S f))
    (String Js.dquote (k ++ String Js.dquote (String ":"
       (String Js.dquote (v ++ String Js.dquote (String "}" rest)))))) acc
  = Parsed (JObj (rev ((k, JStr v) :: acc))) rest.
Proof.
  intros K V. cbn [parse_members]. chars.
  rewrite (parse_chars_plain _ _ K). chars.
  fold Js.dquote. rewrite (parse_value_string _ _ _ V). chars. reflexivity.
Qed.

(** [JSON.parse] reads a written frame back. *)
Lemma frame_line_parses type key text :
  plain type = true -> plain key = true -> plain text = true ->
  Js.startsWith (frame_line type key text) "data: " = true
  /\ JSON_parse (Js.slice 6 (frame_line type key text))
     = Ok (JObj [("type", JStr type); (key, JStr text)]).
Proof.
  intros T K X. split; [reflexivity|].
  unfold JSON_parse, parse_text.
  set (s := Js.slice 6 (frame_line type key text)).
  assert (E : s = String "{" (String Js.dquote ("type" ++ String Js.dquote
                (String ":" (String Js.dquote (type ++ String Js.dquote
                (String "," (String Js.dquote (key ++ String Js.dquote
                (String ":" (String Js.dquote (text ++ String Js.dquote
                (String "}" ""))))))))))))).
  { subst s. unfold frame_line, pair, quoted, Js.dq.
    repeat (rewrite append_assoc || rewrite app_cons || rewrite app_nil).
    reflexivity. }
  assert (F : exists f, fuel_for s = S (S (S (S f)))).
  { rewrite E. unfold fuel_for. cbn [String.length].
    eexists. cbn [Nat.mul Nat.add]. reflexivity. }
  destruct F as [f ->]. rewrite E.
  cbn [parse_value]. chars.
  rewrite (parse_member_more (S f) "type" type _ [] eq_refl T).
  rewrite (parse_member_last f key text "" _ K X).
  reflexivity.
Qed.

Lemma decode_content_line t :
  plain t = true -> decode_line (content_line t) = Some (ContentDelta t).
Proof.
  intros P. unfold decode_line, content_line.
  destruct (frame_line_parses "content" "text" t eq_refl eq_refl P) as [-> ->].
  reflexivity.
Qed.

Lemma decode_error_line m :
  plain m = true -> decode_line (error_line m) = Some (ErrorEvent m).
Proof.
  intros P. unfold decode_line, error_line.
  destruct (frame_line_parses "error" "message" m eq_refl eq_refl P) as [-> ->].
  reflexivity.
Qed.

Lemma plain_no_newline t : plain t = true -> no_newline t = true.
Proof.
  induction t as [|c t IH]; [reflexivity|]. cbn [plain no_newline].
  intros [C P]%andb_true_iff. rewrite (IH P), andb_true_r.
  destruct (Ascii.eqb_spec c Js.newline) as [->|]; [discriminate C|reflexivity].
Qed.

Lemma no_newline_app a b :
  no_newline a = true -> no_newline b = true -> no_newline (a ++ b) = true.
Proof.
  intros A B. induction a as [|c a IH]; [exact B|].
  rewrite app_cons. cbn [no_newline] in *.
  apply andb_true_iff in A as [-> A]. now rewrite (IH A).
Qed.

Lemma protocol_content_line t :
  plain t = true -> protocol_line (content_line t) = true.
Proof.
  intros P. unfold protocol_line. rewrite (decode_content_line t P).
  rewrite andb_true_iff. split; [|reflexivity].
  unfold content_line, frame_line, pair, quoted.
  repeat apply no_newline_app; try reflexivity. now apply plain_no_newline.
Qed.

End WireFacts.

(** ** The typed view of a source *)

Section Typed.
Context `{Engine}.

Lemma optional_string_cases k ms o :
  optional_string k ms = Some o ->
  (o = None /\ (member k ms = None \/ member k ms = Some JNull))
  \/ (exists s, o = Some s /\ member k ms = Some (JStr s)).
Proof.
  unfold optional_string.
  destruct (member k ms) as [[]|]; intros E; try discriminate;
    injection E as <-; eauto.
Qed.

Lemma truthy_optional k ms o :
  optional_string k ms = Some o -> truthy (member k ms) = filled o.
Proof.
  intros E.
  destruct (optional_string_cases _ _ _ E) as [[-> [-> | ->]] | (s & -> & ->)];
    reflexivity.
Qed.

Lemma ToString_filled k ms o :
  optional_string k ms = Some o -> filled o = true ->
  ToString (member k ms) = Ok (text_of o).
Proof.
  intros E F.
  destruct (optional_string_cases _ _ _ E) as [[-> _] | (s & -> & ->)];
    [discriminate | reflexivity].
Qed.

Lemma startsWith_http_filled k ms o :
  optional_string k ms = Some o -> filled o = true ->
  startsWith_http (member k ms) = Ok (Js.startsWith (text_of o) "http").
Proof.
  intros E F.
  destruct (optional_string_cases _ _ _ E) as [[-> _] | (s & -> & ->)];
    [discriminate | reflexivity].
Qed.

(** Taking a source view apart into its four fields. *)
Ltac fields V ms :=
  match type of V with
  | source_view ?j = Some _ =>
      destruct j as [| | | | |ms]; try discriminate V; unfold source_view in V;
      let so := fresh "so" in let uo := fresh "uo" in
      let to := fresh "to" in let ao := fresh "ao" in
      destruct (optional_string "source" ms) as [so|] eqn:Es; [|discriminate V];
      destruct (optional_string "url" ms) as [uo|] eqn:Eu; [|discriminate V];
      destruct (optional_string "title" ms) as [to|] eqn:Et; [|discriminate V];
      destruct (optional_string "author" ms) as [ao|] eqn:Ea; [|discriminate V];
      injection V as <-
  end.

Lemma has_reference_typed j s :
  source_view j = Some s -> has_reference (Some j) = Ok (linkable s).
Proof.
  intros V. fields V ms.
  unfold has_reference, linkable, get, bind; simpl.
  rewrite (truthy_optional _ _ _ Eu), (truthy_optional _ _ _ Es).
  destruct (filled uo); [reflexivity|]. simpl.
  destruct (filled so) eqn:Fs.
  - apply (startsWith_http_filled _ _ _ Es Fs).
  - destruct (Js.startsWith (text_of so) "http") eqn:P; [|reflexivity].
    exfalso. destruct so as [l|]; [|discriminate P].
    simpl in *. apply startsWith_nonempty in P; [congruence | reflexivity].
Qed.

(** The callback on a typed source gives its marker. *)
Lemma citation_typed i j s :
  source_view j = Some s -> citation i j = Ok (marker i s).
Proof.
  intros V. unfold citation, marker. rewrite (has_reference_typed _ _ V).
  unfold bind at 1. destruct (linkable s) eqn:L; [|reflexivity].
  fields V ms.
  unfold linkable, link_target, link_title in *; simpl in *.
  unfold or_else. rewrite (truthy_optional _ _ _ Eu), (truthy_optional _ _ _ Et).
  assert (Us : filled uo = false ->
               ToString (member "source" ms) = Ok (text_of so)).
  { intros Fu. rewrite Fu in L. apply (ToString_filled _ _ _ Es).
    destruct so as [l|]; [|discriminate L].
    simpl in *. eapply startsWith_nonempty; [|exact L]. reflexivity. }
  pose proof (ToString_filled _ _ _ Eu) as Uu.
  pose proof (ToString_filled _ _ _ Et) as Ut.
  destruct (filled uo), (filled to); cbn [bind];
    rewrite ?Uu, ?Us, ?Ut by reflexivity; cbn [bind]; try reflexivity;
    destruct (optional_string_cases _ _ _ Es) as [[-> [-> | ->]] | (l & -> & ->)];
    cbn [last_segment bind truthy];
    rewrite ?Uu, ?Us by reflexivity; cbn [bind];
    try destruct (Js.nonempty (Js.pop (Js.split "/" l))); reflexivity.
Qed.

Lemma sequence_citations items ss k :
  sources_of items = Some ss ->
  sequence (imap (fun i => citation (k + i)) items)
  = Ok (imap (fun i => marker (k + i)) ss).
Proof.
  revert ss k. induction items as [|j items IH]; intros ss k.
  - intros [= <-]. reflexivity.
  - simpl. destruct (source_view j) as [s|] eqn:V; [|discriminate].
    destruct (sources_of items) as [ss'|] eqn:E; [|discriminate].
    intros [= <-]. rewrite (citation_typed _ _ _ V). simpl.
    rewrite (imap_ext _ (fun i => citation (S k + i))), (IH _ (S k) eq_refl).
    + simpl. f_equal. f_equal. apply imap_ext. intros i x _. simpl.
      f_equal. lia.
    + intros i x _. simpl. f_equal. lia.
Qed.

Lemma marker_nonempty i s : Js.nonempty (marker i s) = true.
Proof. unfold marker. destruct (linkable s); reflexivity. Qed.

Lemma sources_of_length items ss :
  sources_of items = Some ss -> length ss = length items.
Proof.
  revert ss. induction items as [|j items IH]; intros ss.
  - intros [= <-]. reflexivity.
  - simpl. destruct (source_view j); [|discriminate].
    destruct (sources_of items) as [ss'|]; [|discriminate].
    intros [= <-]. simpl. f_equal. now apply IH.
Qed.

(** The renderer on a typed source list: the body, then the block. *)
Lemma addInlineCitations_typed content v ss :
  sources_view v = Some ss ->
  addInlineCitations content v = Ok (content ++ citation_block ss).
Proof.
  destruct v as [[| | | |items|]|]; try discriminate. simpl.
  destruct items as [|j items].
  - intros [= <-]. cbn. now rewrite append_nil_r.
  - intros E. unfold addInlineCitations. cbn [no_sources truthy negb orb length_is_zero].
    assert (Q : sequence (imap citation (j :: items)) = Ok (markers ss))
      by exact (sequence_citations _ _ 0 E).
    rewrite Q. cbn [bind].
    destruct ss as [|s ss]; [apply sources_of_length in E; discriminate|].
    unfold citation_block, markers. cbn [imap].
    rewrite join_nonempty by apply marker_nonempty. reflexivity.
Qed.

Lemma markers_lookup ss i s :
  ss !! i = Some s -> markers ss !! i = Some (marker i s).
Proof. intros E. unfold markers. now rewrite list_lookup_imap, E. Qed.

(** A typed source list is empty exactly when the code sees no source. *)
Lemma no_sources_typed v ss :
  sources_view v = Some ss -> no_sources v = bool_decide (ss = []).
Proof.
  destruct v as [[| | | |items|]|]; try discriminate. simpl.
  destruct items as [|j items].
  - intros [= <-]. reflexivity.
  - intros E. destruct ss; [apply sources_of_length in E; discriminate|].
    reflexivity.
Qed.

End Typed.

(** ** One line of the stream *)

Section Lines.
Context `{Engine}.

Lemma create_response_div_locals p l :
  fullResponse (snd (create_response_div (p, l))) = fullResponse l
  /\ sources (snd (create_response_div (p, l))) = sources l
  /\ loadingDiv (snd (create_response_div (p, l))) = loadingDiv l
  /\ hasCreatedResponseDiv (snd (create_response_div (p, l))) = true.
Proof.
  unfold create_response_div.
  destruct (hasCreatedResponseDiv l) eqn:E; cbn; auto.
Qed.

Lemma create_response_div_created p l :
  hasCreatedResponseDiv l = true -> create_response_div (p, l) = (p, l).
Proof. intros E. unfold create_response_div. now rewrite E. Qed.

Lemma render_response_locals st : snd (render_response st) = snd st.
Proof.
  destruct st as [p l]. unfold render_response.
  destruct (responseDiv l); [|reflexivity].
  destruct (addInlineCitations _ _); reflexivity.
Qed.

(** Taking apart the decoding of a line, in step with [process_line]. *)
Ltac decoding D :=
  unfold decode_line in D; unfold process_line;
  destruct (Js.startsWith _ "data: "); [|discriminate D];
  destruct (JSON_parse _) as [[| | | | |ms]|]; try discriminate D;
  cbn [get];
  destruct (member "type" ms) as [[| | |type| |]|]; try discriminate D;
  cbn [is_type];
  destruct (String.eqb type "metadata");
    [|destruct (String.eqb type "content");
      [|destruct (String.eqb type "error"); [|discriminate D]]].

(** A content event: the response element is made if need be, the text
    is appended, the element is rendered. *)
Lemma process_line_content p l line t :
  decode_line line = Some (ContentDelta t) ->
  process_line (p, l) line =
  render_response
    (fst (create_response_div (p, l)),
     with_fullResponse (fullResponse (snd (create_response_div (p, l))) ++ t)
       (snd (create_response_div (p, l)))).
Proof.
  intros D. decoding D.
  - destruct (member "sources" ms) as [[| | | |items|]|]; try discriminate D.
    destruct (sources_of items); discriminate D.
  - destruct (member "text" ms) as [[| | |s| |]|]; try discriminate D.
    injection D as ->. destruct (create_response_div (p, l)). reflexivity.
  - destruct (member "message" ms) as [[| | |s| |]|]; discriminate D.
Qed.

(** A metadata event: the source list is replaced, the response element
    is made if need be; nothing is rendered. *)
Lemma process_line_metadata p l line ss :
  decode_line line = Some (Metadata ss) ->
  exists v, sources_view v = Some ss /\
    process_line (p, l) line = create_response_div (p, with_sources_value v l).
Proof.
  intros D. decoding D.
  - destruct (member "sources" ms) as [[| | | |items|]|] eqn:M; try discriminate D.
    + injection D as <-. exists (Some (JArr [])). split; reflexivity.
    + destruct (sources_of items) as [ss'|] eqn:S; [|discriminate D].
      injection D as <-. exists (Some (JArr items)). split; [exact S|reflexivity].
    + injection D as <-. exists (Some (JArr [])). split; reflexivity.
  - destruct (member "text" ms) as [[| | |s| |]|]; discriminate D.
  - destruct (member "message" ms) as [[| | |s| |]|]; discriminate D.
Qed.

(** An error event: logged by the line's own [catch]; nothing else. *)
Lemma process_line_error p l line m :
  decode_line line = Some (ErrorEvent m) ->
  process_line (p, l) line = (console_error (Error m) p, l).
Proof.
  intros D. decoding D.
  - destruct (member "sources" ms) as [[| | | |items|]|]; try discriminate D.
    destruct (sources_of items); discriminate D.
  - destruct (member "text" ms) as [[| | |s| |]|]; discriminate D.
  - destruct (member "message" ms) as [[| | |s| |]|]; try discriminate D.
    injection D as ->. reflexivity.
Qed.

Lemma process_line_malformed p l line :
  malformed_line line = true ->
  exists e, process_line (p, l) line = (console_error e p, l).
Proof.
  unfold malformed_line, process_line.
  destruct (Js.startsWith line "data: "); [|discriminate].
  destruct (JSON_parse _) as [|e]; [discriminate|]. eauto.
Qed.

Lemma process_line_unmarked st line :
  Js.startsWith line "data: " = false -> process_line st line = st.
Proof. intros E. destruct st. unfold process_line. now rewrite E. Qed.

End Lines.

(** ** Every line, typed or not *)

Section Effects.
Context `{Engine}.

Lemma process_line_effect st line : line_effect st (process_line st line).
Proof.
  destruct st as [p l]. unfold process_line.
  destruct (Js.startsWith line "data: "); [|constructor].
  destruct (JSON_parse _) as [data|e]; [|constructor].
  destruct (get (Some data) "type") as [type|e]; [|constructor].
  destruct (is_type type "metadata").
  { destruct (get (Some data) "sources"); constructor. }
  destruct (is_type type "content").
  { destruct (create_response_div (p, l)) as [p1 l1] eqn:C.
    destruct (let* text := get (Some data) "text" in ToString text) as [t|e].
    - pose proof (effect_content p l t) as E. now rewrite C in E.
    - pose proof (effect_content_failed p l e) as E. now rewrite C in E. }
  destruct (is_type type "error"); [|constructor].
  destruct (get (Some data) "message"); constructor.
Qed.

Lemma consistent_start p : consistent (stream_start p).
Proof. reflexivity. Qed.

Lemma consistent_create st : consistent st -> consistent (create_response_div st).
Proof.
  destruct st as [p l]. unfold create_response_div.
  destruct (hasCreatedResponseDiv l) eqn:E; [trivial|]. intros _.
  unfold consistent. cbn. rewrite length_app, remove_welcome_length. cbn.
  split; [lia|reflexivity].
Qed.

Lemma consistent_render st : consistent st -> consistent (render_response st).
Proof.
  destruct st as [p l]. unfold render_response, consistent. cbn.
  destruct (responseDiv l) as [div|] eqn:R; [|cbn; now rewrite R].
  destruct (addInlineCitations _ _); cbn; rewrite R; [|trivial].
  now rewrite length_alter.
Qed.

Lemma consistent_line st line : consistent st -> consistent (process_line st line).
Proof.
  intros C. destruct (process_line_effect st line) as [st|p l e|p l v|p l t|p l e];
    trivial.
  - apply consistent_create. exact C.
  - apply consistent_render.
    pose proof (consistent_create _ C) as C'.
    destruct (create_response_div (p, l)) as [p1 l1]. exact C'.
  - pose proof (consistent_create _ C) as C'.
    destruct (create_response_div (p, l)) as [p1 l1]. exact C'.
Qed.

Lemma consistent_lines lines st :
  consistent st -> consistent (foldl process_line st lines).
Proof.
  revert st. induction lines as [|x lines IH]; intros st C; [exact C|].
  apply IH, consistent_line, C.
Qed.

Lemma consistent_chunks chunks st :
  consistent st -> consistent (foldl process_chunk st chunks).
Proof.
  revert st. induction chunks as [|c chunks IH]; intros st C; [exact C|].
  apply IH, consistent_lines, C.
Qed.

(** The answer grows by the text of a protocol line. *)
Lemma process_line_text st line :
  protocol_line line = true ->
  fullResponse (snd (process_line st line))
  = fullResponse (snd st) ++ content_text line.
Proof.
  destruct st as [p l]. unfold protocol_line, content_text.
  intros [_ P]%andb_true_iff.
  destruct (decode_line line) as [[ss|t|m]|] eqn:D.
  - destruct (process_line_metadata p l _ _ D) as (v & _ & ->).
    destruct (create_response_div_locals p (with_sources_value v l)) as (-> & _).
    cbn. now rewrite append_nil_r.
  - rewrite (process_line_content _ _ _ _ D), render_response_locals.
    cbn [snd with_fullResponse fullResponse].
    now destruct (create_response_div_locals p l) as (-> & _).
  - rewrite (process_line_error _ _ _ _ D). cbn. now rewrite append_nil_r.
  - cbn in P. rewrite append_nil_r. apply orb_true_iff in P as [M|U].
    + destruct (process_line_malformed p l _ M) as [e ->]. reflexivity.
    + apply negb_true_iff in U. now rewrite process_line_unmarked.
Qed.

Lemma process_lines_text lines st :
  Forall (fun x => protocol_line x = true) lines ->
  fullResponse (snd (foldl process_line st lines))
  = fullResponse (snd st) ++ answer_of lines.
Proof.
  intros F. revert st. induction F as [|x lines P _ IH]; intros st.
  - cbn. now rewrite append_nil_r.
  - cbn [foldl answer_of]. rewrite IH, (process_line_text _ _ P).
    apply append_assoc.
Qed.

(** A chunk of whole lines is the lines one after the other. *)
Lemma process_chunk_of st lines :
  Forall (fun x => no_newline x = true) lines ->
  process_chunk st (chunk_of lines) = foldl process_line st lines.
Proof.
  intros F. unfold process_chunk. rewrite (split_chunk_of _ F), foldl_app.
  cbn [foldl]. now apply process_line_unmarked.
Qed.

Lemma process_chunks_of groups st :
  Forall (Forall (fun x => no_newline x = true)) groups ->
  foldl process_chunk st (chunk_of <$> groups)
  = foldl process_line st (concat groups).
Proof.
  intros F. revert st. induction F as [|g groups G _ IH]; intros st; [reflexivity|].
  cbn [fmap list_fmap foldl concat]. rewrite foldl_app, <- IH.
  now rewrite (process_chunk_of _ _ G).
Qed.

Lemma protocol_line_no_newline line :
  protocol_line line = true -> no_newline line = true.
Proof. unfold protocol_line. now intros [? _]%andb_true_iff. Qed.

End Effects.

(** ** Rendering *)

Section Rendering.
Context `{Engine}.

Lemma content_at_set_innerHTML div markup p :
  div < length (elements p) ->
  content_at div (set_innerHTML div markup p) = Some (InnerHTML markup).
Proof.
  intros L. unfold content_at, set_innerHTML. cbn.
  rewrite list_lookup_alter_eq.
  destruct (lookup_lt_is_Some_2 _ _ L) as [m ->]. reflexivity.
Qed.

Lemma set_innerHTML_twice div markup p :
  set_innerHTML div markup (set_innerHTML div markup p) = set_innerHTML div markup p.
Proof.
  unfold set_innerHTML, with_pane. cbn. f_equal.
  rewrite list_alter_alter_eq. apply list_alter_ext; [|reflexivity].
  intros m _. reflexivity.
Qed.

(** What a render leaves in the response element. *)
Lemma render_response_content p l div markup :
  responseDiv l = Some div -> div < length (elements p) ->
  addInlineCitations (marked_parse (fullResponse l)) (sources l) = Ok markup ->
  render_response (p, l) = (set_innerHTML div markup p, l).
Proof. intros R _ A. unfold render_response. now rewrite R, A. Qed.

Lemma stream_done_no_sources p l :
  no_sources (sources l) = true ->
  stream_done (p, l)
  = push_message "assistant" (Some (JStr (fullResponse l)))
      (with_sources "none" (sourcesList p) p).
Proof.
  intros N. unfold stream_done, displaySourcesWithReferences. now rewrite N.
Qed.

End Rendering.

(** ** A scenario of the specification *)

(** A metadata frame with one source, then two content frames in two
    chunks, then the end of the stream: the answer is shown with one
    marker, the history keeps the text alone, the panel lists the
    source. *)
Example hello_world_scenario :
  let page :=
    @sendStreamingMessage Sample.engine
      (Responded true
         ([Wire.metadata_line Sample.one_source ++ Js.nl
           ++ Wire.content_line "Hello" ++ Js.nl;
           Wire.content_line " world" ++ Js.nl], Done))
      Sample.empty_page in
  shown page
  = [Some {| message_type := "assistant";
             message_content :=
               InnerHTML ("<p>Hello world</p> " ++ citation_span "1") |}]
  /\ messages page = [("assistant", Some (JStr "Hello world"))]
  /\ sourcesSection_display page = "block"
  /\ sourcesList page
     = [{| item_name := "1. doc1.pdf"; item_link := None; item_author := None |}].
Proof. repeat split; vm_compute; reflexivity. Qed.

(** ** The citation renderer *)

(** A space and the parts joined by spaces: each part after a space. *)
Lemma join_spaced (x : string) (xs : list string) :
  " " ++ Js.join " " (x :: xs) = foldr (fun m rest => " " ++ m ++ rest) "" (x :: xs).
Proof.
  revert x. induction xs as [|y xs IH]; intros x.
  - cbn. now rewrite append_nil_r.
  - change (Js.join " " (x :: y :: xs)) with (x ++ " " ++ Js.join " " (y :: xs)).
    rewrite IH. reflexivity.
Qed.

(** C5: for a non-empty source list of length N the renderer emits exactly
    N markers, the marker at list position i showing the number i + 1 in
    brackets, as a plain number or as a link; the markers are the same
    whatever the body is, and every render of a cycle holding that list
    writes them after the formatted text, however much text has been
    accumulated. *)
Theorem citations_numbered_by_position `{Engine} (v : value) (ss : list Source) :
  sources_view v = Some ss -> ss <> [] ->
  let q := String "034"%char "" in
  length (markers ss) = length ss
  /\ (forall i s, ss !! i = Some s ->
        markers ss !! i = Some (citation_span (pretty (i + 1)))
        \/ exists target title,
             markers ss !! i = Some (citation_link target title (pretty (i + 1))))
  /\ (forall i s, ss !! i = Some s ->
        markers ss !! i
        = Some ("<span class=" ++ q ++ "citation-number" ++ q ++ ">["
                ++ pretty (i + 1) ++ "]</span>")
        \/ exists target title,
             markers ss !! i
             = Some ("<a href=" ++ q ++ target ++ q
                     ++ " target=" ++ q ++ "_blank" ++ q
                     ++ " rel=" ++ q ++ "noopener noreferrer" ++ q
                     ++ " class=" ++ q ++ "citation-link" ++ q
                     ++ " title=" ++ q ++ title ++ q
                     ++ ">[" ++ pretty (i + 1) ++ "]</a>"))
  /\ (forall content,
        addInlineCitations content v
        = Ok (content ++ " " ++ Js.join " " (markers ss)))
  /\ (forall content,
        addInlineCitations content v
        = Ok (content ++ foldr (fun m rest => " " ++ m ++ rest) "" (markers ss)))
  /\ (forall p l div text,
        sources l = v -> responseDiv l = Some div -> div < length (elements p) ->
        content_at div (fst (render_response (p, with_fullResponse text l)))
        = Some (InnerHTML (marked_parse text ++ " " ++ Js.join " " (markers ss)))).
Proof.
  intros V N q.
  assert (A : forall content,
             addInlineCitations content v
             = Ok (content ++ " " ++ Js.join " " (markers ss))).
  { intros content. rewrite (addInlineCitations_typed _ _ _ V).
    destruct ss; [contradiction|]. reflexivity. }
  split; [apply length_imap|]. split; [|split; [|split; [exact A|split]]].
  - intros i s E. rewrite (markers_lookup _ _ _ E). unfold marker.
    destruct (linkable s); eauto.
  - intros i s E. rewrite (markers_lookup _ _ _ E). unfold marker.
    destruct (linkable s); [right|left; reflexivity].
    exists (link_target s), (link_title s). reflexivity.
  - intros content. rewrite A. f_equal. f_equal.
    destruct ss as [|s ss]; [contradiction|]. apply join_spaced.
  - intros p l div text S R L.
    rewrite (render_response_content p (with_fullResponse text l) div
               (marked_parse text ++ " " ++ Js.join " " (markers ss)) R L).
    + now apply content_at_set_innerHTML.
    + cbn [fullResponse sources with_fullResponse]. rewrite S. apply A.
Qed.

Lemma citations_numbered_by_position_witness :
  let q := String "034"%char "" in
  length (markers [Sample.doc; Sample.web]) = 2
  /\ (forall i s, [Sample.doc; Sample.web] !! i = Some s ->
        markers [Sample.doc; Sample.web] !! i
        = Some (citation_span (pretty (i + 1)))
        \/ exists target title,
             markers [Sample.doc; Sample.web] !! i
             = Some (citation_link target title (pretty (i + 1))))
  /\ (forall i s, [Sample.doc; Sample.web] !! i = Some s ->
        markers [Sample.doc; Sample.web] !! i
        = Some ("<span class=" ++ q ++ "citation-number" ++ q ++ ">["
                ++ pretty (i + 1) ++ "]</span>")
        \/ exists target title,
             markers [Sample.doc; Sample.web] !! i
             = Some ("<a href=" ++ q ++ target ++ q
                     ++ " target=" ++ q ++ "_blank" ++ q
                     ++ " rel=" ++ q ++ "noopener noreferrer" ++ q
                     ++ " class=" ++ q ++ "citation-link" ++ q
                     ++ " title=" ++ q ++ title ++ q
                     ++ ">[" ++ pretty (i + 1) ++ "]</a>"))
  /\ (forall content,
        @addInlineCitations Sample.engine content
          (Some (JArr [Sample.json_of Sample.doc; Sample.json_of Sample.web]))
        = Ok (content ++ " " ++ Js.join " " (markers [Sample.doc; Sample.web])))
  /\ (forall content,
        @addInlineCitations Sample.engine content
          (Some (JArr [Sample.json_of Sample.doc; Sample.json_of Sample.web]))
        = Ok (content ++ foldr (fun m rest => " " ++ m ++ rest) ""
                           (markers [Sample.doc; Sample.web])))
  /\ (forall p l div text,
        sources l
        = Some (JArr [Sample.json_of Sample.doc; Sample.json_of Sample.web]) ->
        responseDiv l = Some div -> div < length (elements p) ->
        content_at div
          (fst (@render_response Sample.engine (p, with_fullResponse text l)))
        = Some (InnerHTML
                  (@marked_parse Sample.engine text ++ " "
                   ++ Js.join " " (markers [Sample.doc; Sample.web])))).
Proof.
  apply (@citations_numbered_by_position Sample.engine
           (Some (JArr [Sample.json_of Sample.doc; Sample.json_of Sample.web]))
           [Sample.doc; Sample.web]); [reflexivity | discriminate].
Defined.

(** C9, as stated, fails: a source whose [url] field is present and empty
    (and whose locator is no URL) has a URL-shaped locator in the sense of
    the sentence, and its marker is a plain number. *)
Lemma blank_url_is_not_linked :
  url_shaped_as_stated Sample.blank_url = true
  /\ @addInlineCitations Sample.engine "body"
       (Some (JArr [Sample.json_of Sample.blank_url]))
     = Ok ("body " ++ citation_span "1").
Proof. split; reflexivity. Qed.

(** C9, amended: the marker of a source is a hyperlink exactly when its
    [url] field is present and not empty or its locator starts with
    [http], and a plain bracketed number otherwise; the markers are
    appended once, as one block after the body. *)
Theorem marker_is_link_when_reference_filled `{Engine} (v : value)
    (ss : list Source) :
  sources_view v = Some ss ->
  (forall content, addInlineCitations content v = Ok (content ++ citation_block ss))
  /\ (forall i s, ss !! i = Some s ->
        markers ss !! i
        = Some (if filled (url s) || Js.startsWith (text_of (source s)) "http"
                then citation_link (link_target s) (link_title s) (pretty (i + 1))
                else citation_span (pretty (i + 1))))
  /\ (forall i s m, ss !! i = Some s -> markers ss !! i = Some m ->
        Js.startsWith m "<a href="
        = (filled (url s) || Js.startsWith (text_of (source s)) "http")).
Proof.
  intros V. split; [intros; now apply addInlineCitations_typed|]. split.
  - intros i s E. now rewrite (markers_lookup _ _ _ E).
  - intros i s m E. rewrite (markers_lookup _ _ _ E). intros [= <-].
    unfold marker, linkable. destruct (filled (url s) || _); reflexivity.
Qed.

Lemma marker_is_link_when_reference_filled_witness :
  (forall content,
     @addInlineCitations Sample.engine content
       (Some (JArr [Sample.json_of Sample.web; Sample.json_of Sample.blank_url]))
     = Ok (content ++ citation_block [Sample.web; Sample.blank_url]))
  /\ (forall i s, [Sample.web; Sample.blank_url] !! i = Some s ->
        markers [Sample.web; Sample.blank_url] !! i
        = Some (if filled (url s) || Js.startsWith (text_of (source s)) "http"
                then citation_link (link_target s) (link_title s) (pretty (i + 1))
                else citation_span (pretty (i + 1))))
  /\ (forall i s m, [Sample.web; Sample.blank_url] !! i = Some s ->
        markers [Sample.web; Sample.blank_url] !! i = Some m ->
        Js.startsWith m "<a href="
        = (filled (url s) || Js.startsWith (text_of (source s)) "http")).
Proof.
  apply (@marker_is_link_when_reference_filled Sample.engine
           (Some (JArr [Sample.json_of Sample.web; Sample.json_of Sample.blank_url]))
           [Sample.web; Sample.blank_url]).
  reflexivity.
Defined.

Lemma sources_view_nil (v : value) : sources_view v = Some [] -> v = Some (JArr []).
Proof.
  destruct v as [[| | | |items|]|]; try discriminate. simpl.
  intros E. apply sources_of_length in E. destruct items; [reflexivity|discriminate].
Qed.

(** C7, as stated, fails: a render with an empty source list does not
    hide the source panel.  After an answer with one source the panel is
    shown; in the next cycle a metadata frame without sources and a
    content frame are rendered without markers, and the panel is still
    shown with the entry of the earlier answer; it stays so when the read
    then fails. *)
Lemma panel_stays_shown_during_stream :
  let earlier :=
    @sendStreamingMessage Sample.engine
      (Responded true
         ([Wire.metadata_line Sample.one_source ++ Js.nl
           ++ Wire.content_line "Hello" ++ Js.nl], Done))
      Sample.empty_page in
  let st :=
    @process_chunk Sample.engine (@stream_start Sample.engine earlier)
      (Wire.metadata_line "[]" ++ Js.nl ++ Wire.content_line "Hi" ++ Js.nl) in
  let failed := @stream_catch Sample.engine st (Error "connection lost") in
  sourcesSection_display earlier = "block"
  /\ sources (snd st) = Some (JArr [])
  /\ responseDiv (snd st) = Some 3
  /\ content_at 3 (fst st) = Some (InnerHTML "<p>Hi</p>")
  /\ sourcesSection_display (fst st) = "block"
  /\ sourcesList (fst st)
     = [{| item_name := "1. doc1.pdf"; item_link := None; item_author := None |}]
  /\ sourcesSection_display failed = "block".
Proof. repeat split; vm_compute; reflexivity. Qed.

(** C7, amended: when the source list is empty, as after a metadata event
    with no sources, the renderer returns the body unchanged and a content
    event is rendered as the formatted text alone.  Every render with no
    sources gives the formatted text alone and leaves the source panel as
    it was; the panel is hidden by the panel function on the empty list,
    which runs at the normal end of the stream. *)
Theorem empty_sources_give_no_markers `{Engine} (p : page) (l : stream_locals)
    (mline cline t : string) :
  consistent (p, l) ->
  decode_line mline = Some (Metadata []) ->
  decode_line cline = Some (ContentDelta t) ->
  let st1 := process_line (p, l) mline in
  let st2 := process_line st1 cline in
  sources (snd st1) = Some (JArr [])
  /\ (forall content, addInlineCitations content (sources (snd st1)) = Ok content)
  /\ (forall q,
        displaySourcesWithReferences (sources (snd st1)) q
        = (with_sources "none" (sourcesList q) q, Ok tt))
  /\ (exists div,
        responseDiv (snd st2) = Some div
        /\ content_at div (fst st2)
           = Some (InnerHTML (marked_parse (fullResponse l ++ t))))
  /\ sourcesSection_display (stream_done st2) = "none"
  /\ sourcesSection_display (fst st2) = sourcesSection_display p
  /\ sourcesList (fst st2) = sourcesList p
  /\ (forall q k div,
        no_sources (sources k) = true ->
        responseDiv k = Some div -> div < length (elements q) ->
        content_at div (fst (render_response (q, k)))
        = Some (InnerHTML (marked_parse (fullResponse k)))
        /\ sourcesSection_display (fst (render_response (q, k)))
           = sourcesSection_display q
        /\ sourcesList (fst (render_response (q, k))) = sourcesList q).
Proof.
  intros C M D. cbv zeta.
  assert (Every : forall q k div,
            no_sources (sources k) = true ->
            responseDiv k = Some div -> div < length (elements q) ->
            content_at div (fst (render_response (q, k)))
            = Some (InnerHTML (marked_parse (fullResponse k)))
            /\ sourcesSection_display (fst (render_response (q, k)))
               = sourcesSection_display q
            /\ sourcesList (fst (render_response (q, k))) = sourcesList q).
  { intros q k div N R B.
    rewrite (render_response_content q k div (marked_parse (fullResponse k)) R B)
      by (unfold addInlineCitations; now rewrite N).
    cbn [fst]. split; [now apply content_at_set_innerHTML|]. now split. }
  destruct (process_line_metadata p l _ _ M) as (v & V & E).
  apply sources_view_nil in V as ->. rewrite E.
  pose proof (consistent_create (p, with_sources_value (Some (JArr [])) l) C) as C1.
  destruct (create_response_div_locals p (with_sources_value (Some (JArr [])) l))
    as (F1 & S1 & _ & H1).
  assert (K : sourcesSection_display
                (fst (create_response_div
                        (p, with_sources_value (Some (JArr [])) l)))
              = sourcesSection_display p
              /\ sourcesList
                   (fst (create_response_div
                           (p, with_sources_value (Some (JArr [])) l)))
                 = sourcesList p).
  { unfold create_response_div. cbn [with_sources_value hasCreatedResponseDiv].
    destruct (hasCreatedResponseDiv l); split; reflexivity. }
  destruct (create_response_div (p, with_sources_value (Some (JArr [])) l))
    as [p1 l1]. cbn [fst snd] in *. cbn in S1, F1.
  split; [exact S1|]. rewrite S1.
  split; [reflexivity|]. split; [reflexivity|].
  rewrite (process_line_content _ _ _ _ D), (create_response_div_created _ _ H1).
  cbn [fst snd]. unfold consistent in C1. cbn [fst snd] in C1.
  destruct (responseDiv l1) as [div|] eqn:R; [|congruence]. destruct C1 as [L _].
  rewrite (render_response_content p1 _ div (marked_parse (fullResponse l1 ++ t)));
    [|exact R|exact L|].
  - split; [|split; [|split; [exact (proj1 K)|split; [exact (proj2 K)|exact Every]]]].
    + exists div. split; [exact R|]. rewrite F1.
      now apply content_at_set_innerHTML.
    + rewrite stream_done_no_sources; [reflexivity|]. cbn. now rewrite S1.
  - cbn. now rewrite S1.
Qed.

Lemma empty_sources_give_no_markers_witness :
  let p := fst (@stream_start Sample.engine Sample.empty_page) in
  let l := snd (@stream_start Sample.engine Sample.empty_page) in
  let st1 := @process_line Sample.engine (p, l) (Wire.metadata_line "[]") in
  let st2 := @process_line Sample.engine st1 (Wire.content_line "Hello") in
  sources (snd st1) = Some (JArr [])
  /\ (forall content,
        @addInlineCitations Sample.engine content (sources (snd st1)) = Ok content)
  /\ (forall q,
        @displaySourcesWithReferences Sample.engine (sources (snd st1)) q
        = (with_sources "none" (sourcesList q) q, Ok tt))
  /\ (exists div,
        responseDiv (snd st2) = Some div
        /\ content_at div (fst st2)
           = Some (InnerHTML (@marked_parse Sample.engine (fullResponse l ++ "Hello"))))
  /\ sourcesSection_display (@stream_done Sample.engine st2) = "none"
  /\ sourcesSection_display (fst st2) = sourcesSection_display p
  /\ sourcesList (fst st2) = sourcesList p
  /\ (forall q k div,
        @no_sources Sample.engine (sources k) = true ->
        responseDiv k = Some div -> div < length (elements q) ->
        content_at div (fst (@render_response Sample.engine (q, k)))
        = Some (InnerHTML (@marked_parse Sample.engine (fullResponse k)))
        /\ sourcesSection_display (fst (@render_response Sample.engine (q, k)))
           = sourcesSection_display q
        /\ sourcesList (fst (@render_response Sample.engine (q, k)))
           = sourcesList q).
Proof.
  apply (@empty_sources_give_no_markers Sample.engine
           (fst (@stream_start Sample.engine Sample.empty_page))
           (snd (@stream_start Sample.engine Sample.empty_page))
           (Wire.metadata_line "[]") (Wire.content_line "Hello") "Hello");
    reflexivity.
Defined.

(** C8: rendering again from an unchanged state changes nothing: the
    markup of the response element is derived from the accumulated text
    and the source list alone, it holds the citation block once, and a
    second render (also the one an empty content event causes) leaves the
    page and the cycle as they are. *)
Theorem rerender_is_idempotent `{Engine} (p : page) (l : stream_locals)
    (ss : list Source) (div : nat) :
  sources_view (sources l) = Some ss ->
  responseDiv l = Some div ->
  div < length (elements p) ->
  render_response (render_response (p, l)) = render_response (p, l)
  /\ content_at div (fst (render_response (p, l)))
     = Some (InnerHTML (marked_parse (fullResponse l) ++ citation_block ss))
  /\ (forall line,
        decode_line line = Some (ContentDelta "") ->
        hasCreatedResponseDiv l = true ->
        process_line (render_response (p, l)) line = render_response (p, l)).
Proof.
  intros V R L.
  pose proof (addInlineCitations_typed (marked_parse (fullResponse l)) _ _ V) as A.
  rewrite (render_response_content _ _ _ _ R L A).
  assert (L' : div < length (elements (set_innerHTML div
                 (marked_parse (fullResponse l) ++ citation_block ss) p)))
    by (cbn; now rewrite length_alter).
  assert (Again : render_response
                    (set_innerHTML div
                       (marked_parse (fullResponse l) ++ citation_block ss) p, l)
                  = (set_innerHTML div
                       (marked_parse (fullResponse l) ++ citation_block ss) p, l)).
  { rewrite (render_response_content _ _ _ _ R L' A).
    now rewrite set_innerHTML_twice. }
  split; [exact Again|]. split; [now apply content_at_set_innerHTML|].
  intros line D Created.
  rewrite (process_line_content _ _ _ _ D), (create_response_div_created _ _ Created).
  cbn [fst snd]. rewrite append_nil_r.
  replace (with_fullResponse (fullResponse l) l) with l by now destruct l.
  exact Again.
Qed.

Lemma rerender_is_idempotent_witness :
  let st :=
    @process_line Sample.engine
      (@process_line Sample.engine (@stream_start Sample.engine Sample.empty_page)
         (Wire.metadata_line Sample.one_source))
      (Wire.content_line "Hello") in
  @render_response Sample.engine (@render_response Sample.engine st)
  = @render_response Sample.engine st
  /\ content_at 1 (fst (@render_response Sample.engine st))
     = Some (InnerHTML (@marked_parse Sample.engine (fullResponse (snd st))
                        ++ citation_block [Sample.doc]))
  /\ (forall line,
        decode_line line = Some (ContentDelta "") ->
        hasCreatedResponseDiv (snd st) = true ->
        @process_line Sample.engine (@render_response Sample.engine st) line
        = @render_response Sample.engine st).
Proof.
  exact (@rerender_is_idempotent Sample.engine
           (fst (@process_line Sample.engine
                   (@process_line Sample.engine
                         (@stream_start Sample.engine Sample.empty_page)
                      (Wire.metadata_line Sample.one_source))
                   (Wire.content_line "Hello")))
           (snd (@process_line Sample.engine
                   (@process_line Sample.engine
                         (@stream_start Sample.engine Sample.empty_page)
                      (Wire.metadata_line Sample.one_source))
                   (Wire.content_line "Hello")))
           [Sample.doc] 1 eq_refl eq_refl (le_n 2)).
Defined.

(** ** Lines that are not frames *)

Lemma malformed_line_logs `{Engine} line :
  malformed_line line = true ->
  exists e, forall p l, process_line (p, l) line = (console_error e p, l).
Proof.
  unfold malformed_line, process_line.
  destruct (Js.startsWith line "data: "); [|discriminate].
  destruct (JSON_parse _) as [|e]; [discriminate|]. eauto.
Qed.

(** The same, field by field: the error [JSON.parse] throws is appended
    to the console; nothing else of the page and nothing of the cycle
    changes. *)
Lemma malformed_line_entry `{Engine} line :
  malformed_line line = true ->
  exists e, JSON_parse (Js.slice 6 line) = Throw e
    /\ forall p l,
         snd (process_line (p, l) line) = l
         /\ console (fst (process_line (p, l) line))
            = (console p ++ [FailedToParse e])%list
         /\ sessionId (fst (process_line (p, l) line)) = sessionId p
         /\ messages (fst (process_line (p, l) line)) = messages p
         /\ elements (fst (process_line (p, l) line)) = elements p
         /\ messagesContainer (fst (process_line (p, l) line)) = messagesContainer p
         /\ sourcesSection_display (fst (process_line (p, l) line))
            = sourcesSection_display p
         /\ sourcesList (fst (process_line (p, l) line)) = sourcesList p.
Proof.
  unfold malformed_line, process_line.
  destruct (Js.startsWith line "data: "); [|discriminate].
  destruct (JSON_parse _) as [|e]; [discriminate|]. intros _.
  exists e. split; [reflexivity|]. intros p l. cbn. auto 10.
Qed.

(** C6: a marker-prefixed line that is not JSON, between two content
    frames, is dropped with a log entry and nothing else; both frames are
    applied in order, in one chunk as well as over chunks of whole
    lines; a line without the marker has no effect at all. *)
Theorem malformed_line_is_skipped `{Engine} (p : page) (l : stream_locals)
    (a bad b ta tb : string) :
  decode_line a = Some (ContentDelta ta) ->
  malformed_line bad = true ->
  decode_line b = Some (ContentDelta tb) ->
  no_newline a = true -> no_newline bad = true -> no_newline b = true ->
  fullResponse (snd (process_chunk (p, l) (a ++ Js.nl ++ bad ++ Js.nl ++ b)))
  = fullResponse l ++ ta ++ tb
  /\ (forall groups, concat groups = [a; bad; b] ->
        fullResponse (snd (foldl process_chunk (p, l) (chunk_of <$> groups)))
        = fullResponse l ++ ta ++ tb)
  /\ (exists e, forall q k, process_line (q, k) bad = (console_error e q, k))
  /\ (exists e, JSON_parse (Js.slice 6 bad) = Throw e
        /\ forall q k,
             snd (process_line (q, k) bad) = k
             /\ console (fst (process_line (q, k) bad))
                = (console q ++ [FailedToParse e])%list
             /\ sessionId (fst (process_line (q, k) bad)) = sessionId q
             /\ messages (fst (process_line (q, k) bad)) = messages q
             /\ elements (fst (process_line (q, k) bad)) = elements q
             /\ messagesContainer (fst (process_line (q, k) bad))
                = messagesContainer q
             /\ sourcesSection_display (fst (process_line (q, k) bad))
                = sourcesSection_display q
             /\ sourcesList (fst (process_line (q, k) bad)) = sourcesList q)
  /\ (forall st line,
        Js.startsWith line "data: " = false -> process_line st line = st).
Proof.
  intros A M B Na Nm Nb.
  assert (P : Forall (fun x => protocol_line x = true) [a; bad; b]).
  { repeat constructor; unfold protocol_line;
      rewrite ?A, ?B, ?M, ?Na, ?Nm, ?Nb; cbn; now rewrite ?orb_true_r. }
  assert (T : answer_of [a; bad; b] = ta ++ tb).
  { cbn. unfold content_text. rewrite A, B.
    replace (decode_line bad) with (@None ResponseEvent); [now rewrite append_nil_r|].
    unfold malformed_line in M. unfold decode_line.
    destruct (Js.startsWith bad "data: "); [|reflexivity].
    now destruct (JSON_parse _). }
  split; [|split; [|split; [|split]]].
  - unfold process_chunk.
    rewrite (split_line _ _ Na), (split_line _ _ Nm), (split_no_newline _ Nb).
    now rewrite (process_lines_text _ _ P), T.
  - intros groups G. rewrite process_chunks_of, G.
    + now rewrite (process_lines_text _ _ P), T.
    + apply Forall_concat. rewrite G.
      repeat constructor; assumption.
  - now apply malformed_line_logs.
  - now apply malformed_line_entry.
  - apply process_line_unmarked.
Qed.

Lemma malformed_line_is_skipped_witness :
  let st := @stream_start Sample.engine Sample.empty_page in
  let a := Wire.content_line "Hel" in
  let b := Wire.content_line "lo" in
  fullResponse (snd (@process_chunk Sample.engine (fst st, snd st)
                       (a ++ Js.nl ++ Sample.not_json ++ Js.nl ++ b)))
  = fullResponse (snd st) ++ "Hel" ++ "lo"
  /\ (forall groups, concat groups = [a; Sample.not_json; b] ->
        fullResponse (snd (foldl (@process_chunk Sample.engine) (fst st, snd st)
                             (chunk_of <$> groups)))
        = fullResponse (snd st) ++ "Hel" ++ "lo")
  /\ (exists e, forall q k,
        @process_line Sample.engine (q, k) Sample.not_json = (console_error e q, k))
  /\ (exists e, JSON_parse (Js.slice 6 Sample.not_json) = Throw e
        /\ forall q k,
             snd (@process_line Sample.engine (q, k) Sample.not_json) = k
             /\ console (fst (@process_line Sample.engine (q, k) Sample.not_json))
                = (console q ++ [FailedToParse e])%list
             /\ sessionId (fst (@process_line Sample.engine (q, k) Sample.not_json))
                = sessionId q
             /\ messages (fst (@process_line Sample.engine (q, k) Sample.not_json))
                = messages q
             /\ elements (fst (@process_line Sample.engine (q, k) Sample.not_json))
                = elements q
             /\ messagesContainer
                  (fst (@process_line Sample.engine (q, k) Sample.not_json))
                = messagesContainer q
             /\ sourcesSection_display
                  (fst (@process_line Sample.engine (q, k) Sample.not_json))
                = sourcesSection_display q
             /\ sourcesList (fst (@process_line Sample.engine (q, k) Sample.not_json))
                = sourcesList q)
  /\ (forall st line,
        Js.startsWith line "data: " = false ->
        @process_line Sample.engine st line = st).
Proof.
  exact (@malformed_line_is_skipped Sample.engine
           (fst (@stream_start Sample.engine Sample.empty_page))
           (snd (@stream_start Sample.engine Sample.empty_page))
           (Wire.content_line "Hel") Sample.not_json (Wire.content_line "lo")
           "Hel" "lo" eq_refl eq_refl eq_refl eq_refl eq_refl eq_refl).
Defined.

(** ** Chunks and lines *)

Lemma answer_of_events lines : answer_of lines = texts (events_of lines).
Proof.
  induction lines as [|x lines IH]; [reflexivity|].
  cbn [answer_of]. unfold events_of, content_text in *. cbn [omap list_omap].
  destruct (decode_line x) as [[ss|t|m]|]; cbn [texts]; now rewrite IH.
Qed.

Lemma chunk_of_app (g1 g2 : list string) :
  chunk_of (g1 ++ g2) = chunk_of g1 ++ chunk_of g2.
Proof.
  induction g1 as [|x g1 IH]; [reflexivity|].
  cbn [chunk_of app]. rewrite IH. now rewrite !append_assoc.
Qed.

(** The chunks of a grouping are a cut of the same stream. *)
Lemma chunks_of_same_stream (groups : list (list string)) :
  foldr String.append "" (chunk_of <$> groups) = chunk_of (concat groups).
Proof.
  induction groups as [|g groups IH]; [reflexivity|].
  cbn [fmap list_fmap foldr concat]. fold (chunk_of <$> groups).
  now rewrite chunk_of_app, IH.
Qed.

Lemma answer_of_content_lines (ts : list string) :
  Forall (fun t => Wire.plain t = true) ts ->
  answer_of (Wire.content_line <$> ts) = foldr String.append "" ts.
Proof.
  induction 1 as [|t ts P _ IH]; [reflexivity|].
  cbn [fmap list_fmap answer_of foldr]. fold (Wire.content_line <$> ts).
  unfold content_text at 1. now rewrite (WireFacts.decode_content_line t P), IH.
Qed.

(** Texts without escapes, framed one per line and cut into chunks of
    whole lines in any way, are accumulated in order. *)
Lemma plain_deltas_accumulate `{Engine} (p : page) (l : stream_locals)
    (texts : list (list string)) :
  Forall (Forall (fun t => Wire.plain t = true)) texts ->
  fullResponse
    (snd (foldl process_chunk (p, l)
            (chunk_of <$> (fmap Wire.content_line <$> texts))))
  = fullResponse l ++ foldr String.append "" (concat texts).
Proof.
  intros F.
  assert (P : Forall (fun x => protocol_line x = true)
                (Wire.content_line <$> concat texts)).
  { apply Forall_fmap, Forall_concat. eapply Forall_impl; [exact F|].
    intros ts T. eapply Forall_impl; [exact T|].
    intros t. apply WireFacts.protocol_content_line. }
  assert (C : concat (fmap (M:=list) Wire.content_line <$> texts)
              = Wire.content_line <$> concat texts).
  { clear. induction texts as [|ts texts IH]; [reflexivity|].
    cbn [fmap list_fmap concat]. rewrite fmap_app. f_equal. exact IH. }
  rewrite process_chunks_of, C, (process_lines_text _ _ P).
  - rewrite answer_of_content_lines; [reflexivity|]. now apply Forall_concat.
  - apply Forall_fmap. eapply Forall_impl; [exact F|]. intros ts T.
    apply Forall_fmap. eapply Forall_impl; [exact T|]. intros t Pt.
    apply protocol_line_no_newline, WireFacts.protocol_content_line, Pt.
Qed.

(** C2, as stated, fails: one content frame, cut inside its [data: ] line
    into two chunks, adds nothing to the answer, while the same bytes in
    one chunk add its text. *)
Lemma frame_cut_across_chunks_is_lost :
  Sample.cut_head ++ Sample.cut_tail = Wire.content_line "Hello" ++ Js.nl
  /\ fullResponse
       (snd (foldl (@process_chunk Sample.engine)
             (@stream_start Sample.engine Sample.empty_page)
               [Wire.content_line "Hello" ++ Js.nl]))
     = "Hello"
  /\ fullResponse
       (snd (foldl (@process_chunk Sample.engine)
             (@stream_start Sample.engine Sample.empty_page)
               [Sample.cut_head; Sample.cut_tail]))
     = "".
Proof. repeat split; vm_compute; reflexivity. Qed.

(** C2, amended: when every chunk is made of whole lines, the final
    accumulated text is the concatenation, in arrival order, of the texts
    of the content events the lines carry, and the final state is the
    same for every such cut of the stream into chunks. *)
Theorem answer_is_concatenation_of_deltas `{Engine} (p : page)
    (l : stream_locals) (groups : list (list string)) :
  Forall (Forall (fun line => protocol_line line = true)) groups ->
  fullResponse (snd (foldl process_chunk (p, l) (chunk_of <$> groups)))
  = fullResponse l ++ texts (events_of (concat groups))
  /\ foldl process_chunk (p, l) (chunk_of <$> groups)
     = process_chunk (p, l) (chunk_of (concat groups))
  /\ foldr String.append "" (chunk_of <$> groups) = chunk_of (concat groups)
  /\ (forall texts : list (list string),
        Forall (Forall (fun t => Wire.plain t = true)) texts ->
        fullResponse
          (snd (foldl process_chunk (p, l)
                  (chunk_of <$> (fmap Wire.content_line <$> texts))))
        = fullResponse l ++ foldr String.append "" (concat texts)).
Proof.
  intros F.
  assert (N : Forall (Forall (fun x => no_newline x = true)) groups).
  { eapply Forall_impl; [exact F|]. intros g G.
    eapply Forall_impl; [exact G|]. apply protocol_line_no_newline. }
  split; [|split; [|split]].
  - rewrite (process_chunks_of _ _ N), process_lines_text.
    + now rewrite answer_of_events.
    + now apply Forall_concat.
  - rewrite (process_chunks_of _ _ N), process_chunk_of; [reflexivity|].
    now apply Forall_concat.
  - apply chunks_of_same_stream.
  - apply plain_deltas_accumulate.
Qed.

Lemma answer_is_concatenation_of_deltas_witness :
  let groups :=
    [[Wire.metadata_line Sample.one_source; Wire.content_line "Hello"];
     []; [""; Wire.content_line " world"]] in
  let st := @stream_start Sample.engine Sample.empty_page in
  fullResponse (snd (foldl (@process_chunk Sample.engine) (fst st, snd st)
                       (chunk_of <$> groups)))
  = fullResponse (snd st) ++ texts (events_of (concat groups))
  /\ foldl (@process_chunk Sample.engine) (fst st, snd st) (chunk_of <$> groups)
     = @process_chunk Sample.engine (fst st, snd st) (chunk_of (concat groups))
  /\ foldr String.append "" (chunk_of <$> groups) = chunk_of (concat groups)
  /\ (forall texts : list (list string),
        Forall (Forall (fun t => Wire.plain t = true)) texts ->
        fullResponse
          (snd (foldl (@process_chunk Sample.engine) (fst st, snd st)
                  (chunk_of <$> (fmap Wire.content_line <$> texts))))
        = fullResponse (snd st) ++ foldr String.append "" (concat texts)).
Proof.
  apply (@answer_is_concatenation_of_deltas Sample.engine
           (fst (@stream_start Sample.engine Sample.empty_page))
           (snd (@stream_start Sample.engine Sample.empty_page))
           [[Wire.metadata_line Sample.one_source; Wire.content_line "Hello"];
            []; [""; Wire.content_line " world"]]).
  repeat constructor.
Defined.

(** ** An error frame *)

(** C1 (the code departs from it): the scenario of the specification, a
    content frame with [Hel] and then an error frame with [boom].  The
    error is only logged by the [catch] of the line: no error message is
    shown, the partial text is pushed to the history at the end of the
    stream, and a content frame after the error frame is still applied. *)
Theorem error_frame_does_not_end_the_cycle :
  let assistant markup :=
    {| message_type := "assistant"; message_content := InnerHTML markup |} in
  let ended :=
    @sendStreamingMessage Sample.engine
      (Responded true
         ([Wire.content_line "Hel" ++ Js.nl ++ Wire.error_line "boom" ++ Js.nl],
          Done))
      Sample.empty_page in
  let went_on :=
    @sendStreamingMessage Sample.engine
      (Responded true
         ([Wire.content_line "Hel" ++ Js.nl ++ Wire.error_line "boom" ++ Js.nl;
           Wire.content_line "lo" ++ Js.nl], Done))
      Sample.empty_page in
  decode_line (Wire.error_line "boom") = Some (ErrorEvent "boom")
  /\ messages ended = [("assistant", Some (JStr "Hel"))]
  /\ shown ended = [Some (assistant "<p>Hel</p>")]
  /\ console ended = [FailedToParse (Error "boom")]
  /\ messages went_on = [("assistant", Some (JStr "Hello"))]
  /\ shown went_on = [Some (assistant "<p>Hello</p>")].
Proof. repeat split; vm_compute; reflexivity. Qed.

(** ** Failed requests *)

Lemma shown_addMessage `{Engine} body type p :
  last (shown (fst (addMessage body type p)))
  = Some (Some {| message_type := type; message_content := body |}).
Proof.
  unfold shown, addMessage. cbn [fst with_pane messagesContainer elements].
  rewrite map_app. cbn [map]. rewrite last_snoc. f_equal.
  apply list_lookup_middle. now rewrite remove_welcome_length.
Qed.

(** The message a [catch] block shows. *)
Lemma shown_show_error `{Engine} loading e p :
  last (shown (show_error loading e p))
  = Some (Some {| message_type := "assistant";
                  message_content := TextContent ("Error: " ++ error_message e) |}).
Proof. apply shown_addMessage. Qed.

(** C10, as stated, fails: a [detail] that is present and empty is not
    used; the generic text is shown. *)
Lemma blank_detail_falls_back :
  JSON_parse Sample.blank_detail = Ok (JObj [("detail", JStr "")])
  /\ last (shown (@sendRegularMessage Sample.engine
                    (Responded false Sample.blank_detail) Sample.empty_page))
     = Some (Some {| message_type := "assistant";
                     message_content := TextContent "Error: Failed to get response" |}).
Proof. split; vm_compute; reflexivity. Qed.

(** C10, amended: on a response that is not ok the streaming path shows
    the generic text whatever the body holds.  The non-streaming path
    reads the body as JSON first: when it is a JSON object with a
    [detail] that is a string or absent, it shows the detail if it is
    present and not empty and the same generic text if it is absent or
    empty; when the body is not JSON it shows the message of the error
    [JSON.parse] throws, and when the body is [null] the message of the
    error that reading [detail] throws. *)
Theorem failed_request_message `{Engine} (p : page)
    (stream : list string * stream_end) (body : string) :
  let generic :=
    Some (Some {| message_type := "assistant";
                  message_content := TextContent "Error: Failed to get response" |}) in
  let regular := sendRegularMessage (Responded false body) p in
  last (shown (sendStreamingMessage (Responded false stream) p)) = generic
  /\ (forall ms detail,
        JSON_parse body = Ok (JObj ms) ->
        optional_string "detail" ms = Some detail ->
        last (shown regular)
        = Some (Some {| message_type := "assistant";
                        message_content :=
                          TextContent
                            ("Error: " ++ if filled detail then text_of detail
                                          else "Failed to get response") |}))
  /\ (forall e,
        JSON_parse body = Throw e ->
        last (shown regular)
        = Some (Some {| message_type := "assistant";
                        message_content :=
                          TextContent ("Error: " ++ error_message e) |}))
  /\ (JSON_parse body = Ok JNull ->
      last (shown regular)
      = Some (Some {| message_type := "assistant";
                      message_content :=
                        TextContent
                          ("Error: "
                           ++ native_message (TypeError "read detail")) |})).
Proof.
  cbv zeta. split; [|split; [|split]].
  - unfold sendStreamingMessage, stream_catch. apply shown_show_error.
  - intros ms detail P D. unfold sendRegularMessage.
    destruct (createLoadingMessage p) as [p0 loading].
    unfold regular_try. rewrite P. cbn [get].
    rewrite shown_show_error. do 3 f_equal.
    unfold new_Error, or_else. rewrite (truthy_optional _ _ _ D).
    destruct (filled detail) eqn:F; [|reflexivity].
    rewrite (ToString_filled _ _ _ D F).
    destruct (optional_string_cases _ _ _ D) as [[-> _] | (s & -> & ->)];
      [discriminate F | reflexivity].
  - intros e P. unfold sendRegularMessage.
    destruct (createLoadingMessage p) as [p0 loading].
    unfold regular_try. rewrite P. apply shown_show_error.
  - intros P. unfold sendRegularMessage.
    destruct (createLoadingMessage p) as [p0 loading].
    unfold regular_try. rewrite P. cbn [get].
    exact (shown_show_error loading (Native (TypeError "read detail")) p0).
Qed.

Lemma failed_request_message_witness :
  let generic :=
    Some (Some {| message_type := "assistant";
                  message_content := TextContent "Error: Failed to get response" |}) in
  let body := Sample.some_detail in
  let regular :=
    @sendRegularMessage Sample.engine (Responded false body) Sample.empty_page in
  JSON_parse body = Ok (JObj [("detail", JStr "Not found")])
  /\ last (shown regular)
     = Some (Some {| message_type := "assistant";
                     message_content := TextContent "Error: Not found" |})
  /\ last (shown (@sendStreamingMessage Sample.engine
                    (Responded false ([Sample.some_detail], Done))
                    Sample.empty_page)) = generic.
Proof.
  pose proof (@failed_request_message Sample.engine Sample.empty_page
                ([Sample.some_detail], Done) Sample.some_detail) as (S & R & _).
  split; [reflexivity|]. split; [|exact S].
  exact (R [("detail", JStr "Not found")] (Some "Not found") eq_refl eq_refl).
Defined.

(** ** The two paths *)

Section Paths.
Context `{Engine}.

(** An entry of the source panel for a typed source: no throw. *)
Lemma source_entry_typed i j s :
  source_view j = Some s -> exists item, source_entry i j = Ok item.
Proof.
  intros V. unfold source_entry. rewrite (has_reference_typed _ _ V).
  destruct j as [| | | | |ms]; try discriminate V; unfold source_view in V.
  destruct (optional_string "source" ms) as [so|] eqn:Es; [|discriminate V].
  destruct (optional_string "url" ms) as [uo|] eqn:Eu; [|discriminate V].
  destruct (optional_string "title" ms) as [to|] eqn:Et; [|discriminate V].
  destruct (optional_string "author" ms) as [ao|] eqn:Ea; [|discriminate V].
  injection V as <-. cbn [get bind]. unfold or_else, linkable. cbn [url source].
  rewrite (truthy_optional _ _ _ Es), (truthy_optional _ _ _ Eu),
    (truthy_optional _ _ _ Et), (truthy_optional _ _ _ Ea).
  pose proof (ToString_filled _ _ _ Es) as Us.
  pose proof (ToString_filled _ _ _ Eu) as Uu.
  pose proof (ToString_filled _ _ _ Et) as Ut.
  pose proof (ToString_filled _ _ _ Ea) as Ua.
  assert (Ss : filled so = true -> exists l, member "source" ms = Some (JStr l)).
  { intros F. destruct (optional_string_cases _ _ _ Es) as [[-> _]|(l & _ & ->)];
      [discriminate F | eauto]. }
  assert (Su : filled uo = true -> exists l, member "url" ms = Some (JStr l)).
  { intros F. destruct (optional_string_cases _ _ _ Eu) as [[-> _]|(l & _ & ->)];
      [discriminate F | eauto]. }
  assert (P : filled so = false -> Js.startsWith (text_of so) "http" = false).
  { intros F. destruct (Js.startsWith (text_of so) "http") eqn:Q; [|reflexivity].
    destruct so as [l|]; [|discriminate Q]. cbn in *.
    apply startsWith_nonempty in Q; [congruence | reflexivity]. }
  destruct (filled so) eqn:Fs, (filled uo) eqn:Fu, (filled to) eqn:Ft,
    (filled ao) eqn:Fa;
    rewrite ?(truthy_optional _ _ _ Es), ?(truthy_optional _ _ _ Eu), ?Fs, ?Fu;
    try (destruct (Ss eq_refl) as [ls ->]); try (destruct (Su eq_refl) as [lu ->]);
    rewrite ?P by reflexivity; cbn [truthy bind orb];
    rewrite ?Ut, ?Ua by reflexivity; cbn [bind ToString json_to_string];
    repeat match goal with
           | |- context [if ?b then _ else _] => destruct b
           end;
    cbn [bind]; eauto.
Qed.

Lemma append_entries_ok entries p :
  Forall (fun e => exists item, e = Ok item) entries ->
  exists p', append_entries entries p = (p', Ok tt)
    /\ elements p' = elements p
    /\ messagesContainer p' = messagesContainer p
    /\ messages p' = messages p
    /\ sourcesSection_display p' = sourcesSection_display p.
Proof.
  intros F. revert p. induction F as [|e entries [item ->] _ IH]; intros p.
  - exists p. repeat split.
  - cbn [append_entries]. destruct (IH (with_sources (sourcesSection_display p)
                                          (sourcesList p ++ [item]) p))
      as (p' & -> & ? & ? & ? & ?). exists p'. repeat split; assumption.
Qed.

Lemma source_entries_typed items ss k :
  sources_of items = Some ss ->
  Forall (fun e => exists item, e = Ok item)
    (imap (fun i => source_entry (k + i)) items).
Proof.
  revert ss k. induction items as [|j items IH]; intros ss k; [constructor|].
  cbn [sources_of]. destruct (source_view j) as [s|] eqn:V; [|discriminate].
  destruct (sources_of items) as [ss'|] eqn:E; [|discriminate]. intros _.
  cbn [imap]. constructor.
  - apply (source_entry_typed _ _ _ V).
  - rewrite (imap_ext _ (fun i => source_entry (S k + i))).
    + now apply (IH ss').
    + intros i x _. cbn. f_equal. lia.
Qed.

(** The source panel on a typed list returns, and leaves the
    conversation and the history alone. *)
Lemma displaySources_typed v ss p :
  sources_view v = Some ss ->
  exists p', displaySourcesWithReferences v p = (p', Ok tt)
    /\ elements p' = elements p
    /\ messagesContainer p' = messagesContainer p
    /\ messages p' = messages p.
Proof.
  intros V. unfold displaySourcesWithReferences.
  destruct (no_sources v); [eexists; repeat split|].
  destruct v as [[| | | |items|]|]; try discriminate V.
  destruct (append_entries_ok _ (with_sources "block" [] p)
              (source_entries_typed items ss 0 V)) as (p' & E & ? & ? & ? & _).
  exists p'. split; [exact E|]. repeat split; assumption.
Qed.

(** A quiet line touches neither the cycle nor the elements. *)
Lemma quiet_line_effect line p l :
  quiet_line line = true ->
  exists p', process_line (p, l) line = (p', l) /\ elements p' = elements p.
Proof.
  unfold quiet_line, protocol_line. intros [[_ P]%andb_true_iff Q]%andb_true_iff.
  destruct (decode_line line) as [[ss|t|m]|] eqn:D; try discriminate Q.
  - rewrite (process_line_error _ _ _ _ D). eexists; split; reflexivity.
  - cbn in P. apply orb_true_iff in P as [M|U].
    + destruct (process_line_malformed p l _ M) as [e ->].
      eexists; split; reflexivity.
    + apply negb_true_iff in U. rewrite process_line_unmarked by exact U.
      eexists; split; reflexivity.
Qed.

Lemma quiet_lines_effect lines p l :
  Forall (fun x => quiet_line x = true) lines ->
  exists p', foldl process_line (p, l) lines = (p', l) /\ elements p' = elements p.
Proof.
  intros F. revert p. induction F as [|x lines Q _ IH]; intros p.
  - exists p. split; reflexivity.
  - cbn [foldl]. destruct (quiet_line_effect _ p l Q) as (p1 & -> & E1).
    destruct (IH p1) as (p2 & -> & E2). exists p2. split; congruence.
Qed.

End Paths.

Lemma shown_ext (p p' : page) :
  elements p' = elements p -> messagesContainer p' = messagesContainer p ->
  shown p' = shown p.
Proof. unfold shown. now intros -> ->. Qed.

(** C4, as stated, fails: a metadata frame after the last content frame
    changes the final source list and is not rendered, so that the two
    paths show different markup for the same final text and sources. *)
Lemma late_metadata_is_not_rendered :
  let assistant markup :=
    {| message_type := "assistant"; message_content := InnerHTML markup |} in
  let streamed :=
    @sendStreamingMessage Sample.engine
      (Responded true
         ([Wire.content_line "Hi" ++ Js.nl
           ++ Wire.metadata_line Sample.one_source ++ Js.nl], Done))
      Sample.empty_page in
  let regular :=
    @sendRegularMessage Sample.engine (Responded true Sample.answer_body)
      Sample.empty_page in
  messages streamed = [("assistant", Some (JStr "Hi"))]
  /\ messages regular = [("assistant", Some (JStr "Hi"))]
  /\ sourcesList streamed = sourcesList regular
  /\ length (sourcesList regular) = 1
  /\ shown streamed = [Some (assistant "<p>Hi</p>")]
  /\ shown regular = [Some (assistant ("<p>Hi</p> " ++ citation_span "1"))].
Proof. repeat split; vm_compute; reflexivity. Qed.

(** C4, amended: when the last line of the stream that carries sources
    or text is a content frame, the streaming path leaves in its response
    element the same markup as the non-streaming path shows for the same
    final text and sources: the formatted text followed by the citation
    block. *)
Theorem paths_render_alike_after_content `{Engine} (p q : page)
    (groups : list (list string)) (before after : list string)
    (cline t : string) (ss : list Source) (body : string)
    (data : list (string * json)) :
  Forall (Forall (fun x => no_newline x = true)) groups ->
  concat groups = (before ++ cline :: after)%list ->
  decode_line cline = Some (ContentDelta t) ->
  Forall (fun x => quiet_line x = true) after ->
  let final := foldl process_chunk (stream_start p) (chunk_of <$> groups) in
  sources_view (sources (snd final)) = Some ss ->
  JSON_parse body = Ok (JObj data) ->
  member "answer" data = Some (JStr (fullResponse (snd final))) ->
  sources_view (member "sources" data) = Some ss ->
  let markup := marked_parse (fullResponse (snd final)) ++ citation_block ss in
  let streamed :=
    sendStreamingMessage (Responded true (chunk_of <$> groups, Done)) p in
  let regular := sendRegularMessage (Responded true body) q in
  (exists div,
     responseDiv (snd final) = Some div
     /\ content_at div streamed = Some (InnerHTML markup))
  /\ last (shown regular)
     = Some (Some {| message_type := "assistant";
                     message_content := InnerHTML markup |}).
Proof.
  intros N G D Q final V P A S markup streamed regular. split.
  - subst streamed. unfold sendStreamingMessage. fold final.
    subst markup. revert V. subst final.
    rewrite (process_chunks_of _ _ N), G, foldl_app. cbn [foldl].
    pose proof (consistent_lines before _ (consistent_start p)) as C.
    destruct (foldl process_line (stream_start p) before) as [p1 l1].
    rewrite (process_line_content _ _ _ _ D).
    apply consistent_create in C.
    destruct (create_response_div_locals p1 l1) as (_ & _ & _ & Created).
    destruct (create_response_div (p1, l1)) as [p2 l2]. cbn [fst snd] in *.
    unfold consistent in C. cbn [fst snd] in C.
    destruct (responseDiv l2) as [div|] eqn:R; [|congruence]. destruct C as [L _].
    set (l3 := with_fullResponse (fullResponse l2 ++ t) l2).
    destruct (quiet_lines_effect after (fst (render_response (p2, l3)))
                (snd (render_response (p2, l3))) Q) as (p4 & E4 & K4).
    rewrite <- surjective_pairing in E4. rewrite E4.
    rewrite render_response_locals in *. cbn [snd]. intros V.
    pose proof (addInlineCitations_typed (marked_parse (fullResponse l3)) _ _ V) as M.
    rewrite (render_response_content p2 l3 div _ R L M) in K4. cbn [fst] in K4.
    exists div. split; [exact R|].
    unfold stream_done.
    destruct (displaySources_typed _ _ p4 V) as (p5 & -> & K5 & _ & _).
    unfold content_at, push_message, with_history. cbn [elements].
    rewrite K5, K4. apply (content_at_set_innerHTML div _ p2 L).
  - subst regular. unfold sendRegularMessage.
    destruct (createLoadingMessage q) as [q0 loading].
    unfold regular_try. rewrite P. cbn [get bind]. rewrite A. cbn [marked bind].
    fold markup in |- *.
    rewrite (addInlineCitations_typed _ _ _ S). cbn [bind].
    destruct (addMessage (InnerHTML (marked_parse (fullResponse final.2)
                                     ++ citation_block ss)) "assistant"
                (remove_message loading q0)) as [q2 id] eqn:Add.
    unfold displaySources.
    destruct (displaySources_typed _ _ q2 S) as (q3 & -> & K1 & K2 & _).
    rewrite (shown_ext q2 (push_message _ _ q3)) by assumption.
    replace q2 with (fst (addMessage (InnerHTML (marked_parse (fullResponse final.2)
                                                 ++ citation_block ss))
                            "assistant" (remove_message loading q0)))
      by now rewrite Add.
    apply shown_addMessage.
Qed.

Lemma paths_render_alike_after_content_witness :
  let groups :=
    [[Wire.metadata_line Sample.one_source; Wire.content_line "H"];
     [Wire.content_line "i"; Wire.error_line "boom"; ""]] in
  let final :=
    foldl (@process_chunk Sample.engine) (@stream_start Sample.engine Sample.empty_page)
      (chunk_of <$> groups) in
  let markup :=
    @marked_parse Sample.engine (fullResponse (snd final))
    ++ citation_block [Sample.doc] in
  let streamed :=
    @sendStreamingMessage Sample.engine
      (Responded true (chunk_of <$> groups, Done)) Sample.empty_page in
  let regular :=
    @sendRegularMessage Sample.engine (Responded true Sample.answer_body)
      Sample.empty_page in
  (exists div,
     responseDiv (snd final) = Some div
     /\ content_at div streamed = Some (InnerHTML markup))
  /\ last (shown regular)
     = Some (Some {| message_type := "assistant";
                     message_content := InnerHTML markup |}).
Proof.
  apply (@paths_render_alike_after_content Sample.engine Sample.empty_page
           Sample.empty_page
           [[Wire.metadata_line Sample.one_source; Wire.content_line "H"];
            [Wire.content_line "i"; Wire.error_line "boom"; ""]]
           [Wire.metadata_line Sample.one_source; Wire.content_line "H"]
           [Wire.error_line "boom"; ""]
           (Wire.content_line "i") "i" [Sample.doc] Sample.answer_body
           [("answer", JStr "Hi");
            ("sources", JArr [JObj [("source", JStr "doc1.pdf")]])]);
    try reflexivity; repeat constructor.
Defined.

(** ** A new chat during a stream *)

Section NewChat.
Context `{Engine}.

Lemma run_ticks_chunks chunks p l :
  run_ticks (p, InFlight l) (ReadChunk <$> chunks)
  = (fst (foldl process_chunk (p, l) chunks),
     InFlight (snd (foldl process_chunk (p, l) chunks))).
Proof.
  revert p l. induction chunks as [|c chunks IH]; intros p l; [reflexivity|].
  cbn [fmap list_fmap]. unfold run_ticks in *. cbn [foldl tick_step].
  destruct (process_chunk (p, l) c) as [p1 l1]. apply IH.
Qed.

(** Once the response element exists, a line changes nothing of the chat
    but the contents of elements. *)
Lemma line_keeps_chat_state st line :
  hasCreatedResponseDiv (snd st) = true ->
  chat_state (fst (process_line st line)) = chat_state (fst st)
  /\ hasCreatedResponseDiv (snd (process_line st line)) = true.
Proof.
  intros Created.
  destruct (process_line_effect st line) as [st|p l e|p l v|p l t|p l e];
    cbn [fst snd] in *.
  - split; [reflexivity|exact Created].
  - split; [reflexivity|exact Created].
  - rewrite create_response_div_created by exact Created.
    split; [reflexivity|exact Created].
  - rewrite create_response_div_created by exact Created. cbn [fst snd].
    rewrite render_response_locals. split; [|exact Created].
    unfold render_response. cbn [responseDiv with_fullResponse].
    destruct (responseDiv l); [|reflexivity].
    destruct (addInlineCitations _ _); reflexivity.
  - rewrite create_response_div_created by exact Created.
    split; [reflexivity|exact Created].
Qed.

Lemma lines_keep_chat_state lines st :
  hasCreatedResponseDiv (snd st) = true ->
  chat_state (fst (foldl process_line st lines)) = chat_state (fst st)
  /\ hasCreatedResponseDiv (snd (foldl process_line st lines)) = true.
Proof.
  revert st. induction lines as [|x lines IH]; intros st Created; [now split|].
  cbn [foldl]. destruct (line_keeps_chat_state st x Created) as [E C].
  destruct (IH _ C) as [E' C']. split; [congruence|exact C'].
Qed.

Lemma chunks_keep_chat_state chunks st :
  hasCreatedResponseDiv (snd st) = true ->
  chat_state (fst (foldl process_chunk st chunks)) = chat_state (fst st)
  /\ hasCreatedResponseDiv (snd (foldl process_chunk st chunks)) = true.
Proof.
  revert st. induction chunks as [|c chunks IH]; intros st Created; [now split|].
  cbn [foldl]. unfold process_chunk at 2 4.
  destruct (lines_keep_chat_state (Js.split Js.newline c) st Created) as [E C].
  destruct (IH _ C) as [E' C']. split; [congruence|exact C'].
Qed.

End NewChat.

(** C3, as stated, fails: after a new chat is started in the middle of a
    stream, the superseded cycle still sets the source panel and appends
    its partial answer to the history of the new chat; and when its
    response element had not been made yet, its content appears in the
    pane of the new chat. *)
Lemma superseded_cycle_still_writes :
  let assistant markup :=
    {| message_type := "assistant"; message_content := InnerHTML markup |} in
  let late :=
    fst (@stream_cycle Sample.engine Sample.empty_page
           [ReadChunk (Wire.content_line "Hel" ++ Js.nl); NewChat "session-b";
            ReadChunk (Wire.metadata_line Sample.one_source ++ Js.nl);
            ReadEnd Done]) in
  let early :=
    fst (@stream_cycle Sample.engine Sample.empty_page
           [NewChat "session-b"; ReadChunk (Wire.content_line "Hel" ++ Js.nl)]) in
  sessionId late = "session-b"
  /\ messages late = [("assistant", Some (JStr "Hel"))]
  /\ sourcesSection_display late = "block"
  /\ length (sourcesList late) = 1
  /\ shown early = [Some (assistant "<p>Hel</p>")].
Proof. repeat split; vm_compute; reflexivity. Qed.

(** C3, amended: starting a new chat in the middle of a stream shows the
    empty state of the new chat at once (a fresh session, an empty
    history, the welcome message alone in the pane, the source panel
    emptied and hidden).  The superseded cycle is not cancelled: when its
    response element exists already, the chunks read afterwards change
    nothing of what the new chat shows, and the end of the stream then
    sets the source panel and appends the answer to the history of the
    new chat. *)
Theorem new_chat_shows_empty_state `{Engine} (p : page) (l : stream_locals)
    (fresh : string) (chunks : list string) :
  hasCreatedResponseDiv l = true ->
  let started := tick_step (p, InFlight l) (NewChat fresh) in
  let later := run_ticks started (ReadChunk <$> chunks) in
  let ended := tick_step later (ReadEnd Done) in
  chat_state (fst started) = (fresh, [], [WelcomeMessage], "none", [])
  /\ shown (fst started) = [None]
  /\ chat_state (fst later) = chat_state (fst started)
  /\ shown (fst later) = [None]
  /\ (exists l', snd later = InFlight l'
        /\ forall ss, sources_view (sources l') = Some ss ->
             messages (fst ended) = [("assistant", Some (JStr (fullResponse l')))]
             /\ sourcesSection_display (fst ended)
                = if bool_decide (ss = []) then "none" else "block").
Proof.
  intros Created started later ended.
  assert (S : started = (startNewChat fresh p, InFlight l)) by reflexivity.
  assert (L : later = (fst (foldl process_chunk (startNewChat fresh p, l) chunks),
                       InFlight (snd (foldl process_chunk
                                        (startNewChat fresh p, l) chunks)))).
  { subst later. rewrite S. apply run_ticks_chunks. }
  destruct (chunks_keep_chat_state chunks (startNewChat fresh p, l) Created)
    as [K _].
  split; [reflexivity|]. split; [reflexivity|].
  split; [now rewrite L, S|]. split.
  - rewrite L. cbn [fst]. unfold shown.
    replace (messagesContainer (fst (foldl process_chunk
                                       (startNewChat fresh p, l) chunks)))
      with [WelcomeMessage]; [reflexivity|].
    unfold chat_state in K. cbn [fst] in K. now injection K.
  - rewrite L. eexists. split; [reflexivity|]. intros ss V.
    subst ended. rewrite L. cbn [tick_step fst snd].
    destruct (foldl process_chunk (startNewChat fresh p, l) chunks) as [p' l'].
    cbn [fst snd] in *. unfold stream_done, displaySourcesWithReferences.
    rewrite (no_sources_typed _ _ V).
    assert (M : messages p' = []) by (unfold chat_state in K; now injection K).
    destruct (bool_decide (ss = [])) eqn:B.
    + cbn. now rewrite M.
    + destruct (sources l') as [[| | | |items|]|]; try discriminate V.
      destruct (append_entries_ok _ (with_sources "block" [] p')
                  (source_entries_typed items ss 0 V))
        as (p5 & E5 & _ & _ & M5 & D5).
      change (imap (fun i => source_entry (0 + i)) items)
        with (imap source_entry items) in E5.
      rewrite E5. cbn. rewrite M5, D5. cbn. now rewrite M.
Qed.

Lemma new_chat_shows_empty_state_witness :
  let st :=
    @process_chunk Sample.engine (@stream_start Sample.engine Sample.empty_page)
      (Wire.metadata_line Sample.one_source ++ Js.nl) in
  let chunks := [Wire.content_line "Hel" ++ Js.nl; Wire.content_line "lo"] in
  let started := @tick_step Sample.engine (fst st, InFlight (snd st))
                   (NewChat "session-b") in
  let later := @run_ticks Sample.engine started (ReadChunk <$> chunks) in
  let ended := @tick_step Sample.engine later (ReadEnd Done) in
  chat_state (fst started) = ("session-b", [], [WelcomeMessage], "none", [])
  /\ shown (fst started) = [None]
  /\ chat_state (fst later) = chat_state (fst started)
  /\ shown (fst later) = [None]
  /\ (exists l', snd later = InFlight l'
        /\ forall ss, sources_view (sources l') = Some ss ->
             messages (fst ended) = [("assistant", Some (JStr (fullResponse l')))]
             /\ sourcesSection_display (fst ended)
                = if bool_decide (ss = []) then "none" else "block").
Proof.
  exact (@new_chat_shows_empty_state Sample.engine
           (fst (@process_chunk Sample.engine
                 (@stream_start Sample.engine Sample.empty_page)
                   (Wire.metadata_line Sample.one_source ++ Js.nl)))
           (snd (@process_chunk Sample.engine
                 (@stream_start Sample.engine Sample.empty_page)
                   (Wire.metadata_line Sample.one_source ++ Js.nl)))
           "session-b"
           [Wire.content_line "Hel" ++ Js.nl; Wire.content_line "lo"]
           eq_refl).
Defined.

(** * More of the client *)

(** ** What reading a stream leaves alone *)

Section Reading.
Context `{Engine}.

Lemma create_response_div_committed st :
  committed_state (fst (create_response_div st)) = committed_state (fst st)
  /\ loadingDiv (snd (create_response_div st)) = loadingDiv (snd st)
  /\ length (elements (fst st)) <= length (elements (fst (create_response_div st))).
Proof.
  destruct st as [p l]. unfold create_response_div.
  destruct (hasCreatedResponseDiv l); cbn; [auto|].
  rewrite length_app, remove_welcome_length. cbn. repeat split; lia.
Qed.

Lemma render_response_committed st :
  committed_state (fst (render_response st)) = committed_state (fst st)
  /\ length (elements (fst (render_response st))) = length (elements (fst st)).
Proof.
  destruct st as [p l]. unfold render_response.
  destruct (responseDiv l); [|split; reflexivity].
  destruct (addInlineCitations _ _); cbn; [|split; reflexivity].
  now rewrite length_alter.
Qed.

(** A line changes neither the session, nor the history, nor the source
    panel, nor the loading element's identity, and removes no element. *)
Lemma line_keeps_committed st line :
  committed_state (fst (process_line st line)) = committed_state (fst st)
  /\ loadingDiv (snd (process_line st line)) = loadingDiv (snd st)
  /\ length (elements (fst st)) <= length (elements (fst (process_line st line))).
Proof.
  destruct (process_line_effect st line) as [st|p l e|p l v|p l t|p l e];
    cbn [fst snd].
  - auto.
  - auto.
  - apply (create_response_div_committed (p, with_sources_value v l)).
  - destruct (create_response_div_committed (p, l)) as (C & D & L).
    destruct (create_response_div (p, l)) as [p1 l1]. cbn [fst snd] in *.
    destruct (render_response_committed
                (p1, with_fullResponse (fullResponse l1 ++ t) l1)) as [C' L'].
    rewrite render_response_locals. cbn [fst snd] in *.
    rewrite C', L'. auto.
  - destruct (create_response_div_committed (p, l)) as (C & D & L).
    destruct (create_response_div (p, l)) as [p1 l1]. cbn [fst snd] in *. auto.
Qed.

Lemma lines_keep_committed lines st :
  committed_state (fst (foldl process_line st lines)) = committed_state (fst st)
  /\ loadingDiv (snd (foldl process_line st lines)) = loadingDiv (snd st)
  /\ length (elements (fst st)) <= length (elements (fst (foldl process_line st lines))).
Proof.
  revert st. induction lines as [|x lines IH]; intros st; [auto|].
  cbn [foldl]. destruct (line_keeps_committed st x) as (C & D & L).
  destruct (IH (process_line st x)) as (C' & D' & L').
  repeat split; [congruence | congruence | lia].
Qed.

Lemma chunks_keep_committed chunks st :
  committed_state (fst (foldl process_chunk st chunks)) = committed_state (fst st)
  /\ loadingDiv (snd (foldl process_chunk st chunks)) = loadingDiv (snd st)
  /\ length (elements (fst st)) <= length (elements (fst (foldl process_chunk st chunks))).
Proof.
  revert st. induction chunks as [|c chunks IH]; intros st; [auto|].
  cbn [foldl]. unfold process_chunk at 2 4 6.
  destruct (lines_keep_committed (Js.split Js.newline c) st) as (C & D & L).
  destruct (IH (foldl process_line st (Js.split Js.newline c))) as (C' & D' & L').
  repeat split; [congruence | congruence | lia].
Qed.

End Reading.

(** X1: whatever the chunks of a stream hold, well formed or not, reading
    them changes neither the session id, nor the message history, nor the
    source panel: these are written only when the stream ends. *)
Theorem reading_leaves_history_and_panel `{Engine} (st : page * stream_locals)
    (chunks : list string) :
  let p := fst st in
  let p' := fst (foldl process_chunk st chunks) in
  sessionId p' = sessionId p
  /\ messages p' = messages p
  /\ sourcesSection_display p' = sourcesSection_display p
  /\ sourcesList p' = sourcesList p.
Proof.
  cbv zeta. destruct (chunks_keep_committed chunks st) as (C & _ & _).
  unfold committed_state in C. injection C as -> -> -> ->. auto.
Qed.

(** ** What adding a message can alter *)

Section Keeping.
Context `{Engine}.

Lemma nested_welcome_ext els els' id :
  els' !! id = els !! id -> nested_welcome els' id = nested_welcome els id.
Proof. unfold nested_welcome. now intros ->. Qed.

(** The removal alters at most one element: one of the pane that holds
    an element of class [welcome-message]. *)
Lemma remove_welcome_cases els c :
  fst (remove_welcome els c) = els
  \/ exists id m,
       MessageDiv id ∈ c /\ nested_welcome els id = Some m
       /\ fst (remove_welcome els c) = <[id := m]> els.
Proof.
  induction c as [|[|id] c IH]; cbn [remove_welcome]; [now left..|].
  destruct (nested_welcome els id) as [m|] eqn:N; cbn [fst].
  - right. exists id, m. split; [left|auto].
  - destruct IH as [E|(id' & m & I & N' & E)]; [now left|].
    right. exists id', m. split; [now right|auto].
Qed.

Lemma keeps_lookup id e p : keeps id e p -> elements p !! id = Some e.
Proof. now intros [L _]. Qed.

(** Same elements and no more of the pane: what was kept is kept. *)
Lemma keeps_same id e p q :
  elements q !! id = elements p !! id ->
  (MessageDiv id ∈ messagesContainer q -> MessageDiv id ∈ messagesContainer p) ->
  keeps id e p -> keeps id e q.
Proof.
  intros E S [L N]. split; [now rewrite E|].
  intros I. rewrite (nested_welcome_ext _ _ _ E). auto.
Qed.

Lemma keeps_addMessage id e p body type :
  keeps id e p -> keeps id e (fst (addMessage body type p)).
Proof.
  intros [L N].
  assert (B : id < length (elements p)) by (eapply lookup_lt_Some; exact L).
  assert (I : MessageDiv id ∈ messagesContainer (fst (addMessage body type p)) ->
              MessageDiv id ∈ messagesContainer p).
  { cbn. intros [I|I]%elem_of_app; [now apply remove_welcome_subset in I|].
    apply list_elem_of_singleton in I. injection I as ->. lia. }
  assert (E : elements (fst (addMessage body type p)) !! id = elements p !! id).
  { cbn. rewrite lookup_app_l by now rewrite remove_welcome_length.
    destruct (remove_welcome_cases (elements p) (messagesContainer p))
      as [->|(id' & m & I' & N' & ->)]; [reflexivity|].
    destruct (decide (id' = id)) as [->|D];
      [rewrite (N I') in N'; discriminate|].
    now apply list_lookup_insert_ne. }
  apply (keeps_same id e p); [exact E | exact I | now split].
Qed.

Lemma keeps_remove_message id e p k :
  keeps id e p -> keeps id e (remove_message k p).
Proof.
  apply keeps_same; [reflexivity|]. cbn.
  now intros [_ I]%list_elem_of_filter.
Qed.

(** An element taken out of the pane is out of reach. *)
Lemma keeps_removed id e p :
  elements p !! id = Some e -> keeps id e (remove_message id p).
Proof.
  intros L. split; [exact L|]. cbn.
  intros [I _]%list_elem_of_filter. cbn in I. now rewrite Nat.eqb_refl in I.
Qed.

Lemma keeps_set_innerHTML id e p div markup :
  div <> id -> keeps id e p -> keeps id e (set_innerHTML div markup p).
Proof.
  intros D. apply keeps_same; [|trivial]. cbn.
  now apply list_lookup_alter_ne.
Qed.

Lemma keeps_on_page id e p a : keeps id e p -> keeps id e (on_page a p).
Proof.
  apply keeps_same; [now destruct a|].
  destruct a; cbn; trivial; intros I; apply list_elem_of_singleton in I;
    discriminate.
Qed.

Lemma keeps_user_page id e p actions :
  keeps id e p -> keeps id e (user_page actions p).
Proof.
  unfold user_page. revert p. induction actions as [|a actions IH]; intros p K;
    [exact K|].
  cbn [foldl]. apply IH, keeps_on_page, K.
Qed.

(** Text makes no element: what holds text is kept wherever it is. *)
Lemma keeps_text id type text p :
  elements p !! id = Some {| message_type := type; message_content := TextContent text |} ->
  keeps id {| message_type := type; message_content := TextContent text |} p.
Proof. intros L. split; [exact L|]. intros _. unfold nested_welcome. now rewrite L. Qed.

End Keeping.

(** ** One response element for a cycle *)

Section ResponseElement.
Context `{Engine}.

(** The response element being made: what it leaves depends on the
    elements, the pane and the loading element alone. *)
Lemma create_response_div_fresh p l :
  hasCreatedResponseDiv l = false ->
  let st := create_response_div (p, l) in
  let left :=
    remove_welcome (elements p)
      (filter (fun c => is_message (loadingDiv l) c = false) (messagesContainer p)) in
  elements (fst st)
  = (fst left
     ++ [{| message_type := "assistant"; message_content := TextContent "" |}])%list
  /\ messagesContainer (fst st)
     = (snd left ++ [MessageDiv (length (elements p))])%list
  /\ responseDiv (snd st) = Some (length (elements p))
  /\ hasCreatedResponseDiv (snd st) = true.
Proof. intros C. unfold create_response_div. rewrite C. cbn. auto. Qed.

Lemma length_start p :
  length (elements (fst (stream_start p))) = S (length (elements p)).
Proof. apply addMessage_length. Qed.

Lemma shape_created p q l :
  hasCreatedResponseDiv l = false ->
  loadingDiv l = length (elements p) ->
  elements q = elements (fst (stream_start p)) ->
  messagesContainer q = messagesContainer (fst (stream_start p)) ->
  cycle_shape p (create_response_div (q, l)).
Proof.
  intros C D E M. right.
  destruct (create_response_div_fresh q l C) as (E1 & M1 & R1 & C1).
  destruct (create_response_div_fresh (fst (stream_start p)) (snd (stream_start p))
              eq_refl) as (E0 & M0 & _ & _).
  rewrite <- surjective_pairing in E0, M0.
  destruct (create_response_div_committed (q, l)) as (_ & D1 & _).
  cbn [fst snd] in D1.
  assert (N : length (elements q) = S (length (elements p)))
    by (rewrite E; apply length_start).
  change (loadingDiv (snd (stream_start p))) with (length (elements p)) in E0, M0.
  rewrite E, M, D in E1, M1. rewrite E in R1.
  repeat split.
  - exact C1.
  - congruence.
  - now rewrite R1, length_start.
  - now rewrite M1, M0.
  - rewrite E1, length_app, remove_welcome_length, length_start. cbn. lia.
  - now rewrite E1, E0.
Qed.

Lemma shape_line p st line :
  cycle_shape p st -> cycle_shape p (process_line st line).
Proof.
  intros Sh.
  destruct (process_line_effect st line) as [st|q l e|q l v|q l t|q l e];
    [exact Sh | | | | ].
  - destruct Sh as [(C & L & E & M)|(C & D & R & M & N & T)]; [left|right];
      cbn [fst snd] in *; auto 10.
  - destruct Sh as [(C & L & E & M)|(C & D & R & M & N & T)]; cbn [fst snd] in *.
    + apply shape_created; try assumption. now rewrite L.
    + rewrite create_response_div_created by exact C. right.
      cbn [fst snd]. auto 10.
  - assert (S1 : cycle_shape p (create_response_div (q, l))
                 /\ hasCreatedResponseDiv (snd (create_response_div (q, l))) = true).
    { split; [|apply create_response_div_locals].
      destruct Sh as [(C & L & E & M)|(C & D & R & M & N & T)]; cbn [fst snd] in *.
      - apply shape_created; try assumption. now rewrite L.
      - rewrite create_response_div_created by exact C. right.
        cbn [fst snd]. auto 10. }
    destruct (create_response_div (q, l)) as [q1 l1]. cbn [fst snd] in *.
    destruct S1 as [[(C & _)|(C & D & R & M & N & T)] C1];
      [cbn [fst snd] in *; congruence|].
    cbn [fst snd] in *. right. rewrite render_response_locals. cbn [fst snd].
    unfold render_response. cbn [responseDiv with_fullResponse]. rewrite R.
    destruct (addInlineCitations _ _); cbn [fst snd]; [|auto 10].
    unfold set_innerHTML. cbn [elements messagesContainer with_pane].
    rewrite length_alter. repeat split; try assumption.
    rewrite take_alter_ge by lia. exact T.
  - assert (S1 : cycle_shape p (create_response_div (q, l))).
    { destruct Sh as [(C & L & E & M)|(C & D & R & M & N & T)]; cbn [fst snd] in *.
      - apply shape_created; try assumption. now rewrite L.
      - rewrite create_response_div_created by exact C. right.
        cbn [fst snd]. auto 10. }
    destruct (create_response_div (q, l)) as [q1 l1]. cbn [fst snd] in *.
    destruct S1 as [(C & L & E & M)|(C & D & R & M & N & T)]; [left|right];
      cbn [fst snd] in *; auto 10.
Qed.

Lemma shape_start p : cycle_shape p (stream_start p).
Proof. left. auto. Qed.

Lemma shape_lines p lines st :
  cycle_shape p st -> cycle_shape p (foldl process_line st lines).
Proof.
  revert st. induction lines as [|x lines IH]; intros st Sh; [exact Sh|].
  apply IH, shape_line, Sh.
Qed.

Lemma shape_chunks p chunks st :
  cycle_shape p st -> cycle_shape p (foldl process_chunk st chunks).
Proof.
  revert st. induction chunks as [|c chunks IH]; intros st Sh; [exact Sh|].
  apply IH. unfold process_chunk. apply shape_lines, Sh.
Qed.

End ResponseElement.

(** X2: from the start of a streaming cycle, nothing else running, and
    whatever the chunks hold: either no response element exists yet and
    the variables, the elements and the pane are as the loading message
    left them, or exactly one was made, right after the loading element:
    the pane is the one its making left, two elements were added in all,
    and every element up to the loading element is as that making left
    it.  After it the cycle writes to the response element alone. *)
Theorem one_response_element_per_cycle `{Engine} (p : page) (chunks : list string) :
  let st0 := stream_start p in
  let st1 := create_response_div st0 in
  let st := foldl process_chunk st0 chunks in
  (hasCreatedResponseDiv (snd st) = false
   /\ snd st = snd st0
   /\ elements (fst st) = elements (fst st0)
   /\ messagesContainer (fst st) = messagesContainer (fst st0))
  \/ (hasCreatedResponseDiv (snd st) = true
      /\ loadingDiv (snd st) = length (elements p)
      /\ responseDiv (snd st) = Some (S (length (elements p)))
      /\ messagesContainer (fst st) = messagesContainer (fst st1)
      /\ length (elements (fst st)) = length (elements p) + 2
      /\ take (S (length (elements p))) (elements (fst st))
         = take (S (length (elements p))) (elements (fst st1))).
Proof. exact (shape_chunks p chunks _ (shape_start p)). Qed.
(** ** The source panel *)

Section Panel.
Context `{Engine}.

(** The entry the loop makes for a typed source. *)
Lemma source_entry_panel i j s :
  source_view j = Some s -> source_entry i j = Ok (panel_entry i s).
Proof.
  intros V. unfold source_entry. rewrite (has_reference_typed _ _ V).
  destruct j as [| | | | |ms]; try discriminate V; unfold source_view in V.
  destruct (optional_string "source" ms) as [so|] eqn:Es; [|discriminate V].
  destruct (optional_string "url" ms) as [uo|] eqn:Eu; [|discriminate V].
  destruct (optional_string "title" ms) as [to|] eqn:Et; [|discriminate V].
  destruct (optional_string "author" ms) as [ao|] eqn:Ea; [|discriminate V].
  injection V as <-. cbn [get bind].
  unfold panel_entry, display_name, or_else, linkable, link_target.
  cbn [url source title author].
  rewrite (truthy_optional _ _ _ Es), (truthy_optional _ _ _ Eu),
    (truthy_optional _ _ _ Et), (truthy_optional _ _ _ Ea).
  pose proof (ToString_filled _ _ _ Es) as Us.
  pose proof (ToString_filled _ _ _ Eu) as Uu.
  pose proof (ToString_filled _ _ _ Et) as Ut.
  pose proof (ToString_filled _ _ _ Ea) as Ua.
  assert (Ss : filled so = true -> member "source" ms = Some (JStr (text_of so))).
  { intros F. destruct (optional_string_cases _ _ _ Es) as [[-> _]|(l & -> & ->)];
      [discriminate F | reflexivity]. }
  assert (Su : filled uo = true -> member "url" ms = Some (JStr (text_of uo))).
  { intros F. destruct (optional_string_cases _ _ _ Eu) as [[-> _]|(l & -> & ->)];
      [discriminate F | reflexivity]. }
  assert (P : filled so = false -> Js.startsWith (text_of so) "http" = false).
  { intros F. destruct (Js.startsWith (text_of so) "http") eqn:Q; [|reflexivity].
    destruct so as [l|]; [|discriminate Q]. cbn in *.
    apply startsWith_nonempty in Q; [congruence | reflexivity]. }
  destruct (filled so) eqn:Fs, (filled uo) eqn:Fu, (filled to) eqn:Ft,
    (filled ao) eqn:Fa;
    rewrite ?(truthy_optional _ _ _ Es), ?(truthy_optional _ _ _ Eu), ?Fs, ?Fu;
    rewrite ?Ss, ?Su by reflexivity;
    rewrite ?P by reflexivity; cbn [truthy bind orb];
    rewrite ?Ut, ?Ua, ?Us, ?Uu by reflexivity; cbn [bind ToString json_to_string];
    repeat match goal with
           | |- context [if ?b then _ else _] => destruct b
           end;
    cbn [bind]; reflexivity.
Qed.

Lemma source_entries_panel items ss k :
  sources_of items = Some ss ->
  imap (fun i => source_entry (k + i)) items
  = Ok <$> imap (fun i => panel_entry (k + i)) ss.
Proof.
  revert ss k. induction items as [|j items IH]; intros ss k.
  - intros [= <-]. reflexivity.
  - cbn [sources_of]. destruct (source_view j) as [s|] eqn:V; [|discriminate].
    destruct (sources_of items) as [ss'|] eqn:E; [|discriminate].
    intros [= <-]. cbn [imap fmap list_fmap].
    rewrite (source_entry_panel _ _ _ V). f_equal.
    rewrite (imap_ext _ (fun i => source_entry (S k + i)))
      by (intros i x _; cbn; f_equal; lia).
    rewrite (IH ss' (S k) eq_refl). f_equal.
    apply imap_ext. intros i x _. cbn. f_equal. lia.
Qed.

Lemma append_entries_all items p :
  append_entries (Ok <$> items) p
  = (with_sources (sourcesSection_display p) (sourcesList p ++ items) p, Ok tt).
Proof.
  revert p. induction items as [|item items IH]; intros p.
  - cbn. rewrite app_nil_r. now destruct p.
  - cbn [fmap list_fmap append_entries]. rewrite IH. cbn.
    now rewrite <- app_assoc.
Qed.

(** The source panel on a typed list: hidden with its entries kept when
    the list is empty; else shown with the entries of the list alone. *)
Lemma displaySources_panel v ss p :
  sources_view v = Some ss ->
  displaySourcesWithReferences v p
  = (with_sources (if bool_decide (ss = []) then "none" else "block")
       (if bool_decide (ss = []) then sourcesList p else imap panel_entry ss) p,
     Ok tt).
Proof.
  intros V. unfold displaySourcesWithReferences.
  rewrite (no_sources_typed _ _ V).
  destruct (bool_decide (ss = [])); [reflexivity|].
  destruct v as [[| | | |items|]|]; try discriminate V. cbn in V.
  pose proof (source_entries_panel items ss 0 V) as E. cbn in E.
  rewrite (imap_ext _ (fun i => source_entry i) items) in E by reflexivity.
  change (imap source_entry items) with (imap (fun i => source_entry i) items).
  rewrite E, append_entries_all. reflexivity.
Qed.

End Panel.

(** X3: the source panel on a list of typed sources returns without a
    throw and leaves the session, the history and the conversation alone.
    On an empty list the panel is hidden and keeps the entries it had; on
    a list that is not empty it is shown and holds, in place of what it
    had, one entry for each source in order: the entry at position [i] is
    named by the number [i + 1] and the display name, links to the URL or
    the locator when the source has a reference, and names the author
    when there is one. *)
Theorem source_panel_of_typed_sources `{Engine} (v : value) (ss : list Source)
    (p : page) :
  sources_view v = Some ss ->
  let p' := fst (displaySourcesWithReferences v p) in
  snd (displaySourcesWithReferences v p) = Ok tt
  /\ sessionId p' = sessionId p /\ messages p' = messages p
  /\ shown p' = shown p /\ console p' = console p
  /\ (ss = [] ->
      sourcesSection_display p' = "none" /\ sourcesList p' = sourcesList p)
  /\ (ss <> [] ->
      sourcesSection_display p' = "block"
      /\ length (sourcesList p') = length ss
      /\ forall i s, ss !! i = Some s ->
           sourcesList p' !! i
           = Some {| item_name := pretty (i + 1) ++ ". " ++ display_name s;
                     item_link :=
                       if linkable s then Some (link_target s) else None;
                     item_author :=
                       if filled (author s)
                       then Some ("Author: " ++ text_of (author s))
                       else None |}).
Proof.
  intros V p'. subst p'. rewrite (displaySources_panel _ _ p V). cbn [fst snd].
  do 5 (split; [reflexivity|]). split.
  - intros ->. split; reflexivity.
  - intros N. cbn. rewrite !bool_decide_eq_false_2 by exact N.
    split; [reflexivity|]. split; [apply length_imap|].
    intros i s L. rewrite list_lookup_imap, L. reflexivity.
Qed.

Lemma source_panel_of_typed_sources_witness :
  let v := Some (JArr [Sample.json_of Sample.web; Sample.json_of Sample.doc]) in
  let ss := [Sample.web; Sample.doc] in
  let p' := fst (@displaySourcesWithReferences Sample.engine v Sample.empty_page) in
  snd (@displaySourcesWithReferences Sample.engine v Sample.empty_page) = Ok tt
  /\ sessionId p' = sessionId Sample.empty_page
  /\ messages p' = messages Sample.empty_page
  /\ shown p' = shown Sample.empty_page /\ console p' = console Sample.empty_page
  /\ (ss = [] ->
      sourcesSection_display p' = "none"
      /\ sourcesList p' = sourcesList Sample.empty_page)
  /\ (ss <> [] ->
      sourcesSection_display p' = "block"
      /\ length (sourcesList p') = length ss
      /\ forall i s, ss !! i = Some s ->
           sourcesList p' !! i
           = Some {| item_name := pretty (i + 1) ++ ". " ++ display_name s;
                     item_link :=
                       if linkable s then Some (link_target s) else None;
                     item_author :=
                       if filled (author s)
                       then Some ("Author: " ++ text_of (author s))
                       else None |}).
Proof.
  exact (@source_panel_of_typed_sources Sample.engine
           (Some (JArr [Sample.json_of Sample.web; Sample.json_of Sample.doc]))
           [Sample.web; Sample.doc] Sample.empty_page eq_refl).
Defined.

(** X4: the panel and the inline markers decide alike.  For a typed
    source, the loop of the panel and the callback of the markers both
    return; the entry has a link exactly when the marker is a link, and
    then both point to the same target. *)
Theorem panel_links_as_markers_do `{Engine} (i : nat) (j : json) (s : Source) :
  source_view j = Some s ->
  exists item m,
    source_entry i j = Ok item /\ citation i j = Ok m
    /\ (item_link item = None -> m = citation_span (pretty (i + 1)))
    /\ (forall target, item_link item = Some target ->
          m = citation_link target (link_title s) (pretty (i + 1))).
Proof.
  intros V. exists (panel_entry i s), (marker i s).
  split; [apply (source_entry_panel _ _ _ V)|].
  split; [apply (citation_typed _ _ _ V)|].
  unfold panel_entry, marker. cbn [item_link].
  destruct (linkable s); split; try discriminate; try reflexivity.
  now intros target [= <-].
Qed.

Lemma panel_links_as_markers_do_witness :
  exists item m,
    @source_entry Sample.engine 1 (Sample.json_of Sample.web) = Ok item
    /\ @citation Sample.engine 1 (Sample.json_of Sample.web) = Ok m
    /\ (item_link item = None -> m = citation_span (pretty (1 + 1)))
    /\ (forall target, item_link item = Some target ->
          m = citation_link target (link_title Sample.web) (pretty (1 + 1))).
Proof.
  exact (@panel_links_as_markers_do Sample.engine 1 (Sample.json_of Sample.web)
           Sample.web eq_refl).
Defined.

(** ** The end of a stream *)

Section StreamEnd.
Context `{Engine}.

Lemma events_of_cons line lines :
  events_of (line :: lines)
  = match decode_line line with
    | Some e => e :: events_of lines
    | None => events_of lines
    end.
Proof. unfold events_of. cbn. now destruct (decode_line line). Qed.

(** A protocol line and the variables of the cycle: the sources follow
    the metadata events, the response element exists from the first
    metadata or content event on. *)
Lemma protocol_line_locals st line ss :
  protocol_line line = true ->
  sources_view (sources (snd st)) = Some ss ->
  sources_view (sources (snd (process_line st line)))
  = Some (final_sources (events_of [line]) ss)
  /\ hasCreatedResponseDiv (snd (process_line st line))
     = hasCreatedResponseDiv (snd st) || response_started (events_of [line]).
Proof.
  destruct st as [p l]. unfold protocol_line. cbn [snd].
  intros [_ P]%andb_true_iff V. rewrite events_of_cons.
  destruct (decode_line line) as [[ss'|t|m]|] eqn:D;
    unfold final_sources, response_started; cbn [foldl existsb orb].
  - destruct (process_line_metadata p l _ _ D) as (v & V' & ->).
    destruct (create_response_div_locals p (with_sources_value v l))
      as (_ & -> & _ & ->).
    cbn. rewrite orb_true_r. auto.
  - rewrite (process_line_content _ _ _ _ D), render_response_locals.
    cbn [snd with_fullResponse sources hasCreatedResponseDiv].
    destruct (create_response_div_locals p l) as (_ & -> & _ & ->).
    rewrite orb_true_r. auto.
  - rewrite (process_line_error _ _ _ _ D). cbn. rewrite orb_false_r. auto.
  - rewrite orb_false_r. cbn in P. apply orb_true_iff in P as [M|U].
    + destruct (process_line_malformed p l _ M) as [e ->]. auto.
    + apply negb_true_iff in U. rewrite process_line_unmarked by exact U. auto.
Qed.

Lemma final_sources_cons line lines ss :
  final_sources (events_of (line :: lines)) ss
  = final_sources (events_of lines) (final_sources (events_of [line]) ss).
Proof.
  rewrite !events_of_cons. unfold final_sources.
  destruct (decode_line line); reflexivity.
Qed.

Lemma response_started_cons line lines :
  response_started (events_of (line :: lines))
  = response_started (events_of [line]) || response_started (events_of lines).
Proof.
  rewrite !events_of_cons. unfold response_started.
  destruct (decode_line line); cbn; [now rewrite orb_false_r | reflexivity].
Qed.

Lemma protocol_lines_locals lines st ss :
  Forall (fun x => protocol_line x = true) lines ->
  sources_view (sources (snd st)) = Some ss ->
  sources_view (sources (snd (foldl process_line st lines)))
  = Some (final_sources (events_of lines) ss)
  /\ hasCreatedResponseDiv (snd (foldl process_line st lines))
     = hasCreatedResponseDiv (snd st) || response_started (events_of lines).
Proof.
  intros F. revert st ss. induction F as [|x lines P _ IH]; intros st ss V.
  - cbn. rewrite orb_false_r. auto.
  - cbn [foldl]. destruct (protocol_line_locals st x ss P V) as [V1 C1].
    destruct (IH _ _ V1) as [V2 C2].
    rewrite final_sources_cons, response_started_cons, V2, C2, C1.
    now rewrite orb_assoc.
Qed.

(** An element taken out of the pane is not there after a message was
    added. *)
Lemma removed_is_gone id body type p :
  id <> length (elements p) ->
  MessageDiv id ∉ messagesContainer (fst (addMessage body type (remove_message id p))).
Proof.
  intros N. cbn. intros [I|I]%elem_of_app.
  - apply remove_welcome_subset, list_elem_of_filter in I as [I _].
    cbn in I. now rewrite Nat.eqb_refl in I.
  - apply list_elem_of_singleton in I. congruence.
Qed.

(** The variables of a cycle after a stream of protocol lines cut into
    chunks of whole lines. *)
Lemma completed_stream_locals p groups :
  Forall (Forall (fun line => protocol_line line = true)) groups ->
  let events := events_of (concat groups) in
  let st := foldl process_chunk (stream_start p) (chunk_of <$> groups) in
  st = foldl process_line (stream_start p) (concat groups)
  /\ fullResponse (snd st) = texts events
  /\ sources_view (sources (snd st)) = Some (final_sources events [])
  /\ hasCreatedResponseDiv (snd st) = response_started events.
Proof.
  intros F events st. subst st.
  assert (N : Forall (Forall (fun x => no_newline x = true)) groups).
  { eapply Forall_impl; [exact F|]. intros g G.
    eapply Forall_impl; [exact G|]. apply protocol_line_no_newline. }
  assert (P : Forall (fun x => protocol_line x = true) (concat groups))
    by now apply Forall_concat.
  rewrite (process_chunks_of _ _ N). split; [reflexivity|].
  pose proof (process_lines_text (concat groups) (stream_start p) P) as T.
  destruct (protocol_lines_locals (concat groups) (stream_start p) [] P eq_refl)
    as [V St].
  rewrite answer_of_events in T. auto.
Qed.

End StreamEnd.

(** X6: a streaming request that fails (the request is rejected, the
    status is not ok, or a read fails after any chunks, well formed or
    not) changes neither the session, nor the history, nor the source
    panel: a partial answer is not committed.  The loading element is out
    of the pane and the last message shown is the error's text. *)
Theorem failed_stream_shows_error `{Engine} (p : page)
    (f : fetched (list string * stream_end)) (e : js_error) :
  stream_failure f = Some e ->
  let p' := sendStreamingMessage f p in
  sessionId p' = sessionId p
  /\ messages p' = messages p
  /\ sourcesSection_display p' = sourcesSection_display p
  /\ sourcesList p' = sourcesList p
  /\ (MessageDiv (length (elements p)) ∉ messagesContainer p')
  /\ last (shown p')
     = Some (Some {| message_type := "assistant";
                     message_content :=
                       TextContent ("Error: " ++ error_message e) |}).
Proof.
  intros E p'. subst p'. unfold sendStreamingMessage.
  assert (K : forall st,
             committed_state (fst st) = committed_state p ->
             loadingDiv (snd st) = length (elements p) ->
             length (elements p) < length (elements (fst st)) ->
             let p' := stream_catch st e in
             sessionId p' = sessionId p
             /\ messages p' = messages p
             /\ sourcesSection_display p' = sourcesSection_display p
             /\ sourcesList p' = sourcesList p
             /\ (MessageDiv (length (elements p)) ∉ messagesContainer p')
             /\ last (shown p')
                = Some (Some {| message_type := "assistant";
                                message_content :=
                                  TextContent ("Error: " ++ error_message e) |})).
  { intros [q l] C D L. cbn [fst snd] in *. unfold stream_catch. cbn [fst snd].
    unfold committed_state in C. injection C as Cs Cm Cd Cl.
    do 4 (split; [assumption|]). split.
    - rewrite D. apply removed_is_gone. lia.
    - apply shown_show_error. }
  assert (L0 : length (elements p) < length (elements (fst (stream_start p))))
    by (rewrite length_start; lia).
  destruct f as [e0|[] [chunks fin]].
  - injection E as <-. now apply K.
  - destruct fin as [|e0]; [discriminate E|]. injection E as <-.
    destruct (chunks_keep_committed chunks (stream_start p)) as (C & D & L).
    apply K; [exact C | exact D | lia].
  - injection E as <-. now apply K.
Qed.

Lemma failed_stream_shows_error_witness :
  let p := Sample.empty_page in
  let e := Error "network error" in
  let p' :=
    @sendStreamingMessage Sample.engine
      (Responded true ([Wire.content_line "Hel" ++ Js.nl], ReadFailed e)) p in
  sessionId p' = sessionId p
  /\ messages p' = messages p
  /\ sourcesSection_display p' = sourcesSection_display p
  /\ sourcesList p' = sourcesList p
  /\ (MessageDiv (length (elements p)) ∉ messagesContainer p')
  /\ last (shown p')
     = Some (Some {| message_type := "assistant";
                     message_content :=
                       TextContent ("Error: " ++ @error_message Sample.engine e) |}).
Proof.
  exact (@failed_stream_shows_error Sample.engine Sample.empty_page
           (Responded true ([Wire.content_line "Hel" ++ Js.nl],
                            ReadFailed (Error "network error")))
           (Error "network error") eq_refl).
Defined.

(** ** The non-streaming path *)

Section Regular.
Context `{Engine}.

Lemma append_entries_keeps entries p :
  let p' := fst (append_entries entries p) in
  sessionId p' = sessionId p /\ messages p' = messages p
  /\ elements p' = elements p /\ messagesContainer p' = messagesContainer p.
Proof.
  revert p. induction entries as [|[item|e] entries IH]; intros p; cbn; auto.
  apply (IH (with_sources (sourcesSection_display p) (sourcesList p ++ [item]) p)).
Qed.

(** The source panel, whatever it is given and however it ends, leaves
    the session, the history and the conversation alone. *)
Lemma displaySources_keeps v p :
  let p' := fst (displaySourcesWithReferences v p) in
  sessionId p' = sessionId p /\ messages p' = messages p
  /\ elements p' = elements p /\ messagesContainer p' = messagesContainer p.
Proof.
  unfold displaySourcesWithReferences.
  destruct (no_sources v); [cbn; auto|].
  destruct v as [[| | | |items|]|]; cbn [fst]; auto.
  apply (append_entries_keeps _ (with_sources "block" [] p)).
Qed.

End Regular.


(** ** The user's actions and what a send has not yet written *)

Section Actions.
Context `{Engine}.

Lemma on_page_elements a p : elements (on_page a p) = elements p.
Proof. now destruct a. Qed.

Lemma user_page_elements actions p : elements (user_page actions p) = elements p.
Proof.
  unfold user_page. revert p. induction actions as [|a actions IH]; intros p;
    [reflexivity|].
  cbn [foldl]. now rewrite IH, on_page_elements.
Qed.

(** The session, the history and the source panel after the user's
    actions depend on what they were before alone. *)
Lemma on_page_committed a p q :
  committed_state p = committed_state q ->
  committed_state (on_page a p) = committed_state (on_page a q).
Proof.
  unfold committed_state. intros E. injection E as Es Em Ed El.
  destruct a; cbn; congruence.
Qed.

Lemma user_page_committed actions p q :
  committed_state p = committed_state q ->
  committed_state (user_page actions p) = committed_state (user_page actions q).
Proof.
  unfold user_page. revert p q.
  induction actions as [|a actions IH]; intros p q E; [exact E|].
  cbn [foldl]. now apply IH, on_page_committed.
Qed.

(** With the chat left alone the page is as it was. *)
Lemma user_page_leaves_chat actions p :
  forallb leaves_chat actions = true -> user_page actions p = p.
Proof.
  unfold user_page. revert p. induction actions as [|a actions IH]; intros p;
    [reflexivity|].
  cbn [forallb foldl]. intros [A F]%andb_true_iff.
  destruct a; try discriminate A; now apply IH.
Qed.

(** With the box left alone it is as it was. *)
Lemma user_box_leaves_box actions c :
  forallb leaves_box actions = true -> user_box actions c = c.
Proof.
  unfold user_box. revert c. induction actions as [|a actions IH]; intros c;
    [reflexivity|].
  cbn [forallb foldl]. intros [A F]%andb_true_iff.
  destruct a; try discriminate A; now apply IH.
Qed.

(** Nothing the user does at an [await] ends a send in progress. *)
Lemma user_box_processing actions c :
  isProcessing (user_box actions c) = isProcessing c.
Proof.
  unfold user_box. revert c. induction actions as [|a actions IH]; intros c;
    [reflexivity|].
  cbn [foldl]. rewrite IH. now destruct a.
Qed.

End Actions.

(** ** The non-streaming path among the user's actions *)

Section RegularAmong.
Context `{Engine}.

(** The [catch] of a send function on a page that holds the loading
    element. *)
Lemma show_error_outcome loading e p :
  loading < length (elements p) ->
  let p' := show_error loading e p in
  committed_state p' = committed_state p
  /\ (MessageDiv loading ∉ messagesContainer p')
  /\ length (elements p') = S (length (elements p))
  /\ (forall id x, keeps id x p -> keeps id x p')
  /\ (forall x, elements p !! loading = Some x -> elements p' !! loading = Some x)
  /\ last (shown p')
     = Some (Some {| message_type := "assistant";
                     message_content :=
                       TextContent ("Error: " ++ error_message e) |}).
Proof.
  intros L. cbv zeta. unfold show_error.
  split; [reflexivity|]. split; [apply removed_is_gone; lia|].
  split; [now rewrite addMessage_length|]. split; [|split].
  - intros id x K. now apply keeps_addMessage, keeps_remove_message.
  - intros x E. now apply (keeps_lookup _ x), keeps_addMessage, keeps_removed.
  - apply shown_addMessage.
Qed.

Lemma regular_finish_cases loading f q x :
  elements q !! loading = Some x ->
  let p' := regular_finish loading f q in
  sessionId p' = sessionId q
  /\ (MessageDiv loading ∉ messagesContainer p')
  /\ elements p' !! loading = Some x
  /\ (forall id y, keeps id y q -> keeps id y p')
  /\ ((messages p' = messages q
       /\ exists e,
            last (shown p')
            = Some (Some {| message_type := "assistant";
                            message_content :=
                              TextContent ("Error: " ++ error_message e) |}))
      \/ (exists answer markup,
            messages p'
            = (messages q ++ [("assistant", Some (JStr answer))])%list
            /\ last (shown p')
               = Some (Some {| message_type := "assistant";
                               message_content := InnerHTML markup |})))
  /\ (regular_failure f = true ->
      committed_state p' = committed_state q
      /\ length (elements p') = S (length (elements q))).
Proof.
  intros X. cbv zeta.
  assert (L : loading < length (elements q)) by (eapply lookup_lt_Some; exact X).
  assert (Failed : forall e (failed : Prop),
            let p' := show_error loading e q in
            sessionId p' = sessionId q
            /\ (MessageDiv loading ∉ messagesContainer p')
            /\ elements p' !! loading = Some x
            /\ (forall id y, keeps id y q -> keeps id y p')
            /\ ((messages p' = messages q
                 /\ exists e,
                      last (shown p')
                      = Some (Some {| message_type := "assistant";
                                      message_content :=
                                        TextContent ("Error: " ++ error_message e) |}))
                \/ (exists answer markup,
                      messages p'
                      = (messages q ++ [("assistant", Some (JStr answer))])%list
                      /\ last (shown p')
                         = Some (Some {| message_type := "assistant";
                                         message_content := InnerHTML markup |})))
            /\ (failed ->
                committed_state p' = committed_state q
                /\ length (elements p') = S (length (elements q)))).
  { intros e failed.
    destruct (show_error_outcome loading e q L) as (C & G & N & K & Lo & Sh).
    cbv zeta. split; [reflexivity|]. split; [exact G|]. split; [auto|].
    split; [exact K|]. split; [left; split; [reflexivity | now exists e]|].
    intros _. now split. }
  unfold regular_finish, regular_try.
  destruct f as [e|[] body]; [apply Failed | |].
  - cbn [regular_failure].
    destruct (JSON_parse body) as [data|e]; [|apply Failed].
    set (p1 := remove_message loading q).
    assert (After : forall e p2,
              sessionId p2 = sessionId q -> messages p2 = messages q ->
              loading < length (elements p2) ->
              elements p2 !! loading = Some x ->
              (forall id y, keeps id y q -> keeps id y p2) ->
              let p' := show_error loading e p2 in
              sessionId p' = sessionId q
              /\ (MessageDiv loading ∉ messagesContainer p')
              /\ elements p' !! loading = Some x
              /\ (forall id y, keeps id y q -> keeps id y p')
              /\ ((messages p' = messages q
                   /\ exists e,
                        last (shown p')
                        = Some (Some {| message_type := "assistant";
                                        message_content :=
                                          TextContent
                                            ("Error: " ++ error_message e) |}))
                  \/ (exists answer markup,
                        messages p'
                        = (messages q ++ [("assistant", Some (JStr answer))])%list
                        /\ last (shown p')
                           = Some (Some {| message_type := "assistant";
                                           message_content := InnerHTML markup |})))
              /\ (false = true ->
                  committed_state p' = committed_state q
                  /\ length (elements p') = S (length (elements q)))).
    { intros e p2 Ss Sm L2 X2 K2.
      destruct (show_error_outcome loading e p2 L2) as (C & G & N & K & Lo & Sh).
      cbv zeta. split; [exact Ss|]. split; [exact G|]. split; [auto|].
      split; [auto|]. split; [|discriminate].
      left. split; [exact Sm | now exists e]. }
    assert (G1 : forall e, _) by exact (fun e => After e p1 eq_refl eq_refl L X
                    (fun id y => keeps_remove_message id y q loading)).
    destruct (get (Some data) "answer") as [answer|e]; cbn [bind]; [|apply G1].
    destruct answer as [[| | |answer| |]|]; cbn [marked bind]; try apply G1.
    destruct (get (Some data) "sources") as [sources|e]; cbn [bind]; [|apply G1].
    destruct (addInlineCitations (marked_parse answer) sources) as [markup|e];
      cbn [bind]; [|apply G1].
    set (p2 := fst (addMessage (InnerHTML markup) "assistant" p1)).
    change (addMessage (InnerHTML markup) "assistant" p1)
      with (p2, length (elements q)). cbv iota beta.
    unfold displaySources.
    destruct (displaySources_keeps sources p2) as (Ds & Dm & De & Dc).
    assert (K2 : forall id y, keeps id y q -> keeps id y p2).
    { intros id y K. now apply keeps_addMessage, keeps_remove_message. }
    assert (X2 : elements p2 !! loading = Some x).
    { now apply (keeps_lookup _ x), keeps_addMessage, keeps_removed. }
    assert (G2 : MessageDiv loading ∉ messagesContainer p2)
      by (apply removed_is_gone; lia).
    destruct (displaySourcesWithReferences sources p2) as [p3 [[]|e]];
      cbn [fst] in *.
    + split; [cbn [push_message with_history sessionId]; now rewrite Ds|].
      split; [cbn [push_message with_history messagesContainer]; now rewrite Dc|].
      split; [cbn [push_message with_history elements]; now rewrite De|].
      split.
      { intros id y K. apply (keeps_same id y p2); cbn; [| |auto].
        - now rewrite De.
        - now rewrite Dc. }
      split; [|discriminate].
      right. exists answer, markup. split.
      { cbn [push_message with_history messages]. now rewrite Dm. }
      rewrite (shown_ext p2) by assumption. apply shown_addMessage.
    + apply After.
      * now rewrite Ds.
      * now rewrite Dm.
      * rewrite De. eapply lookup_lt_Some, X2.
      * now rewrite De.
      * intros id y K. apply (keeps_same id y p2); [| |auto].
        -- now rewrite De.
        -- now rewrite Dc.
  - destruct (JSON_parse body) as [error|e]; [|apply Failed].
    destruct (get (Some error) "detail"); apply Failed.
Qed.

Lemma sendRegularMessage_finish f p :
  sendRegularMessage f p
  = regular_finish (length (elements p)) f (fst (createLoadingMessage p)).
Proof. reflexivity. Qed.

Lemma sendRegularMessage_among_finish actions f p c :
  sendRegularMessage_among actions f (p, c)
  = (regular_finish (length (elements p)) f
       (user_page actions (fst (createLoadingMessage p))),
     user_box actions c).
Proof. reflexivity. Qed.

(** The path among the user's actions. *)
Lemma regular_among_cases actions f p c :
  let p' := fst (sendRegularMessage_among actions f (p, c)) in
  let q := user_page actions p in
  let loading := length (elements p) in
  sessionId p' = sessionId q
  /\ (MessageDiv loading ∉ messagesContainer p')
  /\ elements p' !! loading = Some loading_message
  /\ (forall id y, keeps id y p -> keeps id y p')
  /\ ((messages p' = messages q
       /\ exists e,
            last (shown p')
            = Some (Some {| message_type := "assistant";
                            message_content :=
                              TextContent ("Error: " ++ error_message e) |}))
      \/ (exists answer markup,
            messages p'
            = (messages q ++ [("assistant", Some (JStr answer))])%list
            /\ last (shown p')
               = Some (Some {| message_type := "assistant";
                               message_content := InnerHTML markup |})))
  /\ (regular_failure f = true ->
      committed_state p' = committed_state q
      /\ length (elements p') = loading + 2).
Proof.
  cbv zeta. rewrite sendRegularMessage_among_finish. cbn [fst].
  set (p0 := fst (createLoadingMessage p)).
  set (q0 := user_page actions p0).
  assert (C0 : committed_state q0 = committed_state (user_page actions p))
    by now apply user_page_committed.
  assert (E0 : elements q0 = elements p0) by apply user_page_elements.
  assert (X0 : elements q0 !! length (elements p) = Some loading_message).
  { rewrite E0. apply addMessage_new. }
  destruct (regular_finish_cases (length (elements p)) f q0 _ X0)
    as (Fs & Fg & Fl & Fk & Fm & Ff).
  unfold committed_state in C0. injection C0 as Cs Cm Cd Cl.
  split; [congruence|]. split; [exact Fg|]. split; [exact Fl|]. split; [|split].
  - intros id y K. now apply Fk, keeps_user_page, keeps_addMessage.
  - rewrite <- Cm. exact Fm.
  - intros R. destruct (Ff R) as [C N]. split.
    + rewrite C. unfold committed_state. congruence.
    + rewrite N, E0. unfold p0, createLoadingMessage.
      rewrite addMessage_length. lia.
Qed.

End RegularAmong.

(** X7: the non-streaming path, whatever the server replies and whatever
    the user does while the request and its body are awaited.  With [q]
    the page the user's actions alone would have left: the session is
    that of [q]; the loading element is out of the pane and holds its
    markup; either the history is that of [q] and the last message shown
    is an error's text, or it is that of [q] and one string of the
    assistant and the last message shown is markup.  When the request is
    rejected, is not ok, or its body is not JSON, it is the former, the
    source panel is that of [q], and two elements were made in all.  An
    element there was before is as it was if it held no element of class
    [welcome-message] or was not in the pane. *)
Theorem regular_reply_outcomes `{Engine} (f : fetched string)
    (actions : list user_action) (p : page) (c : composer) :
  let p' := fst (sendRegularMessage_among actions f (p, c)) in
  let q := user_page actions p in
  let loading := length (elements p) in
  sessionId p' = sessionId q
  /\ (MessageDiv loading ∉ messagesContainer p')
  /\ elements p' !! loading
     = Some {| message_type := "assistant";
               message_content := InnerHTML loadingHTML |}
  /\ ((messages p' = messages q
       /\ exists e,
            last (shown p')
            = Some (Some {| message_type := "assistant";
                            message_content :=
                              TextContent ("Error: " ++ error_message e) |}))
      \/ (exists answer markup,
            messages p'
            = (messages q ++ [("assistant", Some (JStr answer))])%list
            /\ last (shown p')
               = Some (Some {| message_type := "assistant";
                               message_content := InnerHTML markup |})))
  /\ (regular_failure f = true ->
      messages p' = messages q
      /\ sourcesSection_display p' = sourcesSection_display q
      /\ sourcesList p' = sourcesList q
      /\ length (elements p') = loading + 2)
  /\ (forall id e,
        elements p !! id = Some e ->
        (MessageDiv id ∈ messagesContainer p ->
         nested_welcome (elements p) id = None) ->
        elements p' !! id = Some e)
  /\ sendRegularMessage f p = fst (sendRegularMessage_among [] f (p, c)).
Proof.
  cbv zeta.
  destruct (regular_among_cases actions f p c) as (Cs & Cg & Cl & Ck & Cm & Cf).
  split; [exact Cs|]. split; [exact Cg|]. split; [exact Cl|].
  split; [exact Cm|]. split; [|split; [|reflexivity]].
  - intros R. destruct (Cf R) as [C N]. unfold committed_state in C.
    injection C as _ Em Ed El. auto.
  - intros id e E C. apply (keeps_lookup id e), Ck. now split.
Qed.
(** ** The two paths and what they commit *)

(** The non-streaming path on a typed reply. *)
Lemma regular_typed `{Engine} body data answer ss p :
  JSON_parse body = Ok (JObj data) ->
  member "answer" data = Some (JStr answer) ->
  sources_view (member "sources" data) = Some ss ->
  let p2 :=
    fst (addMessage (InnerHTML (marked_parse answer ++ citation_block ss))
           "assistant"
           (remove_message (length (elements p)) (fst (createLoadingMessage p)))) in
  sendRegularMessage (Responded true body) p
  = push_message "assistant" (Some (JStr answer))
      (with_sources (if bool_decide (ss = []) then "none" else "block")
         (if bool_decide (ss = []) then sourcesList p else imap panel_entry ss)
         p2).
Proof.
  intros P A V p2. unfold sendRegularMessage.
  change (createLoadingMessage p)
    with (fst (createLoadingMessage p), length (elements p)). cbv iota beta.
  unfold regular_try. rewrite P. cbn [get bind]. rewrite A. cbn [marked bind].
  rewrite (addInlineCitations_typed _ _ _ V). cbn [bind].
  change (addMessage (InnerHTML (marked_parse answer ++ citation_block ss))
            "assistant"
            (remove_message (length (elements p)) (fst (createLoadingMessage p))))
    with (p2, length (elements (fst (createLoadingMessage p)))).
  cbv iota beta. unfold displaySources.
  rewrite (displaySources_panel _ _ p2 V). reflexivity.
Qed.

(** X8: the two paths commit alike.  When the lines of a stream are
    protocol lines cut into chunks of whole lines, and the body of a
    non-streaming reply holds as its answer the texts of their content
    events put together and as its sources those of their last metadata
    event, both paths leave the same session, the same history (one more
    entry of the assistant, the answer) and the same source panel. *)
Theorem paths_commit_alike `{Engine} (p : page) (groups : list (list string))
    (body : string) (data : list (string * json)) :
  Forall (Forall (fun line => protocol_line line = true)) groups ->
  let events := events_of (concat groups) in
  JSON_parse body = Ok (JObj data) ->
  member "answer" data = Some (JStr (texts events)) ->
  sources_view (member "sources" data) = Some (final_sources events []) ->
  let streamed :=
    sendStreamingMessage (Responded true (chunk_of <$> groups, Done)) p in
  let regular := sendRegularMessage (Responded true body) p in
  sessionId streamed = sessionId regular
  /\ messages streamed = messages regular
  /\ messages regular
     = (messages p ++ [("assistant", Some (JStr (texts events)))])%list
  /\ sourcesSection_display streamed = sourcesSection_display regular
  /\ sourcesList streamed = sourcesList regular.
Proof.
  intros F events P A V streamed regular. subst streamed regular.
  rewrite (regular_typed _ _ _ _ p P A V).
  unfold sendStreamingMessage.
  destruct (completed_stream_locals p groups F) as (_ & T & V' & _).
  destruct (chunks_keep_committed (chunk_of <$> groups) (stream_start p))
    as (C & _ & _).
  fold events in T, V'.
  destruct (foldl process_chunk (stream_start p) (chunk_of <$> groups)) as [q l].
  cbn [fst snd] in *. unfold stream_done.
  rewrite (displaySources_panel _ _ q V'), T.
  unfold committed_state in C. injection C as Cs Cm Cd Cl.
  cbn [push_message with_history with_sources sessionId messages
       sourcesSection_display sourcesList].
  rewrite Cs, Cm, Cl. repeat split.
Qed.

Lemma paths_commit_alike_witness :
  let groups :=
    [[Wire.content_line "H"; Wire.metadata_line Sample.one_source];
     [Wire.content_line "i"; ""]] in
  let events := events_of (concat groups) in
  let p := Sample.empty_page in
  let streamed :=
    @sendStreamingMessage Sample.engine
      (Responded true (chunk_of <$> groups, Done)) p in
  let regular :=
    @sendRegularMessage Sample.engine (Responded true Sample.answer_body) p in
  sessionId streamed = sessionId regular
  /\ messages streamed = messages regular
  /\ messages regular
     = (messages p ++ [("assistant", Some (JStr (texts events)))])%list
  /\ sourcesSection_display streamed = sourcesSection_display regular
  /\ sourcesList streamed = sourcesList regular.
Proof.
  apply (@paths_commit_alike Sample.engine Sample.empty_page
           [[Wire.content_line "H"; Wire.metadata_line Sample.one_source];
            [Wire.content_line "i"; ""]]
           Sample.answer_body
           [("answer", JStr "Hi");
            ("sources", JArr [JObj [("source", JStr "doc1.pdf")]])]);
    try reflexivity; repeat constructor.
Defined.

(** ** A cycle among other handlers *)

Section Interleaving.
Context `{Engine}.

Lemma start_loading p :
  elements (fst (stream_start p)) !! length (elements p) = Some loading_message.
Proof. apply addMessage_new. Qed.

Lemma cycle_elements_start p :
  cycle_elements p (fst (stream_start p), InFlight (snd (stream_start p))).
Proof.
  split; [|split; [apply start_loading|]]; cbn [fst snd].
  - intros id e _ K. now apply keeps_addMessage.
  - split; [reflexivity|]. left. split; [reflexivity|]. split; [reflexivity|].
    apply length_start.
Qed.

(** Variables of the cycle other than the three the invariant reads, and
    a page with the same elements and no more of the pane. *)
Lemma cycle_elements_same p q q' l l' :
  loadingDiv l' = loadingDiv l ->
  hasCreatedResponseDiv l' = hasCreatedResponseDiv l ->
  responseDiv l' = responseDiv l ->
  elements q' = elements q ->
  (forall id, MessageDiv id ∈ messagesContainer q' ->
              MessageDiv id ∈ messagesContainer q) ->
  cycle_elements p (q, InFlight l) -> cycle_elements p (q', InFlight l').
Proof.
  intros D C R E S (K & L & W). cbn [fst snd] in *.
  split; [|split]; cbn [fst snd].
  - intros id e B Kp. apply (keeps_same id e q); [now rewrite E | apply S | auto].
  - now rewrite E.
  - now rewrite E, D, C, R.
Qed.

Lemma cycle_elements_create p q l :
  cycle_elements p (q, InFlight l) ->
  cycle_elements p (fst (create_response_div (q, l)),
                    InFlight (snd (create_response_div (q, l))))
  /\ hasCreatedResponseDiv (snd (create_response_div (q, l))) = true.
Proof.
  intros (K & L & D & [(C & R & N)|(C & R & N)]); cbn [fst snd] in *.
  - destruct (create_response_div_fresh q l C) as (E1 & _ & R1 & C1).
    destruct (create_response_div_committed (q, l)) as (_ & D1 & _).
    cbn [fst snd] in *. split; [|exact C1].
    assert (A : fst (create_response_div (q, l))
                = fst (addMessage (TextContent "") "assistant"
                         (remove_message (loadingDiv l) q))).
    { unfold create_response_div. now rewrite C. }
    split; [|split]; cbn [fst snd].
    + intros id e B Kp. rewrite A.
      apply keeps_addMessage, keeps_remove_message. auto.
    + rewrite A, D.
      apply (keeps_lookup _ loading_message), keeps_addMessage, keeps_removed, L.
    + split; [congruence|]. right. split; [exact C1|]. rewrite R1, N.
      split; [reflexivity|].
      rewrite E1, length_app, remove_welcome_length, N. cbn. lia.
  - rewrite create_response_div_created by exact C. cbn [fst snd].
    split; [|exact C]. split; [exact K|]. split; [exact L|].
    split; [exact D|]. now right.
Qed.

Lemma cycle_elements_line p q l line :
  cycle_elements p (q, InFlight l) ->
  cycle_elements p (fst (process_line (q, l) line),
                    InFlight (snd (process_line (q, l) line))).
Proof.
  intros W.
  remember (q, l) as st eqn:St.
  destruct (process_line_effect st line) as [st|q0 l0 e|q0 l0 v|q0 l0 t|q0 l0 e];
    [subst st; exact W | ..]; injection St as -> ->; cbn [fst snd].
  - now apply (cycle_elements_same p q _ l l).
  - apply cycle_elements_create. now apply (cycle_elements_same p q _ l).
  - destruct (cycle_elements_create p q l W) as [W1 C1].
    destruct (create_response_div (q, l)) as [q1 l1]. cbn [fst snd] in *.
    rewrite render_response_locals. cbn [snd].
    destruct W1 as (K & L & D & [(C & _)|(_ & R & N)]); cbn [fst snd] in *;
      [congruence|].
    unfold render_response. cbn [responseDiv with_fullResponse]. rewrite R.
    destruct (addInlineCitations _ _); cbn [fst].
    + split; [|split; [|split; [exact D|right]]];
        cbn [fst snd with_fullResponse hasCreatedResponseDiv responseDiv
             loadingDiv].
      * intros id e B Kp. apply keeps_set_innerHTML; [lia | auto].
      * unfold set_innerHTML. cbn [elements with_pane].
        rewrite list_lookup_alter_ne by lia. exact L.
      * unfold set_innerHTML. cbn [elements with_pane].
        rewrite length_alter. auto.
    + split; [exact K|]. split; [exact L|]. split; [exact D|]. right. auto.
  - destruct (cycle_elements_create p q l W) as [W1 _].
    destruct (create_response_div (q, l)) as [q1 l1].
    now apply (cycle_elements_same p q1 _ l1 l1).
Qed.

Lemma cycle_elements_lines p lines q l :
  cycle_elements p (q, InFlight l) ->
  cycle_elements p (fst (foldl process_line (q, l) lines),
                    InFlight (snd (foldl process_line (q, l) lines))).
Proof.
  revert q l. induction lines as [|x lines IH]; intros q l W; [exact W|].
  cbn [foldl]. pose proof (cycle_elements_line p q l x W) as W1.
  destruct (process_line (q, l) x) as [q1 l1]. now apply IH.
Qed.

Lemma cycle_elements_chunk p chunk q l :
  cycle_elements p (q, InFlight l) ->
  cycle_elements p (fst (process_chunk (q, l) chunk),
                    InFlight (snd (process_chunk (q, l) chunk))).
Proof. apply cycle_elements_lines. Qed.

(** The [catch] block appends one element. *)
Lemma cycle_elements_catch p q l e :
  cycle_elements p (q, InFlight l) ->
  cycle_elements p (stream_catch (q, l) e, Settled).
Proof.
  intros (K & L & D & Sh). cbn [fst snd] in *.
  unfold stream_catch, show_error. cbn [fst snd].
  split; [|split]; cbn [fst snd].
  - intros id e' B Kp. apply keeps_addMessage, keeps_remove_message. auto.
  - rewrite D.
    apply (keeps_lookup _ loading_message), keeps_addMessage, keeps_removed, L.
  - rewrite addMessage_length. cbn [remove_message with_pane elements].
    destruct Sh as [(_ & _ & N)|(_ & _ & N)]; lia.
Qed.

Lemma cycle_elements_done p q l :
  cycle_elements p (q, InFlight l) ->
  cycle_elements p (stream_done (q, l), Settled).
Proof.
  intros W. unfold stream_done.
  destruct (displaySources_keeps (sources l) q) as (_ & _ & De & Dc).
  destruct (displaySourcesWithReferences (sources l) q) as [q1 [[]|e]];
    cbn [fst] in De, Dc.
  - destruct W as (K & L & D & Sh). cbn [fst snd] in *.
    split; [|split]; cbn [fst snd push_message with_history elements].
    + intros id e B Kp. apply (keeps_same id e q); [| | auto]; cbn.
      * now rewrite De.
      * now rewrite Dc.
    + now rewrite De.
    + rewrite De. destruct Sh as [(_ & _ & N)|(_ & _ & N)]; lia.
  - apply cycle_elements_catch.
    apply (cycle_elements_same p q _ l l); try reflexivity; [exact De | | exact W].
    intros id. now rewrite Dc.
Qed.

Lemma cycle_elements_tick p st t :
  cycle_elements p st -> cycle_elements p (tick_step st t).
Proof.
  destruct st as [q [l|]]; intros W.
  - destruct t as [chunk|[|e]|fresh|]; cbn [tick_step].
    + pose proof (cycle_elements_chunk p chunk q l W) as W1.
      destruct (process_chunk (q, l) chunk). exact W1.
    + now apply cycle_elements_done.
    + now apply cycle_elements_catch.
    + apply (cycle_elements_same p q _ l l); try reflexivity; [|exact W].
      cbn. intros id I. apply list_elem_of_singleton in I. discriminate.
    + apply (cycle_elements_same p q _ l l); try reflexivity; [|exact W].
      cbn. intros id I. apply list_elem_of_singleton in I. discriminate.
  - destruct t as [chunk|[|e]|fresh|]; cbn [tick_step]; try exact W.
    + destruct W as (K & L & N). cbn [fst snd] in *.
      split; [|split; [exact L | exact N]]. intros id e B Kp. cbn [fst].
      apply (keeps_on_page id e q (NewChatClicked fresh)). auto.
    + destruct W as (K & L & N). cbn [fst snd] in *.
      split; [|split; [exact L | exact N]]. intros id e B Kp. cbn [fst].
      apply (keeps_on_page id e q ClearChatClicked). auto.
Qed.

Lemma cycle_elements_ticks p ts st :
  cycle_elements p st -> cycle_elements p (run_ticks st ts).
Proof.
  revert st. induction ts as [|t ts IH]; intros st W; [exact W|].
  apply IH, cycle_elements_tick, W.
Qed.

End Interleaving.

(** X13: a streaming cycle among other handlers.  Whatever the reads
    give and wherever the user starts a new chat or clears the chat in
    between, the loading element holds afterwards the markup it was made
    with, and the cycle makes at most three elements: the loading
    element, the response element and an error message.  An element that
    existed when the cycle started is afterwards as it was if it held no
    element of class [welcome-message] or was not in the pane; when that
    is so of all of them, the elements there were are all as they
    were. *)
Theorem cycle_alters_no_earlier_element `{Engine} (p : page) (ts : list tick) :
  let p' := fst (stream_cycle p ts) in
  let n := length (elements p) in
  elements p' !! n
  = Some {| message_type := "assistant"; message_content := InnerHTML loadingHTML |}
  /\ n < length (elements p') <= n + 3
  /\ (forall id e,
        elements p !! id = Some e ->
        (MessageDiv id ∈ messagesContainer p ->
         nested_welcome (elements p) id = None) ->
        elements p' !! id = Some e)
  /\ ((forall id,
         MessageDiv id ∈ messagesContainer p ->
         nested_welcome (elements p) id = None) ->
      take n (elements p') = elements p).
Proof.
  cbv zeta. unfold stream_cycle.
  pose proof (cycle_elements_ticks p ts _ (cycle_elements_start p)) as W.
  rewrite (surjective_pairing (stream_start p)). cbv iota beta.
  destruct (run_ticks (fst (stream_start p), InFlight (snd (stream_start p))) ts)
    as [q c].
  destruct W as (K & L & Sh). cbn [fst snd] in *.
  assert (N : length (elements p) < length (elements q)
              <= length (elements p) + 3).
  { destruct c as [l|]; [destruct Sh as (_ & [(_ & _ & N)|(_ & _ & N)])|]; lia. }
  assert (Kept : forall id e,
            elements p !! id = Some e ->
            (MessageDiv id ∈ messagesContainer p ->
             nested_welcome (elements p) id = None) ->
            elements q !! id = Some e).
  { intros id e E C. apply (keeps_lookup id e), K; [|now split].
    eapply lookup_lt_Some, E. }
  split; [exact L|]. split; [exact N|]. split; [exact Kept|].
  intros C. apply list_eq. intros id.
  destruct (decide (id < length (elements p))) as [B|B].
  - rewrite lookup_take_lt by exact B.
    destruct (lookup_lt_is_Some_2 _ _ B) as [e E]. rewrite E.
    apply Kept; [exact E | apply C].
  - rewrite lookup_take_ge, lookup_ge_None_2 by lia. reflexivity.
Qed.

(** X14: clearing the chat in the middle of a stream whose response
    element exists.  The history is emptied and the welcome message alone
    is in the pane; the session and the source panel are kept.  The
    chunks read afterwards change nothing of this.  The cycle is not
    cancelled: at the end of the stream the pane still shows the welcome
    message alone, while the answer, shown nowhere, is the one entry of
    the history and the source panel holds its sources. *)
Theorem clear_chat_during_stream `{Engine} (p : page) (l : stream_locals)
    (chunks : list string) :
  hasCreatedResponseDiv l = true ->
  let cleared := tick_step (p, InFlight l) ClearChat in
  let later := run_ticks cleared (ReadChunk <$> chunks) in
  let ended := tick_step later (ReadEnd Done) in
  chat_state (fst cleared)
  = (sessionId p, [], [WelcomeMessage], sourcesSection_display p, sourcesList p)
  /\ chat_state (fst later) = chat_state (fst cleared)
  /\ shown (fst later) = [None]
  /\ (exists l', snd later = InFlight l'
        /\ forall ss, sources_view (sources l') = Some ss ->
             sessionId (fst ended) = sessionId p
             /\ messages (fst ended)
                = [("assistant", Some (JStr (fullResponse l')))]
             /\ shown (fst ended) = [None]
             /\ sourcesSection_display (fst ended)
                = (if bool_decide (ss = []) then "none" else "block")
             /\ sourcesList (fst ended)
                = (if bool_decide (ss = []) then sourcesList p
                   else imap panel_entry ss)).
Proof.
  intros Created cleared later ended.
  assert (C : cleared = (clearChat p, InFlight l)) by reflexivity.
  assert (L : later = (fst (foldl process_chunk (clearChat p, l) chunks),
                       InFlight (snd (foldl process_chunk (clearChat p, l) chunks)))).
  { subst later. rewrite C. apply run_ticks_chunks. }
  destruct (chunks_keep_chat_state chunks (clearChat p, l) Created) as [K _].
  split; [reflexivity|]. split; [now rewrite L, C|].
  unfold chat_state in K. cbn [fst] in K. injection K as Ks Km Kc Kd Kl.
  split.
  - rewrite L. cbn [fst]. unfold shown. now rewrite Kc.
  - rewrite L. eexists. split; [reflexivity|]. intros ss V.
    subst ended. rewrite L. cbn [tick_step fst snd].
    destruct (foldl process_chunk (clearChat p, l) chunks) as [p' l'].
    cbn [fst snd] in *. unfold stream_done.
    rewrite (displaySources_panel _ _ p' V).
    unfold shown.
    cbn [push_message with_history with_sources sessionId messages elements
         messagesContainer sourcesSection_display sourcesList].
    rewrite Ks, Km, Kc, Kl. repeat split.
Qed.

Lemma clear_chat_during_stream_witness :
  let st :=
    @process_chunk Sample.engine (@stream_start Sample.engine Sample.empty_page)
      (Wire.metadata_line Sample.one_source ++ Js.nl) in
  let chunks := [Wire.content_line "Hel" ++ Js.nl; Wire.content_line "lo"] in
  let p := fst st in
  let cleared := @tick_step Sample.engine (p, InFlight (snd st)) ClearChat in
  let later := @run_ticks Sample.engine cleared (ReadChunk <$> chunks) in
  let ended := @tick_step Sample.engine later (ReadEnd Done) in
  chat_state (fst cleared)
  = (sessionId p, [], [WelcomeMessage], sourcesSection_display p, sourcesList p)
  /\ chat_state (fst later) = chat_state (fst cleared)
  /\ shown (fst later) = [None]
  /\ (exists l', snd later = InFlight l'
        /\ forall ss, sources_view (sources l') = Some ss ->
             sessionId (fst ended) = sessionId p
             /\ messages (fst ended)
                = [("assistant", Some (JStr (fullResponse l')))]
             /\ shown (fst ended) = [None]
             /\ sourcesSection_display (fst ended)
                = (if bool_decide (ss = []) then "none" else "block")
             /\ sourcesList (fst ended)
                = (if bool_decide (ss = []) then sourcesList p
                   else imap panel_entry ss)).
Proof.
  exact (@clear_chat_during_stream Sample.engine
           (fst (@process_chunk Sample.engine
                 (@stream_start Sample.engine Sample.empty_page)
                   (Wire.metadata_line Sample.one_source ++ Js.nl)))
           (snd (@process_chunk Sample.engine
                 (@stream_start Sample.engine Sample.empty_page)
                   (Wire.metadata_line Sample.one_source ++ Js.nl)))
           [Wire.content_line "Hel" ++ Js.nl; Wire.content_line "lo"]
           eq_refl).
Defined.


(** ** The streaming path among the user's actions *)

Section StreamAmong.
Context `{Engine}.

Lemma answer_of_app a b : answer_of (a ++ b) = answer_of a ++ answer_of b.
Proof.
  induction a as [|x a IH]; [reflexivity|].
  cbn [app answer_of]. now rewrite IH, append_assoc.
Qed.

Lemma events_of_app a b : events_of (a ++ b) = (events_of a ++ events_of b)%list.
Proof. apply omap_app. Qed.

Lemma final_sources_app e1 e2 ss :
  final_sources (e1 ++ e2) ss = final_sources e2 (final_sources e1 ss).
Proof. apply foldl_app. Qed.

Lemma response_started_app e1 e2 :
  response_started (e1 ++ e2) = response_started e1 || response_started e2.
Proof. apply existsb_app. Qed.

(** The session, the history, the source panel and the box are what the
    user's actions alone make of them. *)
Lemma among_state events q l c :
  let r := foldl stream_event_step (q, l, c) events in
  committed_state (fst (fst r)) = committed_state (user_page (actions_of events) q)
  /\ loadingDiv (snd (fst r)) = loadingDiv l
  /\ snd r = user_box (actions_of events) c.
Proof.
  revert q l c. induction events as [|ev events IH]; intros q l c; [now cbn|].
  cbn [foldl]. destruct ev as [chunk|a]; cbn [stream_event_step].
  - destruct (chunks_keep_committed [chunk] (q, l)) as (C & D & _).
    cbn [foldl fst snd] in C, D.
    destruct (process_chunk (q, l) chunk) as [q1 l1]. cbn [fst snd] in C, D.
    destruct (IH q1 l1 c) as (C' & D' & B').
    cbn zeta. cbn [actions_of omap list_omap].
    change (omap _ events) with (actions_of events).
    split; [|split; [congruence | exact B']].
    rewrite C'. now apply user_page_committed.
  - destruct (IH (on_page a q) l (on_box a c)) as (C' & D' & B').
    cbn zeta. cbn [actions_of omap list_omap].
    change (omap _ events) with (actions_of events). auto.
Qed.

(** The elements: the invariant of a cycle among other handlers. *)
Lemma among_elements p events q l c :
  cycle_elements p (q, InFlight l) ->
  let r := foldl stream_event_step (q, l, c) events in
  cycle_elements p (fst (fst r), InFlight (snd (fst r))).
Proof.
  revert q l c. induction events as [|ev events IH]; intros q l c W; [exact W|].
  cbn [foldl]. destruct ev as [chunk|a]; cbn [stream_event_step].
  - pose proof (cycle_elements_chunk p chunk q l W) as W1.
    destruct (process_chunk (q, l) chunk) as [q1 l1]. now apply IH.
  - apply IH. apply (cycle_elements_same p q _ l l); try reflexivity;
      [apply on_page_elements | | exact W].
    destruct a; cbn; trivial; intros id I; apply list_elem_of_singleton in I;
      discriminate.
Qed.

(** The loading element once the response element was made. *)
Lemma loading_out_same q q' l l' :
  loadingDiv l' = loadingDiv l ->
  hasCreatedResponseDiv l' = hasCreatedResponseDiv l ->
  length (elements q') = length (elements q) ->
  (forall id, MessageDiv id ∈ messagesContainer q' ->
              MessageDiv id ∈ messagesContainer q) ->
  loading_out (q, l) -> loading_out (q', l').
Proof.
  unfold loading_out. cbn [fst snd]. intros -> -> -> S [L O].
  split; [exact L|]. intros C I. now apply (O C), S.
Qed.

Lemma loading_out_create q l :
  loading_out (q, l) -> loading_out (create_response_div (q, l)).
Proof.
  intros [L O]. cbn [fst snd] in *.
  destruct (hasCreatedResponseDiv l) eqn:C.
  - rewrite create_response_div_created by exact C.
    split; [exact L | intros _; now apply O].
  - destruct (create_response_div_committed (q, l)) as (_ & D1 & _).
    cbn [fst snd] in D1.
    assert (A : fst (create_response_div (q, l))
                = fst (addMessage (TextContent "") "assistant"
                         (remove_message (loadingDiv l) q))).
    { unfold create_response_div. now rewrite C. }
    split; rewrite D1, A.
    + rewrite addMessage_length. cbn. lia.
    + intros _. apply removed_is_gone. lia.
Qed.

Lemma loading_out_line st line :
  loading_out st -> loading_out (process_line st line).
Proof.
  intros W.
  destruct (process_line_effect st line) as [st|q l e|q l v|q l t|q l e];
    [exact W | | | | ].
  - now apply (loading_out_same q _ l l).
  - apply loading_out_create. now apply (loading_out_same q _ l).
  - pose proof (loading_out_create q l W) as W1.
    destruct (create_response_div (q, l)) as [q1 l1]. cbn [fst snd].
    unfold render_response. cbn [responseDiv with_fullResponse].
    destruct (responseDiv l1); [|now apply (loading_out_same q1 _ l1)].
    destruct (addInlineCitations _ _);
      apply (loading_out_same q1 _ l1); try reflexivity; trivial.
    cbn. apply length_alter.
  - pose proof (loading_out_create q l W) as W1.
    destruct (create_response_div (q, l)) as [q1 l1].
    now apply (loading_out_same q1 _ l1 l1).
Qed.

Lemma loading_out_lines lines st :
  loading_out st -> loading_out (foldl process_line st lines).
Proof.
  revert st. induction lines as [|x lines IH]; intros st W; [exact W|].
  apply IH, loading_out_line, W.
Qed.

Lemma among_loading_out events q l c :
  loading_out (q, l) ->
  loading_out (fst (foldl stream_event_step (q, l, c) events)).
Proof.
  revert q l c. induction events as [|ev events IH]; intros q l c W; [exact W|].
  cbn [foldl]. destruct ev as [chunk|a]; cbn [stream_event_step].
  - pose proof (loading_out_lines (Js.split Js.newline chunk) (q, l) W) as W1.
    fold (process_chunk (q, l) chunk) in W1.
    destruct (process_chunk (q, l) chunk) as [q1 l1]. now apply IH.
  - apply IH. apply (loading_out_same q _ l l); try reflexivity;
      [now rewrite on_page_elements | | exact W].
    destruct a; cbn; trivial; intros id I; apply list_elem_of_singleton in I;
      discriminate.
Qed.

Lemma loading_out_start p : loading_out (stream_start p).
Proof.
  split; [|discriminate]. cbn [fst snd stream_start createLoadingMessage].
  rewrite (length_start p). cbn. lia.
Qed.

(** The variables of a cycle after whole lines of the protocol, whatever
    the user did between the reads. *)
Lemma paced_locals sched q l c ss :
  protocol_paced sched ->
  sources_view (sources l) = Some ss ->
  let r := foldl stream_event_step (q, l, c) (paced sched) in
  let events := events_of (lines_of sched) in
  fullResponse (snd (fst r)) = fullResponse l ++ texts events
  /\ sources_view (sources (snd (fst r))) = Some (final_sources events ss)
  /\ hasCreatedResponseDiv (snd (fst r))
     = hasCreatedResponseDiv l || response_started events.
Proof.
  unfold protocol_paced, lines_of. revert q l c ss.
  induction sched as [|[g|a] sched IH]; intros q l c ss F V.
  - cbn. now rewrite append_nil_r, orb_false_r.
  - cbn [groups_of omap list_omap] in F.
    change (omap _ sched) with (groups_of sched) in F.
    apply Forall_cons in F as [G F].
    cbn [paced fmap list_fmap foldl stream_event_step groups_of omap list_omap
         concat].
    change (omap _ sched) with (groups_of sched).
    fold (paced sched).
    assert (N : Forall (fun x => no_newline x = true) g).
    { eapply Forall_impl; [exact G|]. apply protocol_line_no_newline. }
    rewrite (process_chunk_of _ _ N).
    pose proof (process_lines_text g (q, l) G) as T1.
    destruct (protocol_lines_locals g (q, l) ss G V) as [V1 C1].
    destruct (foldl process_line (q, l) g) as [q1 l1]. cbn [fst snd] in *.
    destruct (IH q1 l1 c _ F V1) as (T2 & V2 & C2).
    cbv zeta in *.
    rewrite <- answer_of_events in T2 |- *.
    rewrite answer_of_app, events_of_app, final_sources_app, response_started_app.
    rewrite T2, V2, C2, T1, C1.
    split; [apply append_assoc|]. split; [reflexivity | now rewrite orb_assoc].
  - cbn [groups_of omap list_omap] in F.
    change (omap _ sched) with (groups_of sched) in F.
    cbn [paced fmap list_fmap foldl stream_event_step groups_of omap list_omap].
    change (omap _ sched) with (groups_of sched).
    fold (paced sched).
    now apply IH.
Qed.

Lemma reads_of_paced sched : reads_of (paced sched) = chunk_of <$> groups_of sched.
Proof.
  induction sched as [|[g|a] sched IH]; [reflexivity| |]; cbn; [f_equal|]; exact IH.
Qed.

(** With the chat left alone the page and the variables are those of the
    reads alone. *)
Lemma among_leaves_chat events st c :
  forallb leaves_chat (actions_of events) = true ->
  fst (foldl stream_event_step (st, c) events)
  = foldl process_chunk st (reads_of events).
Proof.
  revert st c. induction events as [|ev events IH]; intros [q l] c F;
    [reflexivity|].
  cbn [foldl]. destruct ev as [chunk|a]; cbn [stream_event_step].
  - now apply IH.
  - cbn [actions_of omap list_omap forallb] in F.
    apply andb_true_iff in F as [A F].
    cbn [reads_of omap list_omap]. change (omap _ events) with (reads_of events).
    destruct a; try discriminate A; now apply IH.
Qed.

(** The atomic function is the one among no actions. *)
Lemma among_reads chunks st c :
  foldl stream_event_step (st, c) (Read <$> chunks)
  = (foldl process_chunk st chunks, c).
Proof.
  revert st. induction chunks as [|x chunks IH]; intros [q l]; [reflexivity|].
  cbn [fmap list_fmap foldl stream_event_step].
  change (list_fmap _ _ _ chunks) with (Read <$> chunks). apply IH.
Qed.

(** Any end of the request. *)
Lemma stream_among_cases events fin p c :
  let r := sendStreamingMessage_among events fin (p, c) in
  let q := user_page (actions_of events) p in
  sessionId (fst r) = sessionId q
  /\ (exists tail, reply_entries tail
                   /\ messages (fst r) = (messages q ++ tail)%list)
  /\ cycle_elements p (fst r, Settled)
  /\ snd r = user_box (actions_of events) c.
Proof.
  cbv zeta. unfold sendStreamingMessage_among. cbn [fst snd].
  pose proof (among_state events (fst (stream_start p)) (snd (stream_start p)) c)
    as (C & D & B).
  pose proof (among_elements p events _ _ c (cycle_elements_start p)) as W.
  rewrite <- surjective_pairing in C, D, B, W. cbv zeta in W.
  rewrite (user_page_committed (actions_of events) (fst (stream_start p)) p
             eq_refl) in C.
  destruct (foldl stream_event_step (stream_start p, c) events) as [[q1 l1] c1].
  cbn [fst snd] in *.
  unfold committed_state in C. injection C as Cs Cm _ _.
  split; [|split; [|split; [|exact B]]].
  - destruct fin as [|e]; [|exact Cs]. unfold stream_done.
    destruct (displaySources_keeps (sources l1) q1) as (Ds & _).
    destruct (displaySourcesWithReferences (sources l1) q1) as [q2 [[]|e]];
      cbn [fst] in Ds;
      [change (sessionId q2 = sessionId (user_page (actions_of events) p))
      |change (sessionId q2 = sessionId (user_page (actions_of events) p))];
      now rewrite Ds.
  - destruct fin as [|e];
      [|exists []; split; [now left|]; rewrite app_nil_r; exact Cm].
    unfold stream_done.
    destruct (displaySources_keeps (sources l1) q1) as (_ & Dm & _).
    destruct (displaySourcesWithReferences (sources l1) q1) as [q2 [[]|e]];
      cbn [fst] in Dm.
    + exists [("assistant", Some (JStr (fullResponse l1)))].
      split; [right; now exists (fullResponse l1)|].
      cbn [push_message with_history messages]. now rewrite Dm, Cm.
    + exists []. split; [now left|]. rewrite app_nil_r.
      change (messages (stream_catch (q2, l1) e)) with (messages q2).
      now rewrite Dm, Cm.
  - destruct fin as [|e];
      [now apply cycle_elements_done | now apply cycle_elements_catch].
Qed.

End StreamAmong.

(** X5: a stream of protocol lines, read in chunks of whole lines, that
    ends normally, whatever the user does between the reads.  With [q]
    the page the user's actions alone would have left: the session is
    that of [q]; the history is that of [q] and one entry of the
    assistant, the texts of the content events put together; the source
    panel shows the sources of the last metadata event, or is hidden with
    the entries of [q] when there are none.  The loading element holds
    its markup, and is out of the pane when some metadata or content
    event arrived.  When the user neither started a new chat nor cleared
    the chat, the page is that of the function run alone: the response
    element is the last child of the pane when such an event arrived, and
    the loading element is still the last message shown, the empty answer
    pushed all the same, when none did. *)
Theorem completed_stream_commits `{Engine} (p : page) (c : composer)
    (sched : list (list string + user_action)) :
  protocol_paced sched ->
  let events := events_of (lines_of sched) in
  let actions := actions_of (paced sched) in
  let ss := final_sources events [] in
  let loading := length (elements p) in
  let q := user_page actions p in
  let p' := fst (sendStreamingMessage_among (paced sched) Done (p, c)) in
  sessionId p' = sessionId q
  /\ messages p'
     = (messages q ++ [("assistant", Some (JStr (texts events)))])%list
  /\ sourcesSection_display p' = (if bool_decide (ss = []) then "none" else "block")
  /\ sourcesList p'
     = (if bool_decide (ss = []) then sourcesList q else imap panel_entry ss)
  /\ elements p' !! loading
     = Some {| message_type := "assistant";
               message_content := InnerHTML loadingHTML |}
  /\ (response_started events = true ->
      MessageDiv loading ∉ messagesContainer p')
  /\ (forallb leaves_chat actions = true ->
      p' = sendStreamingMessage
             (Responded true (chunk_of <$> groups_of sched, Done)) p
      /\ (response_started events = true ->
          last (messagesContainer p') = Some (MessageDiv (S loading)))
      /\ (response_started events = false ->
          last (shown p')
          = Some (Some {| message_type := "assistant";
                          message_content := InnerHTML loadingHTML |}))).
Proof.
  intros F events actions ss loading q p'. subst p'.
  unfold sendStreamingMessage_among. cbn [fst snd].
  pose proof (among_state (paced sched) (fst (stream_start p))
                (snd (stream_start p)) c) as (C & D & _).
  pose proof (paced_locals sched (fst (stream_start p)) (snd (stream_start p)) c
                [] F eq_refl) as (T & V & St).
  pose proof (among_elements p (paced sched) (fst (stream_start p))
                (snd (stream_start p)) c (cycle_elements_start p))
    as (_ & W & _).
  pose proof (among_loading_out (paced sched) (fst (stream_start p))
                (snd (stream_start p)) c (loading_out_start p))
    as [_ O].
  pose proof (among_leaves_chat (paced sched) (stream_start p) c) as A.
  rewrite reads_of_paced in A.
  destruct (completed_stream_locals p (groups_of sched) F) as (L & _).
  pose proof (shape_lines p (lines_of sched) _ (shape_start p)) as Sh.
  cbv zeta in *. rewrite <- surjective_pairing in *.
  rewrite (user_page_committed (actions_of (paced sched)) (fst (stream_start p))
             p eq_refl) in C.
  fold events in T, V, St. fold ss in V. fold actions in A, C. fold q in C.
  destruct (foldl stream_event_step (stream_start p, c) (paced sched))
    as [[q1 l1] c1].
  cbn [fst snd] in *.
  unfold stream_done. rewrite (displaySources_panel _ _ q1 V), T.
  unfold committed_state in C. injection C as Cs Cm Cd Cl.
  cbn [push_message with_history with_sources sessionId messages
       sourcesSection_display sourcesList messagesContainer elements].
  split; [exact Cs|]. split; [now rewrite Cm|]. split; [reflexivity|].
  split; [now rewrite Cl|]. split; [exact W|]. split.
  - intros E. rewrite E in St.
    assert (D' : loadingDiv l1 = loading) by exact D.
    rewrite <- D'. now apply O.
  - intros Lc. specialize (A Lc). split; [|split].
    + unfold sendStreamingMessage. rewrite <- A. unfold stream_done.
      now rewrite (displaySources_panel _ _ q1 V), T.
    + intros E. rewrite E in St. change (hasCreatedResponseDiv l1 = true) in St.
      rewrite L in A. unfold lines_of in Sh. rewrite <- A in Sh.
      destruct Sh as [(Cr & _)|(_ & _ & _ & M & _ & _)];
        cbn [fst snd] in *; [congruence|].
      rewrite M.
      destruct (create_response_div_fresh (fst (stream_start p))
                  (snd (stream_start p)) eq_refl) as (_ & M0 & _ & _).
      rewrite <- surjective_pairing in M0.
      rewrite M0, last_snoc, length_start. reflexivity.
    + intros E. rewrite E in St. change (hasCreatedResponseDiv l1 = false) in St.
      rewrite L in A. unfold lines_of in Sh. rewrite <- A in Sh.
      destruct Sh as [(_ & _ & El & M)|(Cr & _)];
        cbn [fst snd] in *; [|congruence].
      rewrite (shown_ext (fst (stream_start p))); [|exact El|exact M].
      apply shown_addMessage.
Qed.

Lemma completed_stream_commits_witness :
  let sched :=
    [inl [Wire.metadata_line Sample.one_source; Wire.content_line "Hello"];
     inr (Typed "next"); inr ClearChatClicked;
     inl [Sample.not_json; Wire.content_line " world"; ""]] in
  let c := {| messageInput_value := ""; charCount_textContent := "0";
              sendBtn_disabled := true; isProcessing := true |} in
  let p := Sample.empty_page in
  let p' := fst (@sendStreamingMessage_among Sample.engine (paced sched) Done (p, c)) in
  protocol_paced sched
  /\ messages p' = [("assistant", Some (JStr "Hello world"))]
  /\ sourcesSection_display p' = "block"
  /\ elements p' !! 0
     = Some {| message_type := "assistant";
               message_content := InnerHTML loadingHTML |}
  /\ (MessageDiv 0 ∉ messagesContainer p').
Proof.
  assert (F : protocol_paced
                [inl [Wire.metadata_line Sample.one_source;
                      Wire.content_line "Hello"];
                 inr (Typed "next"); inr ClearChatClicked;
                 inl [Sample.not_json; Wire.content_line " world"; ""]])
    by (unfold protocol_paced; cbn [groups_of omap list_omap];
        repeat constructor).
  split; [exact F|].
  destruct (@completed_stream_commits Sample.engine Sample.empty_page
              {| messageInput_value := ""; charCount_textContent := "0";
                 sendBtn_disabled := true; isProcessing := true |}
              _ F) as (_ & M & Sd & _ & E & O & _).
  split; [exact M|]. split; [exact Sd|]. split; [exact E|].
  apply O. reflexivity.
Defined.

(** ** Sending a message *)

Section Sending.
Context `{Engine}.

Lemma nonempty_false s : Js.nonempty s = false <-> s = "".
Proof. destruct s; cbn; split; congruence. Qed.

(** The session and the history after the user's actions depend on what
    they were before alone. *)
Lemma user_page_session actions p q :
  sessionId p = sessionId q ->
  sessionId (user_page actions p) = sessionId (user_page actions q).
Proof.
  unfold user_page. revert p q.
  induction actions as [|a actions IH]; intros p q E; [exact E|].
  cbn [foldl]. apply IH. now destruct a.
Qed.

Lemma user_page_messages actions p q :
  messages p = messages q ->
  messages (user_page actions p) = messages (user_page actions q).
Proof.
  unfold user_page. revert p q.
  induction actions as [|a actions IH]; intros p q E; [exact E|].
  cbn [foldl]. apply IH. now destruct a.
Qed.

(** What either path leaves of the page [p1] on which it starts. *)
Lemma reply_among_cases (mode : bool)
    (regular : list user_action * fetched string)
    (stream : list stream_event * stream_end) (p1 : page) (c1 : composer) :
  let actions := if mode then actions_of (fst stream) else fst regular in
  let st2 :=
    if mode then sendStreamingMessage_among (fst stream) (snd stream) (p1, c1)
    else sendRegularMessage_among (fst regular) (snd regular) (p1, c1) in
  sessionId (fst st2) = sessionId (user_page actions p1)
  /\ (exists tail,
        reply_entries tail
        /\ messages (fst st2) = (messages (user_page actions p1) ++ tail)%list)
  /\ (forall id e, id < length (elements p1) ->
                   keeps id e p1 -> keeps id e (fst st2))
  /\ snd st2 = user_box actions c1.
Proof.
  destruct mode; cbv zeta.
  - destruct (stream_among_cases (fst stream) (snd stream) p1 c1)
      as (S1 & M1 & (K1 & _) & B1).
    auto.
  - destruct (regular_among_cases (fst regular) (snd regular) p1 c1)
      as (S1 & _ & _ & K1 & M1 & _).
    split; [exact S1|]. split; [|split; [auto | reflexivity]].
    destruct M1 as [(M1 & _)|(answer & markup & M1 & _)].
    + exists []. split; [now left|]. now rewrite app_nil_r.
    + exists [("assistant", Some (JStr answer))].
      split; [right; now exists answer | exact M1].
Qed.

End Sending.

(** X9: [sendMessage], whatever the mode, whatever the server replies
    and whatever the user does while the reply is awaited.  When the
    trimmed message is empty or a send is in progress, nothing changes.
    Otherwise, when it returns, no send is in progress and the button is
    enabled; the box is empty and the count 0 if the user left the box
    alone; the session is the one the user's actions alone would have
    left; the history is what they would have left of the history with
    the trimmed message of the user, then nothing or one string of the
    assistant, so that it grew by these when the user neither started a
    new chat nor cleared the chat; the element made first is the user's
    message, held as text and not as markup; an element there was before
    is as it was if it held no element of class [welcome-message] or was
    not in the pane. *)
Theorem send_message_outcomes `{Engine} (mode : bool)
    (regular : list user_action * fetched string)
    (stream : list stream_event * stream_end) (p : page) (c : composer) :
  let message := Text.trim (messageInput_value c) in
  let actions := if mode then actions_of (fst stream) else fst regular in
  let sent := push_message "user" (Some (JStr message)) p in
  let st' := sendMessage mode regular stream (p, c) in
  (message = "" \/ isProcessing c = true -> st' = (p, c))
  /\ (message <> "" -> isProcessing c = false ->
      isProcessing (snd st') = false
      /\ sendBtn_disabled (snd st') = false
      /\ (forallb leaves_box actions = true ->
          messageInput_value (snd st') = ""
          /\ charCount_textContent (snd st') = "0")
      /\ sessionId (fst st') = sessionId (user_page actions p)
      /\ (exists tail,
            (tail = []
             \/ exists answer : string,
                  tail = [("assistant", Some (JStr answer))])
            /\ messages (fst st')
               = (messages (user_page actions sent) ++ tail)%list
            /\ (forallb leaves_chat actions = true ->
                messages (fst st')
                = (messages p ++ ("user", Some (JStr message)) :: tail)%list))
      /\ elements (fst st') !! length (elements p)
         = Some {| message_type := "user";
                   message_content := TextContent message |}
      /\ (forall id e,
            elements p !! id = Some e ->
            (MessageDiv id ∈ messagesContainer p ->
             nested_welcome (elements p) id = None) ->
            elements (fst st') !! id = Some e)).
Proof.
  intros message actions sent st'. subst st'. unfold sendMessage, send_begin.
  fold message. split.
  - intros [E|E]; rewrite E; [reflexivity|]. now rewrite orb_true_r.
  - intros N Pr. rewrite Pr.
    destruct (Js.nonempty message) eqn:Ne;
      [|now apply nonempty_false in Ne].
    cbn [negb orb].
    set (p1 := push_message "user" (Some (JStr message))
                 (fst (addMessage (TextContent message) "user" p))).
    set (c1 := {| messageInput_value := ""; charCount_textContent := "0";
                  sendBtn_disabled := true; isProcessing := true |}).
    destruct (reply_among_cases mode regular stream p1 c1)
      as (S1 & (tail & R1 & M1) & K1 & B1).
    fold actions in S1, M1, B1. cbv zeta in *.
    set (st2 := if mode then _ else _) in *.
    cbn [fst snd]. rewrite B1.
    assert (L1 : length (elements p1) = S (length (elements p)))
      by apply addMessage_length.
    split; [reflexivity|]. split; [reflexivity|]. split; [|split; [|split]].
    + intros Lb. now rewrite (user_box_leaves_box _ _ Lb).
    + rewrite S1. now apply user_page_session.
    + exists tail. split; [exact R1|]. split.
      * rewrite M1. f_equal. now apply user_page_messages.
      * intros Lc. rewrite M1, (user_page_leaves_chat _ _ Lc).
        cbn [p1 push_message with_history messages].
        now rewrite <- app_assoc.
    + split.
      * apply (keeps_lookup (length (elements p))), K1; [lia|].
        apply keeps_text. apply addMessage_new.
      * intros id e E C. apply (keeps_lookup id e), K1.
        -- rewrite L1. apply lookup_lt_Some in E. lia.
        -- apply (keeps_addMessage id e p (TextContent message) "user").
           now split.
Qed.

Lemma send_message_outcomes_witness :
  let c := {| messageInput_value := "  Hi " ++ Js.nl;
              charCount_textContent := "6"; sendBtn_disabled := false;
              isProcessing := false |} in
  let p := Sample.empty_page in
  let stream :=
    ([Meanwhile (Typed "and"); Read (Wire.content_line "Hello" ++ Js.nl);
      Meanwhile (NewChatClicked "session-b")], Done) in
  let st' :=
    @sendMessage Sample.engine true ([], Rejected (Error "unused")) stream (p, c) in
  Text.trim (messageInput_value c) = "Hi"
  /\ isProcessing (snd st') = false
  /\ sendBtn_disabled (snd st') = false
  /\ messageInput_value (snd st') = "and"
  /\ sessionId (fst st') = "session-b"
  /\ messages (fst st') = [("assistant", Some (JStr "Hello"))]
  /\ elements (fst st') !! 0
     = Some {| message_type := "user"; message_content := TextContent "Hi" |}.
Proof.
  split; [reflexivity|].
  destruct (proj2 (@send_message_outcomes Sample.engine true
                     ([], Rejected (Error "unused"))
                     ([Meanwhile (Typed "and");
                       Read (Wire.content_line "Hello" ++ Js.nl);
                       Meanwhile (NewChatClicked "session-b")], Done)
                     Sample.empty_page
                     {| messageInput_value := "  Hi " ++ Js.nl;
                        charCount_textContent := "6"; sendBtn_disabled := false;
                        isProcessing := false |}))
    as (P & B & _ & S1 & _ & E & _); [discriminate | reflexivity |].
  split; [exact P|]. split; [exact B|]. split; [reflexivity|].
  split; [exact S1|]. split; [reflexivity | exact E].
Defined.

(** X10: the listener of the message box and the guard of [sendMessage]
    agree.  After an input the count is the length of the value in code
    units, and the button is disabled exactly when the trimmed value is
    empty.  When the listener left the button disabled, or while a send
    is in progress whatever was typed, [sendMessage] (by the Enter key,
    which does not go through the button) returns at its guard and
    changes nothing.  When the listener left the button enabled and no
    send is in progress, [sendMessage] passes the guard: before its
    first [await] the trimmed value is shown and pushed, the box is
    empty, the count 0, the button disabled and a send in progress. *)
Theorem input_listener_agrees_with_guard `{Engine} (p : page) (text : string)
    (c : composer) :
  let c' := on_input text c in
  let message := Text.trim text in
  charCount_textContent c' = pretty (Text.utf16_length text)
  /\ messageInput_value c' = text
  /\ (sendBtn_disabled c' = true <-> message = "")
  /\ (sendBtn_disabled c' = true \/ isProcessing c = true ->
      send_begin (p, c') = None
      /\ forall mode regular stream,
           sendMessage mode regular stream (p, c') = (p, c'))
  /\ (sendBtn_disabled c' = false -> isProcessing c = false ->
      exists p1 c1,
        send_begin (p, c') = Some (p1, c1)
        /\ messages p1 = (messages p ++ [("user", Some (JStr message))])%list
        /\ last (shown p1)
           = Some (Some {| message_type := "user";
                           message_content := TextContent message |})
        /\ c1 = {| messageInput_value := ""; charCount_textContent := "0";
                   sendBtn_disabled := true; isProcessing := true |}).
Proof.
  cbv zeta. unfold sendMessage, send_begin, on_input.
  cbn [messageInput_value sendBtn_disabled isProcessing charCount_textContent].
  split; [reflexivity|]. split; [reflexivity|]. split; [|split].
  - rewrite negb_true_iff. apply nonempty_false.
  - intros [D|D]; rewrite D; [now split|]. rewrite orb_true_r. now split.
  - intros D ->. rewrite D. cbn [orb]. eexists _, _. split; [reflexivity|].
    split; [reflexivity|]. split; [|reflexivity].
    rewrite (shown_ext (fst (addMessage (TextContent (Text.trim text)) "user" p)))
      by reflexivity.
    apply shown_addMessage.
Qed.

(** ** The welcome message *)

Section Welcome.
Context `{Engine}.

(** Children of the pane that hold no element of class
    [welcome-message] are passed over. *)
Lemma remove_welcome_passes els before rest :
  Forall (fun c => exists id, c = MessageDiv id /\ nested_welcome els id = None)
    before ->
  remove_welcome els (before ++ rest)
  = (fst (remove_welcome els rest), before ++ snd (remove_welcome els rest))%list.
Proof.
  induction 1 as [|c before (id & -> & N) _ IH]; [now destruct (remove_welcome _ _)|].
  cbn [app remove_welcome]. now rewrite N, IH.
Qed.

End Welcome.

(** X17: [addMessage] takes out the first element of class
    [welcome-message] that the pane holds, wherever it is.  The new
    element is the next one made and the last child of the pane, and the
    session, the history and the source panel are untouched.  When the
    first such element is the welcome message itself, it leaves the pane
    and no element changes.  When it is inside the markup of an earlier
    message, that message loses it, the pane keeps its children, and a
    welcome message further down stays.  When there is none, nothing
    changes but for the new element. *)
Theorem adding_removes_first_welcome `{Engine} (body : content) (type : string)
    (p : page) :
  let p' := fst (addMessage body type p) in
  let n := length (elements p) in
  let new := {| message_type := type; message_content := body |} in
  let passed (c : pane_child) :=
    exists id, c = MessageDiv id /\ nested_welcome (elements p) id = None in
  snd (addMessage body type p) = n
  /\ elements p' !! n = Some new
  /\ length (elements p') = S n
  /\ last (messagesContainer p') = Some (MessageDiv n)
  /\ committed_state p' = committed_state p
  /\ (forall before after,
        messagesContainer p = (before ++ WelcomeMessage :: after)%list ->
        Forall passed before ->
        elements p' = (elements p ++ [new])%list
        /\ messagesContainer p' = (before ++ after ++ [MessageDiv n])%list)
  /\ (forall before id after kind markup rest,
        messagesContainer p = (before ++ MessageDiv id :: after)%list ->
        Forall passed before ->
        elements p !! id
        = Some {| message_type := kind; message_content := InnerHTML markup |} ->
        welcome_removed markup = Some rest ->
        elements p'
        = (<[id := {| message_type := kind; message_content := InnerHTML rest |}]>
             (elements p) ++ [new])%list
        /\ messagesContainer p' = (messagesContainer p ++ [MessageDiv n])%list)
  /\ (Forall passed (messagesContainer p) ->
      elements p' = (elements p ++ [new])%list
      /\ messagesContainer p' = (messagesContainer p ++ [MessageDiv n])%list).
Proof.
  cbv zeta. unfold addMessage.
  cbn [fst snd with_pane elements messagesContainer].
  split; [reflexivity|]. split; [apply addMessage_new|].
  split; [apply addMessage_length|]. split; [apply last_snoc|].
  split; [reflexivity|]. split; [|split].
  - intros before after -> F. rewrite (remove_welcome_passes _ _ _ F).
    cbn [remove_welcome fst snd]. now rewrite <- app_assoc.
  - intros before id after kind markup rest -> F E W.
    assert (N : nested_welcome (elements p) id
                = Some {| message_type := kind;
                          message_content := InnerHTML rest |})
      by (unfold nested_welcome; now rewrite E, W).
    rewrite (remove_welcome_passes _ _ _ F). cbn [remove_welcome].
    rewrite N. cbn [fst snd]. auto.
  - intros F. pose proof (remove_welcome_passes _ _ [] F) as R.
    rewrite app_nil_r in R. rewrite R. cbn [remove_welcome fst snd].
    now rewrite app_nil_r.
Qed.

(** An answer whose markup holds an element of class [welcome-message]
    loses it when the next message is added, and the welcome message
    below it stays. *)
Lemma adding_removes_first_welcome_witness :
  let answer :=
    {| message_type := "assistant";
       message_content := InnerHTML ("<p>" ++ Sample.welcome_div ++ "</p>") |} in
  let p :=
    {| sessionId := "session-a"; messages := []; elements := [answer];
       messagesContainer := [MessageDiv 0; WelcomeMessage];
       sourcesSection_display := "none"; sourcesList := []; console := [] |} in
  let p' := fst (@addMessage Sample.engine (TextContent "Hi") "user" p) in
  elements p'
  = [{| message_type := "assistant"; message_content := InnerHTML "<p></p>" |};
     {| message_type := "user"; message_content := TextContent "Hi" |}]
  /\ messagesContainer p' = [MessageDiv 0; WelcomeMessage; MessageDiv 1].
Proof.
  cbv zeta.
  pose proof (@adding_removes_first_welcome Sample.engine (TextContent "Hi") "user"
                {| sessionId := "session-a"; messages := [];
                   elements :=
                     [{| message_type := "assistant";
                         message_content :=
                           InnerHTML ("<p>" ++ Sample.welcome_div ++ "</p>") |}];
                   messagesContainer := [MessageDiv 0; WelcomeMessage];
                   sourcesSection_display := "none"; sourcesList := [];
                   console := [] |})
    as (_ & _ & _ & _ & _ & _ & N & _).
  apply (N [] 0 [WelcomeMessage] "assistant"
           ("<p>" ++ Sample.welcome_div ++ "</p>") "<p></p>");
    [reflexivity | constructor | reflexivity | reflexivity].
Defined.
(** ** The connection status *)

Section Connection.
Context `{Engine}.

Lemma connection_failed_classes e s classes :
  connectionStatus (connection_failed e s) = Some classes ->
  "error" ∈ classes /\ "connected" ∉ classes.
Proof.
  unfold connection_failed. cbn [connectionStatus].
  destruct (connectionStatus s) as [old|]; [|discriminate].
  intros E. apply (inj Some) in E. subst classes. split.
  - apply elem_of_difference. rewrite elem_of_union, !elem_of_singleton.
    split; [now right | discriminate].
  - rewrite elem_of_difference, elem_of_singleton. now intros [_ N].
Qed.

Lemma connection_ok_classes s classes :
  connectionStatus (connection_ok s) = Some classes ->
  "connected" ∈ classes /\ "error" ∉ classes.
Proof.
  unfold connection_ok. cbn [connectionStatus].
  destruct (connectionStatus s) as [old|]; [|discriminate].
  intros E. apply (inj Some) in E. subst classes. split.
  - apply elem_of_difference. rewrite elem_of_union, !elem_of_singleton.
    split; [now right | discriminate].
  - rewrite elem_of_difference, elem_of_singleton. now intros [_ N].
Qed.

(** What the [catch] block leaves, also after the updates of an ok
    response. *)
Lemma connection_failed_outcome e s s1 :
  s1 = s \/ s1 = connection_ok s ->
  let s' := connection_failed e s1 in
  connection_errors s' = (connection_errors s ++ [e])%list
  /\ statusText s' = (fun _ => "Connection failed") <$> statusText s
  /\ statusDetails s' = (fun _ => error_message e) <$> statusDetails s
  /\ forall classes, connectionStatus s' = Some classes ->
       "error" ∈ classes /\ "connected" ∉ classes.
Proof.
  intros [-> | ->]; cbv zeta.
  - do 3 (split; [reflexivity|]). apply connection_failed_classes.
  - split; [reflexivity|]. split; [cbn; now destruct (statusText s)|].
    split; [reflexivity|]. apply connection_failed_classes.
Qed.

Lemma exclusive_classes s (a b : string) :
  (forall classes, connectionStatus s = Some classes ->
     a ∈ classes /\ b ∉ classes) ->
  (a = "connected" /\ b = "error") \/ (a = "error" /\ b = "connected") ->
  exclusive s.
Proof.
  intros C N. unfold exclusive.
  destruct (connectionStatus s) as [classes|]; [|exact I].
  destruct (C classes eq_refl). destruct N as [[-> ->]|[-> ->]]; tauto.
Qed.

End Connection.

(** X11: [checkConnection], whatever [fetch] gives.  One of three: the
    response is not ok and its body is JSON, and nothing changes, so that
    the display keeps what it showed before; or an error is logged, the
    text is [Connection failed], the details are the error's message and
    the class [error] is set without [connected]; or the response is ok
    with a JSON body, nothing is logged, the text is [Connected], the
    details name the client or are unchanged, and the class [connected]
    is set without [error].  In every case the two classes are not both
    set afterwards if they were not before. *)
Theorem connection_check_outcomes `{Engine} (f : fetched string) (s : status_bar) :
  let s' := checkConnection f s in
  (exclusive s -> exclusive s')
  /\ ((s' = s
       /\ exists body data, f = Responded false body /\ JSON_parse body = Ok data)
      \/ (exists e,
            connection_errors s' = (connection_errors s ++ [e])%list
            /\ statusText s' = (fun _ => "Connection failed") <$> statusText s
            /\ statusDetails s' = (fun _ => error_message e) <$> statusDetails s
            /\ forall classes, connectionStatus s' = Some classes ->
                 "error" ∈ classes /\ "connected" ∉ classes)
      \/ ((exists body data, f = Responded true body /\ JSON_parse body = Ok data)
          /\ connection_errors s' = connection_errors s
          /\ statusText s' = (fun _ => "Connected") <$> statusText s
          /\ (statusDetails s' = statusDetails s
              \/ statusDetails s' = Some "Using Bedrock Agent"
              \/ statusDetails s' = Some "Using Knowledge Base")
          /\ forall classes, connectionStatus s' = Some classes ->
               "connected" ∈ classes /\ "error" ∉ classes)).
Proof.
  cbv zeta.
  assert (Failed : forall e s1, s1 = s \/ s1 = connection_ok s ->
            let s' := connection_failed e s1 in
            (exclusive s -> exclusive s')
            /\ ((s' = s
                 /\ exists body data,
                      f = Responded false body /\ JSON_parse body = Ok data)
                \/ (exists e,
                      connection_errors s' = (connection_errors s ++ [e])%list
                      /\ statusText s'
                         = (fun _ => "Connection failed") <$> statusText s
                      /\ statusDetails s'
                         = (fun _ => error_message e) <$> statusDetails s
                      /\ forall classes, connectionStatus s' = Some classes ->
                           "error" ∈ classes /\ "connected" ∉ classes)
                \/ ((exists body data,
                       f = Responded true body /\ JSON_parse body = Ok data)
                    /\ connection_errors s' = connection_errors s
                    /\ statusText s' = (fun _ => "Connected") <$> statusText s
                    /\ (statusDetails s' = statusDetails s
                        \/ statusDetails s' = Some "Using Bedrock Agent"
                        \/ statusDetails s' = Some "Using Knowledge Base")
                    /\ forall classes, connectionStatus s' = Some classes ->
                         "connected" ∈ classes /\ "error" ∉ classes))).
  { intros e s1 S1. pose proof (connection_failed_outcome e s s1 S1) as O.
    cbv zeta in *. split.
    - intros _. eapply exclusive_classes; [apply O | now right].
    - right. left. exists e. exact O. }
  unfold checkConnection.
  destruct f as [e|ok body]; [apply Failed; now left|].
  destruct (JSON_parse body) as [data|e] eqn:P; [|apply Failed; now left].
  destruct ok; [|split; [trivial | left; eauto]].
  assert (Connected : forall s1,
            connection_errors s1 = connection_errors s ->
            statusText s1 = (fun _ => "Connected") <$> statusText s ->
            (statusDetails s1 = statusDetails s
             \/ statusDetails s1 = Some "Using Bedrock Agent"
             \/ statusDetails s1 = Some "Using Knowledge Base") ->
            connectionStatus s1 = connectionStatus (connection_ok s) ->
            (exclusive s -> exclusive s1)
            /\ ((s1 = s
                 /\ exists body0 data0,
                      Responded true body = Responded false body0
                      /\ JSON_parse body0 = Ok data0)
                \/ (exists e,
                      connection_errors s1 = (connection_errors s ++ [e])%list
                      /\ statusText s1
                         = (fun _ => "Connection failed") <$> statusText s
                      /\ statusDetails s1
                         = (fun _ => error_message e) <$> statusDetails s
                      /\ forall classes, connectionStatus s1 = Some classes ->
                           "error" ∈ classes /\ "connected" ∉ classes)
                \/ ((exists body0 data0,
                       Responded true body = Responded true body0
                       /\ JSON_parse body0 = Ok data0)
                    /\ connection_errors s1 = connection_errors s
                    /\ statusText s1 = (fun _ => "Connected") <$> statusText s
                    /\ (statusDetails s1 = statusDetails s
                        \/ statusDetails s1 = Some "Using Bedrock Agent"
                        \/ statusDetails s1 = Some "Using Knowledge Base")
                    /\ forall classes, connectionStatus s1 = Some classes ->
                         "connected" ∈ classes /\ "error" ∉ classes))).
  { intros s1 Ce Ct Cd Cc.
    assert (Cl : forall classes, connectionStatus s1 = Some classes ->
                   "connected" ∈ classes /\ "error" ∉ classes).
    { intros classes E. rewrite Cc in E. now apply connection_ok_classes in E. }
    split; [intros _; eapply exclusive_classes; [exact Cl | now left]|].
    right. right. eauto 10. }
  cbv zeta.
  destruct (statusDetails (connection_ok s)) as [d|] eqn:D;
    [|apply Connected; auto].
  destruct (get (Some data) "client_type") as [client_type|e];
    [|apply Failed; now right].
  destruct (truthy client_type); [|apply Connected; auto].
  apply Connected; try reflexivity.
  destruct (is_type client_type "agent"); cbn; auto.
Qed.

(** ** Preferences *)

Lemma stored_flag_read (key : string) (flag : bool) (storage : gmap string string)
    (text : string) :
  bool_decide (store_flag key flag storage !! key = Some text)
  = String.eqb (if flag then "true" else "false") text.
Proof.
  unfold store_flag. rewrite lookup_insert_eq.
  destruct (String.eqb_spec (if flag then "true" else "false") text) as [E|N].
  - apply bool_decide_eq_true_2. now rewrite E.
  - apply bool_decide_eq_false_2. congruence.
Qed.

(** X12: preferences survive a reload.  After the user has set both
    toggles, in either order, what [loadPreferences] restores from the
    storage, on a page in any state, is what the listeners had set: the
    toggles, the theme on the document element and on the body, and the
    streaming mode.  With neither key in the storage, the defaults are
    the light theme and streaming. *)
Theorem preferences_survive_reload (storage : gmap string string)
    (u u0 : settings) (dark stream : bool) :
  let st1 := on_streamMode_change stream (on_darkMode_change dark (storage, u)) in
  let st2 := on_darkMode_change dark (on_streamMode_change stream (storage, u)) in
  st2 = st1
  /\ loadPreferences (fst st1) u0 = snd st1
  /\ snd st1
     = {| darkModeToggle_checked := dark; streamModeToggle_checked := stream;
          theme_root := if dark then "dark" else "light";
          theme_body := if dark then "dark" else "light";
          isStreaming := stream |}
  /\ (storage !! "darkMode" = None -> storage !! "streamMode" = None ->
      loadPreferences storage u0
      = {| darkModeToggle_checked := false; streamModeToggle_checked := true;
           theme_root := "light"; theme_body := "light"; isStreaming := true |}).
Proof.
  cbv zeta. split; [|split; [|split]].
  - cbn [on_streamMode_change on_darkMode_change updateTheme
         darkModeToggle_checked streamModeToggle_checked theme_root theme_body
         isStreaming].
    f_equal. unfold store_flag. now apply insert_insert_ne.
  - cbn [on_streamMode_change on_darkMode_change fst snd].
    unfold loadPreferences.
    rewrite stored_flag_read.
    assert (D : bool_decide
                  (store_flag "streamMode" stream
                     (store_flag "darkMode" dark storage) !! "darkMode"
                   = Some "true") = dark).
    { assert (L : store_flag "streamMode" stream
                    (store_flag "darkMode" dark storage) !! "darkMode"
                  = Some (if dark then "true" else "false")).
      { unfold store_flag. rewrite lookup_insert_ne by discriminate.
        apply lookup_insert_eq. }
      destruct dark; [apply bool_decide_eq_true_2 | apply bool_decide_eq_false_2];
        rewrite L; [reflexivity | discriminate]. }
    rewrite D. destruct dark, stream; reflexivity.
  - reflexivity.
  - intros D S. unfold loadPreferences. rewrite D, S.
    rewrite !bool_decide_eq_false_2 by discriminate. reflexivity.
Qed.

(** ** Frames that are JSON but not of the protocol's types *)

(** X15: a content frame whose [text] is not a string.  The response
    element is made; the answer grows by the text's conversion to a
    string: by [undefined] when the frame has no text and by [null] when
    it is null.  When the conversion throws, the answer is unchanged and
    the error is logged. *)
Theorem content_text_is_converted `{Engine} (p : page) (l : stream_locals)
    (line : string) (ms : list (string * json)) :
  Js.startsWith line "data: " = true ->
  JSON_parse (Js.slice 6 line) = Ok (JObj ms) ->
  member "type" ms = Some (JStr "content") ->
  let st' := process_line (p, l) line in
  hasCreatedResponseDiv (snd st') = true
  /\ (forall t, ToString (member "text" ms) = Ok t ->
        fullResponse (snd st') = fullResponse l ++ t)
  /\ (member "text" ms = None ->
        fullResponse (snd st') = fullResponse l ++ "undefined")
  /\ (member "text" ms = Some JNull ->
        fullResponse (snd st') = fullResponse l ++ "null")
  /\ (forall e, ToString (member "text" ms) = Throw e ->
        fullResponse (snd st') = fullResponse l
        /\ console (fst st')
           = (console (fst (create_response_div (p, l))) ++ [FailedToParse e])%list).
Proof.
  intros M P T st'. subst st'. unfold process_line. rewrite M, P.
  cbn [get]. rewrite T. cbn [is_type String.eqb Ascii.eqb Bool.eqb].
  change (is_type (Some (JStr "content")) "metadata") with false.
  change (is_type (Some (JStr "content")) "content") with true. cbv iota.
  destruct (create_response_div_locals p l) as (F & _ & _ & C).
  destruct (create_response_div (p, l)) as [p1 l1]. cbn [fst snd bind] in *.
  assert (K : forall t, ToString (member "text" ms) = Ok t ->
                fullResponse
                  (snd (match ToString (member "text" ms) with
                        | Ok text =>
                            render_response
                              (p1, with_fullResponse (fullResponse l1 ++ text) l1)
                        | Throw e => (console_error e p1, l1)
                        end)) = fullResponse l ++ t).
  { intros t ->. rewrite render_response_locals. cbn. now rewrite F. }
  split; [|split; [exact K|split; [|split]]].
  - destruct (ToString (member "text" ms)); [|exact C].
    rewrite render_response_locals. exact C.
  - intros N. apply K. now rewrite N.
  - intros N. apply K. now rewrite N.
  - intros e ->. cbn. auto.
Qed.

Lemma content_text_is_converted_witness :
  let line := "data: {" ++ Wire.pair "type" (Wire.quoted "content") ++ "}" in
  let ms := [("type", JStr "content")] in
  let p := Sample.empty_page in
  let l := snd (@stream_start Sample.engine p) in
  let st' := @process_line Sample.engine (p, l) line in
  hasCreatedResponseDiv (snd st') = true
  /\ (forall t, @ToString Sample.engine (member "text" ms) = Ok t ->
        fullResponse (snd st') = fullResponse l ++ t)
  /\ (member "text" ms = None ->
        fullResponse (snd st') = fullResponse l ++ "undefined")
  /\ (member "text" ms = Some JNull ->
        fullResponse (snd st') = fullResponse l ++ "null")
  /\ (forall e, @ToString Sample.engine (member "text" ms) = Throw e ->
        fullResponse (snd st') = fullResponse l
        /\ console (fst st')
           = (console (fst (@create_response_div Sample.engine (p, l)))
                ++ [FailedToParse e])%list).
Proof.
  exact (@content_text_is_converted Sample.engine Sample.empty_page
           (snd (@stream_start Sample.engine Sample.empty_page))
           ("data: {" ++ Wire.pair "type" (Wire.quoted "content") ++ "}")
           [("type", JStr "content")] eq_refl eq_refl eq_refl).
Defined.

(** A metadata frame, typed or not: the sources are what the frame
    holds, or the empty array when that is falsy. *)
Lemma process_line_metadata_any `{Engine} p l line ms :
  Js.startsWith line "data: " = true ->
  JSON_parse (Js.slice 6 line) = Ok (JObj ms) ->
  member "type" ms = Some (JStr "metadata") ->
  process_line (p, l) line
  = create_response_div
      (p, with_sources_value (or_else (member "sources" ms) (Some (JArr []))) l).
Proof.
  intros M P T. unfold process_line. rewrite M, P. cbn [get]. rewrite T.
  reflexivity.
Qed.

(** X16: sources that are not a list drop the answer.  When the last
    metadata frame of a stream holds as [sources] a value that is truthy,
    is not an array and has no length of zero (a number, a text, an
    object), and only lines without sources or text follow it, the stream
    ending normally, then the source panel is shown and emptied, the
    attempt to list the sources throws, the error's text is the last
    message shown, and the answer is not pushed to the history. *)
Theorem sources_not_a_list_drop_the_answer `{Engine} (p : page)
    (before after : list string) (mline : string) (ms : list (string * json))
    (v : json) :
  Forall (fun x => no_newline x = true) (before ++ mline :: after) ->
  Js.startsWith mline "data: " = true ->
  JSON_parse (Js.slice 6 mline) = Ok (JObj ms) ->
  member "type" ms = Some (JStr "metadata") ->
  member "sources" ms = Some v ->
  no_sources (Some v) = false ->
  (forall items, v <> JArr items) ->
  Forall (fun x => quiet_line x = true) after ->
  let p' :=
    sendStreamingMessage
      (Responded true ([chunk_of (before ++ mline :: after)], Done)) p in
  sessionId p' = sessionId p
  /\ messages p' = messages p
  /\ sourcesSection_display p' = "block"
  /\ sourcesList p' = []
  /\ last (shown p')
     = Some (Some {| message_type := "assistant";
                     message_content :=
                       TextContent
                         ("Error: "
                          ++ error_message (Native (TypeError "call forEach"))) |}).
Proof.
  intros N M P T S NS NA Q p'. subst p'. unfold sendStreamingMessage.
  cbn [foldl]. rewrite (process_chunk_of _ _ N), foldl_app. cbn [foldl].
  destruct (lines_keep_committed before (stream_start p)) as (C0 & _ & _).
  destruct (foldl process_line (stream_start p) before) as [p1 l1].
  rewrite (process_line_metadata_any p1 l1 mline ms M P T), S.
  assert (Tr : truthy (Some v) = true).
  { unfold no_sources in NS. apply orb_false_iff in NS as [NS _].
    now apply negb_false_iff in NS. }
  unfold or_else. rewrite Tr.
  destruct (create_response_div_committed (p1, with_sources_value (Some v) l1))
    as (C1 & _ & _).
  destruct (create_response_div_locals p1 (with_sources_value (Some v) l1))
    as (_ & So & _ & _).
  destruct (create_response_div (p1, with_sources_value (Some v) l1)) as [p2 l2].
  destruct (lines_keep_committed after (p2, l2)) as (C2 & _ & _).
  destruct (quiet_lines_effect after p2 l2 Q) as (p3 & E3 & _).
  rewrite E3 in *.
  cbn [fst snd] in *. cbn [with_sources_value sources] in So.
  unfold stream_done, displaySourcesWithReferences. rewrite So, NS.
  assert (C : committed_state p3 = committed_state p)
    by (rewrite C2, C1, C0; reflexivity).
  unfold committed_state in C. injection C as Cs Cm _ _.
  destruct v; try (now destruct (NA items)); try (now destruct (NA l));
    (split; [exact Cs|]; split; [exact Cm|];
     split; [reflexivity|]; split; [reflexivity|]; apply shown_show_error).
Qed.

Lemma sources_not_a_list_drop_the_answer_witness :
  let mline :=
    "data: {" ++ Wire.pair "type" (Wire.quoted "metadata") ++ ","
    ++ Wire.pair "sources" (Wire.quoted "doc1.pdf") ++ "}" in
  let p := Sample.empty_page in
  let p' :=
    @sendStreamingMessage Sample.engine
      (Responded true
         ([chunk_of ([Wire.content_line "Hi"] ++ mline :: [""])], Done)) p in
  sessionId p' = sessionId p
  /\ messages p' = messages p
  /\ sourcesSection_display p' = "block"
  /\ sourcesList p' = []
  /\ last (shown p')
     = Some (Some {| message_type := "assistant";
                     message_content :=
                       TextContent
                         ("Error: "
                          ++ @error_message Sample.engine
                               (Native (TypeError "call forEach"))) |}).
Proof.
  apply (@sources_not_a_list_drop_the_answer Sample.engine Sample.empty_page
           [Wire.content_line "Hi"] [""]
           ("data: {" ++ Wire.pair "type" (Wire.quoted "metadata") ++ ","
            ++ Wire.pair "sources" (Wire.quoted "doc1.pdf") ++ "}")
           [("type", JStr "metadata"); ("sources", JStr "doc1.pdf")]
           (JStr "doc1.pdf"));
    try reflexivity; try discriminate; repeat constructor.
Defined.
